(** * Samples of nutils: index bookkeeping of [nutils/sample.py]

    A shallow embedding of the [Sample] class hierarchy of
    [nutils/sample.py]: the attributes every sample stores, the
    constructors of the seven sample classes, [getindex], the
    combinators [__add__], [__mul__], [take_elements], [subset], [zip]
    and [basis], and the triangulations of elements,
    [get_element_tri] and [get_element_hull].  Python integers are [Z], numpy integer arrays are
    [list Z], tuples of strings are [list string], and a raised exception
    is the [Raise] case of the result type [res]. *)

From Stdlib Require Import ZArith Lia.
From stdpp Require Import base list strings numbers.

Local Open Scope Z_scope.
Set Warnings "-register-all".

(** ** Exceptions *)

Inductive exn : Type :=
| IndexError
| ValueError
| TypeError
| ZeroDivisionError
| AssertionError
| AttributeError
| NotImplementedError.

Inductive res (A : Type) : Type :=
| Ok (a : A)
| Raise (e : exn).
Arguments Ok {A} a.
Arguments Raise {A} e.

Definition bind {A B : Type} (m : res A) (k : A → res B) : res B :=
  match m with
  | Ok a => k a
  | Raise e => Raise e
  end.

Notation "'do' x <- m ; k" := (bind m (fun x => k))
  (at level 10, x pattern, m at level 100, k at level 200).

(** [assert c] of Python. *)
Definition assert (c : bool) : res unit :=
  if c then Ok tt else Raise AssertionError.

(** A list comprehension / [tuple(f(x) for x in l)] whose body may raise:
    the first exception, in iteration order, wins. *)
Fixpoint mapM {A B : Type} (f : A → res B) (l : list A) : res (list B) :=
  match l with
  | [] => Ok []
  | x :: l' => do y <- f x; do ys <- mapM f l'; Ok (y :: ys)
  end.

(** A [for] loop threading the mutated state [acc]. *)
Fixpoint foldM {A S : Type} (f : S → A → res S) (acc : S) (l : list A) : res S :=
  match l with
  | [] => Ok acc
  | x :: l' => do acc' <- f acc x; foldM f acc' l'
  end.

(** ** The parts of Python and numpy that the module relies on *)

Module numpy.

(** [len(a)] as a Python integer. *)
Definition len {A : Type} (a : list A) : Z := Z.of_nat (length a).

(** [range(n)] / [numpy.arange(n)]. *)
Definition range (n : Z) : list Z := seqZ 0 n.

(** [numpy.arange(a, b)]. *)
Definition arange (a b : Z) : list Z := seqZ a (b - a).

(** Position of index [i] in an axis of length [n]: negative indices
    count from the end, anything outside [[-n, n)] is an [IndexError]. *)
Definition norm_index (n : nat) (i : Z) : res nat :=
  if (0 <=? i) && (i <? Z.of_nat n) then Ok (Z.to_nat i)
  else if (- Z.of_nat n <=? i) && (i <? 0) then Ok (Z.to_nat (i + Z.of_nat n))
  else Raise IndexError.

(** [a[i]] for an integer [i]. *)
Definition getitem {A : Type} (a : list A) (i : Z) : res A :=
  do n <- norm_index (length a) i;
  match a !! n with
  | Some x => Ok x
  | None => Raise IndexError
  end.

(** [numpy.take(a, idx)] and [a[idx]] for an integer array [idx]. *)
Definition take {A : Type} (a : list A) (idx : list Z) : res (list A) :=
  mapM (getitem a) idx.

(** Bound of a slice: [None] is the default, negative bounds count from
    the end, and everything is clipped to [[0, n]]. *)
Definition slice_bound (n : Z) (dflt : Z) (b : option Z) : Z :=
  match b with
  | None => dflt
  | Some i => if i <? 0 then Z.max 0 (i + n) else Z.min i n
  end.

(** [a[start:stop]]; slicing never raises. *)
Definition getslice {A : Type} (a : list A) (start stop : option Z) : list A :=
  let n := len a in
  let lo := slice_bound n 0 start in
  let hi := slice_bound n n stop in
  list.take (Z.to_nat (hi - lo)) (drop (Z.to_nat lo) a).

(** [a[slice( *args)]]: [slice()] without arguments is a [TypeError],
    [slice(b)] is [[:b]], [slice(a, b)] is [[a:b]]; a third argument
    would be a step, which [a[i:i+2]] never supplies. *)
Definition slice_star {A : Type} (a : list A) (args : list Z) : res (list A) :=
  match args with
  | [stop] => Ok (getslice a None (Some stop))
  | [start; stop] => Ok (getslice a (Some start) (Some stop))
  | _ => Raise TypeError
  end.

(** [numpy.arange( *args)] for the same one or two arguments. *)
Definition arange_star (args : list Z) : res (list Z) :=
  match args with
  | [stop] => Ok (arange 0 stop)
  | [start; stop] => Ok (arange start stop)
  | _ => Raise TypeError
  end.

(** [numpy.cumsum(l)], with [acc] the sum of what precedes [l]. *)
Fixpoint cumsum_from (acc : Z) (l : list Z) : list Z :=
  match l with
  | [] => []
  | x :: l' => (acc + x) :: cumsum_from (acc + x) l'
  end.

Definition cumsum (l : list Z) : list Z := cumsum_from 0 l.

(** [sum(l)]. *)
Definition sum (l : list Z) : Z := foldr Z.add 0 l.

(** [divmod(a, b)]: floored division, as [Z.div] and [Z.modulo]. *)
Definition divmod (a b : Z) : res (Z * Z) :=
  if b =? 0 then Raise ZeroDivisionError else Ok (a `div` b, a `mod` b).

(** [(x[:, None] * m + y[None, :]).ravel()]: row-major flattening of the
    outer combination. *)
Definition outer_ravel (x : list Z) (m : Z) (y : list Z) : list Z :=
  flat_map (fun i => map (fun j => i * m + j) y) x.

(** [a[idx] = vals] for an integer array [idx]: entries are written in
    order, so the last write to a position wins. *)
Fixpoint assign (a : list Z) (idx vals : list Z) : res (list Z) :=
  match idx, vals with
  | i :: idx', v :: vals' =>
      do n <- norm_index (length a) i;
      assign (<[n := v]> a) idx' vals'
  | _, _ => Ok a
  end.

(** Insertion into an ascending list without duplicates. *)
Fixpoint insert_unique (x : Z) (l : list Z) : list Z :=
  match l with
  | [] => [x]
  | y :: l' =>
      if x <? y then x :: l
      else if x =? y then l
      else y :: insert_unique x l'
  end.

(** Position of the first occurrence of [x]. *)
Fixpoint index_of (x : Z) (l : list Z) : Z :=
  match l with
  | [] => 0
  | y :: l' => if x =? y then 0 else 1 + index_of x l'
  end.

Definition count (x : Z) (l : list Z) : Z :=
  len (filter (fun y => y = x) l).

(** [numpy.unique(a, return_inverse=True, return_counts=True)]: the
    sorted distinct values, for every entry of [a] its position among
    them, and how often each of them occurs. *)
Definition unique_values (a : list Z) : list Z := foldr insert_unique [] a.

Definition unique_inverse (a : list Z) : list Z :=
  map (fun x => index_of x (unique_values a)) a.

Definition unique_counts (a : list Z) : list Z :=
  map (fun x => count x a) (unique_values a).

Definition unique (a : list Z) : list Z * list Z * list Z :=
  (unique_values a, unique_inverse a, unique_counts a).

(** Insertion of position [p] into a list of positions that is ordered
    by [key]; [p] goes behind the positions with an equal key. *)
Fixpoint insert_by (key : Z → Z) (p : Z) (l : list Z) : list Z :=
  match l with
  | [] => [p]
  | q :: l' =>
      if key p <? key q then p :: l
      else q :: insert_by key p l'
  end.

(** [numpy.argsort(a)]: the positions of [a] ordered by their entries.
    numpy leaves the order of positions with equal entries to the
    sorting algorithm; here they keep their relative order. *)
Definition argsort (a : list Z) : list Z :=
  let key := fun p => default 0 (a !! Z.to_nat p) in
  foldl (fun acc p => insert_by key p acc) [] (range (len a)).

(** One coordinate tuple of [numpy.ravel_multi_index]: row-major
    (mixed radix) position of [coords] in an array of shape [dims]. *)
Fixpoint ravel_point (acc : Z) (coords dims : list Z) : res Z :=
  match coords, dims with
  | [], [] => Ok acc
  | c :: coords', d :: dims' =>
      if (0 <=? c) && (c <? d) then ravel_point (acc * d + c) coords' dims'
      else Raise ValueError
  | _, _ => Raise ValueError
  end.

(** Column [p] of a two-dimensional array given by its rows. *)
Definition column (rows : list (list Z)) (p : nat) : list Z :=
  map (fun row => default 0 (row !! p)) rows.

(** [numpy.ravel_multi_index(rows, dims)] for rows of length [n]. *)
Definition ravel_multi_index (rows : list (list Z)) (dims : list Z) (n : nat)
  : res (list Z) :=
  mapM (fun p => ravel_point 0 (column rows p) dims) (seq 0 n).

(** Coordinates of the flat position [v], last axis first. *)
Fixpoint unravel_point (v : Z) (rdims : list Z) (acc : list Z) : list Z :=
  match rdims with
  | [] => acc
  | d :: rdims' => unravel_point (v `div` d) rdims' (v `mod` d :: acc)
  end.

Definition size (dims : list Z) : Z := foldr Z.mul 1 dims.

(** [numpy.unravel_index(flat, dims)]: one array per axis. *)
Definition unravel_index (flat : list Z) (dims : list Z) : res (list (list Z)) :=
  do pts <- mapM (fun v =>
              if (0 <=? v) && (v <? size dims)
              then Ok (unravel_point v (rev dims) [])
              else Raise ValueError) flat;
  Ok (imap (fun i _ => map (fun pt => default 0 (pt !! i)) pts) dims).

End numpy.

(** ** External collaborators

    [nutils.pointsseq] and [nutils.transformseq] are not part of this
    module; only what [sample.py] asks of them appears here. *)

(** The points of one element, [points.get(ielem)]: their number and the
    local triangulations [tri] and [hull]. *)
Record Points : Type := mkPoints {
  points_npoints : nat;
  points_tri : list (list Z);
  points_hull : list (list Z);
}.

(** A [PointsSequence] is the sequence of the points of its elements;
    [len(points)] is its length and [points.npoints] the total. *)
Definition PointsSequence : Type := list Points.

(** [p.npoints] as a Python integer. *)
Definition Points_npoints (p : Points) : Z := Z.of_nat (points_npoints p).

Definition PointsSequence_npoints (points : PointsSequence) : Z :=
  numpy.sum (map Points_npoints points).

(** A [Transforms] object: one chain (here an opaque identifier) per
    element, and the dimension [fromdims] they start from. *)
Record Transforms : Type := mkTransforms {
  fromdims : Z;
  chains : list Z;
}.

(** [transform[selection]] for an integer array [selection]. *)
Definition Transforms_getitem (t : Transforms) (selection : list Z) : res Transforms :=
  do c <- numpy.take (chains t) selection;
  Ok (mkTransforms (fromdims t) c).

(** [points.take(selection)]. *)
Definition PointsSequence_take (points : PointsSequence) (selection : list Z)
  : res PointsSequence :=
  numpy.take points selection.

(** ** Samples *)

(** The four attributes set by [Sample.__init__]. *)
Record Attrs : Type := mkAttrs {
  attr_spaces : list string;
  attr_ndims : Z;
  attr_nelems : Z;
  attr_npoints : Z;
}.

(** The sample classes, each with the attributes its [__init__] stores. *)
Inductive Sample : Type :=
| DefaultIndex (a : Attrs) (space : string) (transforms : list Transforms)
    (points : PointsSequence)
| CustomIndex (a : Attrs) (space : string) (transforms : list Transforms)
    (points : PointsSequence) (_parent : Sample) (_index : list Z)
| Empty (a : Attrs)
| Add (a : Attrs) (_sample1 _sample2 : Sample)
| Mul (a : Attrs) (_sample1 _sample2 : Sample)
| Zip (a : Attrs) (_samples : list Sample) (_offsets _sizes _indices : list Z)
    (_ielems _ilocals : list (list Z))
| TakeElements (a : Attrs) (_parent : Sample) (_indices : list Z)
    (_offsets : list Z).

Definition attrs (s : Sample) : Attrs :=
  match s with
  | DefaultIndex a _ _ _ | CustomIndex a _ _ _ _ _ | Empty a | Add a _ _
  | Mul a _ _ | Zip a _ _ _ _ _ _ | TakeElements a _ _ _ => a
  end.

Definition spaces (s : Sample) : list string := attr_spaces (attrs s).
Definition ndims (s : Sample) : Z := attr_ndims (attrs s).
Definition nelems (s : Sample) : Z := attr_nelems (attrs s).
Definition npoints (s : Sample) : Z := attr_npoints (attrs s).

(** [_DefaultIndex.offsets]. *)
Definition offsets (points : PointsSequence) : list Z :=
  numpy.cumsum (0 :: map Points_npoints points).

(** [0 <= ielem < nelems]. *)
Definition in_range (ielem n : Z) : bool := (0 <=? ielem) && (ielem <? n).

(** [getindex] of each class. *)
Fixpoint getindex (s : Sample) (ielem : Z) : res (list Z) :=
  match s with
  | DefaultIndex a _ _ points =>
      if negb (in_range ielem (attr_nelems a)) then Raise IndexError
      else numpy.arange_star
             (numpy.getslice (offsets points) (Some ielem) (Some (ielem + 2)))
  | CustomIndex _ _ _ _ parent index =>
      do i <- getindex parent ielem;
      numpy.take index i
  | Empty _ => Raise IndexError
  | Add _ sample1 sample2 =>
      if ielem <? nelems sample1 then getindex sample1 ielem
      else
        do i <- getindex sample2 (ielem - nelems sample1);
        Ok (map (fun p => p + npoints sample1) i)
  | Mul _ sample1 sample2 =>
      do (ielem1, ielem2) <- numpy.divmod ielem (nelems sample2);
      do index1 <- getindex sample1 ielem1;
      do index2 <- getindex sample2 ielem2;
      Ok (numpy.outer_ravel index1 (npoints sample2) index2)
  | Zip _ _ _offsets _ _indices _ _ =>
      numpy.slice_star _indices
        (numpy.getslice _offsets (Some ielem) (Some (ielem + 2)))
  | TakeElements a _ _ _offsets =>
      if negb (in_range ielem (attr_nelems a)) then Raise IndexError
      else
        do lo <- numpy.getitem _offsets ielem;
        do hi <- numpy.getitem _offsets (ielem + 1);
        Ok (numpy.arange lo hi)
  end.

(** [Sample.index]. *)
Definition index (s : Sample) : res (list (list Z)) :=
  mapM (getindex s) (numpy.range (nelems s)).

(** *** Constructors *)

(** [_TransformChainsSample.__init__], shared by the two leaf classes:
    the attributes of a sample on [space]. *)
Definition _TransformChainsSample_init (space : string)
    (transforms : list Transforms) (points : PointsSequence) : res Attrs :=
  do _ <- assert (1 <=? numpy.len transforms);
  do _ <- assert (forallb (fun t => numpy.len (chains t) =? numpy.len points) transforms);
  do t0 <- numpy.getitem transforms 0;
  Ok (mkAttrs [space] (fromdims t0) (numpy.len points) (PointsSequence_npoints points)).

Definition _DefaultIndex_init (space : string) (transforms : list Transforms)
    (points : PointsSequence) : res Sample :=
  do a <- _TransformChainsSample_init space transforms points;
  Ok (DefaultIndex a space transforms points).

(** [_CustomIndex.__init__]; the parent has to be a leaf, the only
    samples with [space], [transforms] and [points]. *)
Definition _CustomIndex_init (parent : Sample) (index : list Z) : res Sample :=
  do _ <- assert (numpy.len index =? npoints parent);
  match parent with
  | DefaultIndex _ space transforms points
  | CustomIndex _ space transforms points _ _ =>
      do a <- _TransformChainsSample_init space transforms points;
      Ok (CustomIndex a space transforms points parent index)
  | _ => Raise AttributeError
  end.

(** [Sample.new]. A tuple of per-element arrays is concatenated after the
    assertion on the shapes. *)
Inductive IndexArg : Type :=
| IndexNone
| IndexArray (index : list Z)
| IndexTuple (index : list (list Z)).

Fixpoint shapes_match (index : list (list Z)) (points : PointsSequence) : bool :=
  match index, points with
  | ind :: index', pnt :: points' =>
      (numpy.len ind =? Points_npoints pnt) && shapes_match index' points'
  | _, _ => true
  end.

Definition new (space : string) (transforms : list Transforms)
    (points : PointsSequence) (index : IndexArg) : res Sample :=
  do sample <- _DefaultIndex_init space transforms points;
  match index with
  | IndexNone => Ok sample
  | IndexArray ind => _CustomIndex_init sample ind
  | IndexTuple inds =>
      do _ <- assert (shapes_match inds points);
      _CustomIndex_init sample (concat inds)
  end.

(** [_Empty.__init__] and [Sample.empty]. *)
Definition _Empty_init (spaces : list string) (ndims : Z) : Sample :=
  Empty (mkAttrs spaces ndims 0 0).

Definition empty (spaces : list string) (ndims : Z) : Sample :=
  _Empty_init spaces ndims.

Definition spaces_eqb (x y : list string) : bool := bool_decide (x = y).

Definition _Add_init (sample1 sample2 : Sample) : res Sample :=
  do _ <- assert (spaces_eqb (spaces sample1) (spaces sample2));
  Ok (Add (mkAttrs (spaces sample1) (ndims sample1)
             (nelems sample1 + nelems sample2)
             (npoints sample1 + npoints sample2))
          sample1 sample2).

(** [set(x).isdisjoint(set(y))]. *)
Definition isdisjoint (x y : list string) : bool :=
  forallb (fun sp => bool_decide (sp ∉ y)) x.

Definition _Mul_init (sample1 sample2 : Sample) : res Sample :=
  do _ <- assert (isdisjoint (spaces sample1) (spaces sample2));
  Ok (Mul (mkAttrs (spaces sample1 ++ spaces sample2)
             (ndims sample1 + ndims sample2)
             (nelems sample1 * nelems sample2)
             (npoints sample1 * npoints sample2))
          sample1 sample2).

(** [_TakeElements.__init__]. [_offsets] is evaluated here, for the
    number of points, and cached. *)
Definition _TakeElements_init (parent : Sample) (indices : list Z) : res Sample :=
  do _ <- assert (0 <? numpy.len indices);
  do sizes <- mapM (fun i => do ind <- getindex parent i; Ok (numpy.len ind)) indices;
  let _offsets := numpy.cumsum (0 :: sizes) in
  do n <- numpy.getitem _offsets (-1);
  Ok (TakeElements (mkAttrs (spaces parent) (ndims parent) (numpy.len indices) n)
        parent indices _offsets).

(** *** Combinators *)

(** [Sample.__add__]. *)
Definition __add__ (self other : Sample) : res Sample :=
  if negb (spaces_eqb (spaces self) (spaces other)) then Raise ValueError
  else if npoints other =? 0 then Ok self
  else if npoints self =? 0 then Ok other
  else _Add_init self other.

(** [Sample.__mul__]. *)
Definition __mul__ (self other : Sample) : res Sample :=
  if negb (isdisjoint (spaces self) (spaces other)) then Raise ValueError
  else _Mul_init self other.

(** [a[mask]] for a boolean array [mask]. *)
Fixpoint compress {A : Type} (mask : list bool) (a : list A) : list A :=
  match mask, a with
  | m :: mask', x :: a' => if m then x :: compress mask' a' else compress mask' a'
  | _, _ => []
  end.

(** [take_elements]: the method of [Sample], overridden by [_Empty],
    [_Add] and [_TakeElements]. *)
Fixpoint take_elements (s : Sample) (indices : list Z) : res Sample :=
  match s with
  | Empty _ => Ok s
  | Add _ sample1 sample2 =>
      let mask := map (fun i => i <? nelems sample1) indices in
      do r1 <- take_elements sample1 (compress mask indices);
      do r2 <- take_elements sample2
                 (map (fun i => i - nelems sample1) (compress (map negb mask) indices));
      __add__ r1 r2
  | TakeElements _ parent _indices _ =>
      do i <- numpy.take _indices indices;
      take_elements parent i
  | _ =>
      if 0 <? numpy.len indices then _TakeElements_init s indices
      else Ok (empty (spaces s) (ndims s))
  end.

(** [[ielem for ielem in range(self.nelems) if mask[self.getindex(ielem)].any()]],
    the elements with a marked point. *)
Fixpoint selected (s : Sample) (mask : list bool) (ielems : list Z) : res (list Z) :=
  match ielems with
  | [] => Ok []
  | ielem :: ielems' =>
      do ind <- getindex s ielem;
      do m <- numpy.take mask ind;
      do rest <- selected s mask ielems';
      Ok (if existsb id m then ielem :: rest else rest)
  end.

Definition selection (s : Sample) (mask : list bool) : res (list Z) :=
  selected s mask (numpy.range (nelems s)).

(** [subset]: the method of [Sample], overridden by
    [_TransformChainsSample] for the two leaf classes. *)
Definition subset (s : Sample) (mask : list bool) : res Sample :=
  match s with
  | DefaultIndex _ space transforms points
  | CustomIndex _ space transforms points _ _ =>
      do sel <- selection s mask;
      do transforms' <- mapM (fun t => Transforms_getitem t sel) transforms;
      do points' <- PointsSequence_take points sel;
      new space transforms' points' IndexNone
  | _ =>
      do sel <- selection s mask;
      take_elements s sel
  end.

(** *** Zipped samples *)

(** The body of the loop of [_Zip.__init__] for one element of one
    sample, on that sample's rows of [ielems] and [ilocals]. *)
Definition zip_fill_elem (sample : Sample) (rows : list Z * list Z) (ielem : Z)
  : res (list Z * list Z) :=
  do indices <- getindex sample ielem;
  do r1 <- numpy.assign (fst rows) indices (replicate (length indices) ielem);
  do r2 <- numpy.assign (snd rows) indices (numpy.range (numpy.len indices));
  Ok (r1, r2).

(** The rows of [ielems] and [ilocals] of one sample; [junk] is what the
    array returned by [numpy.empty] holds before it is written. *)
Definition zip_fill (junk : Z) (n : Z) (sample : Sample) : res (list Z * list Z) :=
  let fresh := replicate (Z.to_nat n) junk in
  foldM (zip_fill_elem sample) (fresh, fresh) (numpy.range (nelems sample)).

(** [len(set(spaces)) < len(spaces)]. *)
Definition has_duplicates (spaces : list string) : bool :=
  numpy.len (remove_dups spaces) <? numpy.len spaces.

(** [_Zip.__init__]. *)
Definition _Zip_init (junk : Z) (samples : list Sample) : res Sample :=
  match samples with
  | [] => Raise IndexError
  | sample0 :: _ =>
      let n := npoints sample0 in
      let sp := concat (map spaces samples) in
      if negb (forallb (fun sample => npoints sample =? n) samples) then Raise ValueError
      else if has_duplicates sp then Raise ValueError
      else if n <? 0 then Raise ValueError
      else
        do rows <- mapM (zip_fill junk n) samples;
        let ielems := map fst rows in
        let ilocals := map snd rows in
        let nelems := map nelems samples in
        do flat_ielems <- numpy.ravel_multi_index ielems nelems (Z.to_nat n);
        let '(flat_ielems, inverse, sizes) := numpy.unique flat_ielems in
        let _offsets := numpy.cumsum (0 :: sizes) in
        let _indices := numpy.argsort inverse in
        do _ielems <- numpy.unravel_index flat_ielems nelems;
        do _ilocals <- mapM (fun ilocal => numpy.take ilocal _indices) ilocals;
        Ok (Zip (mkAttrs sp (ndims sample0) (numpy.len sizes) n)
              samples _offsets sizes _indices _ielems _ilocals)
  end.

(** [Sample.zip]. *)
Definition zip (junk : Z) (samples : list Sample) : res Sample :=
  _Zip_init junk samples.

(** *** Basis *)

(** The arrays that [basis] returns: a [_Basis] node, [function.zeros]
    of a shape, or the ravelled outer product of two of them. *)
Inductive Array : Type :=
| Basis (sample : Sample) (interpolation : string) (shape : list Z)
| Zeros (shape : list Z)
| RavelOuter (basis1 basis2 : Array).

Definition Array_ndim (f : Array) : Z :=
  match f with
  | Basis _ _ shape | Zeros shape => numpy.len shape
  | RavelOuter _ _ => 1
  end.

(** The values of [interpolation] that [_Basis.__init__] accepts. *)
Definition interpolations : list string := ["none"; "nearest"]%string.

(** [_Basis.__init__]. *)
Definition _Basis_init (sample : Sample) (interpolation : string) : res Array :=
  if negb (bool_decide (interpolation ∈ interpolations))
  then Raise ValueError
  else Ok (Basis sample interpolation [npoints sample]).

(** [basis]: not implemented by [Sample], defined by
    [_TransformChainsSample], [_Empty] and [_Mul]. *)
Fixpoint basis (s : Sample) (interpolation : string) : res Array :=
  match s with
  | DefaultIndex _ _ _ _ | CustomIndex _ _ _ _ _ _ => _Basis_init s interpolation
  | Empty _ => Ok (Zeros [0])
  | Mul _ sample1 sample2 =>
      do basis1 <- basis sample1 interpolation;
      do basis2 <- basis sample2 interpolation;
      do _ <- assert ((Array_ndim basis1 =? Array_ndim basis2) && (Array_ndim basis2 =? 1));
      Ok (RavelOuter basis1 basis2)
  | _ => Raise NotImplementedError
  end.

(** ** Samples that can exist

    Every sample object is the result of one of the constructors, applied
    to samples that were themselves constructed. *)
Inductive Constructed : Sample → Prop :=
| C_DefaultIndex space transforms points s :
    _DefaultIndex_init space transforms points = Ok s → Constructed s
| C_CustomIndex parent index s :
    Constructed parent → _CustomIndex_init parent index = Ok s → Constructed s
| C_Empty spaces ndims :
    Constructed (_Empty_init spaces ndims)
| C_Add sample1 sample2 s :
    Constructed sample1 → Constructed sample2 →
    _Add_init sample1 sample2 = Ok s → Constructed s
| C_Mul sample1 sample2 s :
    Constructed sample1 → Constructed sample2 →
    _Mul_init sample1 sample2 = Ok s → Constructed s
| C_Zip junk samples s :
    Forall Constructed samples → _Zip_init junk samples = Ok s → Constructed s
| C_TakeElements parent indices s :
    Constructed parent → _TakeElements_init parent indices = Ok s → Constructed s.

(** ** Order *)

(** The positions in [l] are ordered by [key]. *)
Fixpoint sorted_by (key : Z → Z) (l : list Z) : Prop :=
  match l with
  | [] => True
  | q :: l' => Forall (fun p => key q ≤ key p) l' ∧ sorted_by key l'
  end.

(** The entries of [l] are strictly increasing. *)
Definition increasing (l : list Z) : Prop := sorted_by (fun x => x) l ∧ NoDup l.

(** ** Points and elements *)

(** Point [p] belongs to element [ielem] of [s]. *)
Definition contains (s : Sample) (ielem p : Z) : Prop :=
  0 ≤ ielem < nelems s ∧ ∃ ind, getindex s ielem = Ok ind ∧ p ∈ ind.

(** Element [ielem] of [s] has a point that [mask] marks. *)
Definition marked (s : Sample) (mask : list bool) (ielem : Z) : Prop :=
  ∃ ind p, getindex s ielem = Ok ind ∧ p ∈ ind ∧ numpy.getitem mask p = Ok true.

(** The elements of [s] partition its points: [getindex] is defined on
    every element and, taken together, the results enumerate
    [0 .. npoints - 1] without repetition. *)
Definition partitions (s : Sample) : Prop :=
  ∃ idx, index s = Ok idx ∧ concat idx ≡ₚ numpy.range (npoints s).

(** Every index array of a reindexed part of [s] holds each position of
    the parent's points once. *)
Fixpoint permuted (s : Sample) : Prop :=
  match s with
  | CustomIndex _ _ _ _ parent index =>
      permuted parent ∧ index ≡ₚ numpy.range (numpy.len index)
  | Add _ sample1 sample2 | Mul _ sample1 sample2 =>
      permuted sample1 ∧ permuted sample2
  | _ => True
  end.

(** The attributes [_offsets], [_indices] and [_ielems] of a zipped
    sample. *)
Definition zip_offsets (s : Sample) : list Z :=
  match s with
  | Zip _ _ _offsets _ _ _ _ => _offsets
  | _ => []
  end.

Definition zip_indices (s : Sample) : list Z :=
  match s with
  | Zip _ _ _ _ _indices _ _ => _indices
  | _ => []
  end.

Definition zip_ielems (s : Sample) : list (list Z) :=
  match s with
  | Zip _ _ _ _ _ _ielems _ => _ielems
  | _ => []
  end.

(** The tuple of element indices, one per zipped sample, that a zipped
    sample records for its element [ielem]. *)
Definition element_tuple (z : Sample) (ielem : Z) : list Z :=
  map (fun row => default 0 (row !! Z.to_nat ielem)) (zip_ielems z).

(** [t] is the tuple of the elements that hold point [p] in each of
    [samples]. *)
Definition point_tuple (samples : list Sample) (p : Z) (t : list Z) : Prop :=
  Forall2 (fun s ielem => contains s ielem p) samples t.

(** ** Classes of samples *)

(** The leaf classes, derived from [_TransformChainsSample]. *)
Definition transform_backed (s : Sample) : bool :=
  match s with
  | DefaultIndex _ _ _ _ | CustomIndex _ _ _ _ _ _ => true
  | _ => false
  end.


(** The samples whose [getindex] checks the element index: all classes
    but [_Zip] check it themselves or leave it to a part; [_Mul] leaves it
    to its first factor, after a division by the number of elements of
    the second. *)
Fixpoint guarded (s : Sample) : bool :=
  match s with
  | DefaultIndex _ _ _ _ | Empty _ | TakeElements _ _ _ _ => true
  | CustomIndex _ _ _ _ parent _ => guarded parent
  | Add _ sample1 sample2 => guarded sample1 && guarded sample2
  | Mul _ sample1 sample2 => guarded sample1 && negb (nelems sample2 =? 0)
  | Zip _ _ _ _ _ _ _ => false
  end.

(** The classes that inherit [take_elements] from [Sample]. *)
Definition inherits_take_elements (s : Sample) : bool :=
  match s with
  | DefaultIndex _ _ _ _ | CustomIndex _ _ _ _ _ _ | Mul _ _ _
  | Zip _ _ _ _ _ _ _ => true
  | _ => false
  end.


(** ** Further attributes and methods

    Sizes of elements, the attributes of the leaf classes and of zipped
    samples, the shape of a basis, and the triangulations of elements. *)

(** [[len(s.getindex(i)) for i in indices]]. *)
Definition element_sizes (s : Sample) (indices : list Z) : res (list Z) :=
  mapM (fun i => do ind <- getindex s i; Ok (numpy.len ind)) indices.

(** [numpy.count_nonzero(mask)]: the number of marked points. *)
Definition count_nonzero (mask : list bool) : Z :=
  numpy.len (filter (fun b => b = true) mask).

(** [self.points] of the leaf classes. *)
Definition sample_points (s : Sample) : PointsSequence :=
  match s with
  | DefaultIndex _ _ _ points | CustomIndex _ _ _ points _ _ => points
  | _ => []
  end.

(** [self.transforms] of the leaf classes. *)
Definition sample_transforms (s : Sample) : list Transforms :=
  match s with
  | DefaultIndex _ _ transforms _ | CustomIndex _ _ transforms _ _ _ => transforms
  | _ => []
  end.

(** [self.space] of the leaf classes. *)
Definition sample_space (s : Sample) : string :=
  match s with
  | DefaultIndex _ space _ _ | CustomIndex _ space _ _ _ _ => space
  | _ => EmptyString
  end.

(** The attribute [_sizes] of a zipped sample. *)
Definition zip_sizes (s : Sample) : list Z :=
  match s with
  | Zip _ _ _ _sizes _ _ _ => _sizes
  | _ => []
  end.

(** The attribute [_ilocals] of a zipped sample. *)
Definition zip_ilocals (s : Sample) : list (list Z) :=
  match s with
  | Zip _ _ _ _ _ _ _ilocals => _ilocals
  | _ => []
  end.

(** What [take_elements] returns: the empty sample, an element subset of
    a sample that does not override [take_elements], or a sum of such
    samples. *)
Fixpoint plain_subset (s : Sample) : bool :=
  match s with
  | Empty _ => true
  | TakeElements _ parent _ _ => inherits_take_elements parent
  | Add _ sample1 sample2 => plain_subset sample1 && plain_subset sample2
  | _ => false
  end.

(** The shape of the arrays that [basis] returns:
    [numpy.ravel(basis1[:, None] * basis2[None, :])] has one axis, as
    long as the product of the two arrays. *)
Fixpoint Array_shape (f : Array) : list Z :=
  match f with
  | Basis _ _ shape | Zeros shape => shape
  | RavelOuter basis1 basis2 =>
      [numpy.size (Array_shape basis1) * numpy.size (Array_shape basis2)]
  end.

(** *** Triangulations of elements *)

(** [points.get(ielem)], for an element index that was checked. *)
Definition PointsSequence_get (points : PointsSequence) (ielem : Z) : res Points :=
  numpy.getitem points ielem.

(** The array arithmetic that combines the triangulations of the two
    factors of a product relies on [numeric.overlapping], which is not
    part of this module.  [product_tri tri1 npoints2 tri2 ndims] stands
    for
    [numeric.overlapping((tri1[:,None,:,None]*npoints2 + tri2[None,:,None,:]).reshape(-1, 2*ndims), n=ndims+1).reshape(-1, ndims+1)],
    and [product_hull hull1 tri2 tri1 hull2 npoints2 ndims] for the
    concatenation that [_Mul.get_element_hull] returns. *)
Definition ProductTri : Type :=
  list (list Z) → Z → list (list Z) → Z → res (list (list Z)).

Definition ProductHull : Type :=
  list (list Z) → list (list Z) → list (list Z) → list (list Z) → Z → Z →
  res (list (list Z)).

Section Triangulation.

Variable product_tri : ProductTri.
Variable product_hull : ProductHull.

(** [get_element_tri] and [get_element_hull] of each class; [Sample]
    itself implements neither, so that a zipped sample raises
    [NotImplementedError]. *)
Fixpoint get_element_tri (s : Sample) (ielem : Z) : res (list (list Z)) :=
  match s with
  | DefaultIndex a _ _ points | CustomIndex a _ _ points _ _ =>
      if negb (in_range ielem (attr_nelems a)) then Raise IndexError
      else do p <- PointsSequence_get points ielem; Ok (points_tri p)
  | Empty _ => Raise IndexError
  | Add _ sample1 sample2 =>
      if ielem <? nelems sample1 then get_element_tri sample1 ielem
      else get_element_tri sample2 (ielem - nelems sample1)
  | Mul a sample1 sample2 =>
      if ndims sample1 =? 1 then
        do (ielem1, ielem2) <- numpy.divmod ielem (nelems sample2);
        do index2 <- getindex sample2 ielem2;
        let npoints2 := numpy.len index2 in
        do tri1 <- get_element_tri sample1 ielem1;
        do tri2 <- get_element_tri sample2 ielem2;
        product_tri tri1 npoints2 tri2 (attr_ndims a)
      else if npoints sample1 =? 1 then get_element_tri sample2 ielem
      else if npoints sample2 =? 1 then get_element_tri sample1 ielem
      else Raise NotImplementedError
  | Zip _ _ _ _ _ _ _ => Raise NotImplementedError
  | TakeElements a parent _indices _ =>
      if negb (in_range ielem (attr_nelems a)) then Raise IndexError
      else do i <- numpy.getitem _indices ielem; get_element_tri parent i
  end.

Fixpoint get_element_hull (s : Sample) (ielem : Z) : res (list (list Z)) :=
  match s with
  | DefaultIndex a _ _ points | CustomIndex a _ _ points _ _ =>
      if negb (in_range ielem (attr_nelems a)) then Raise IndexError
      else do p <- PointsSequence_get points ielem; Ok (points_hull p)
  | Empty _ => Raise IndexError
  | Add _ sample1 sample2 =>
      if ielem <? nelems sample1 then get_element_hull sample1 ielem
      else get_element_hull sample2 (ielem - nelems sample1)
  | Mul a sample1 sample2 =>
      if ndims sample1 =? 1 then
        do (ielem1, ielem2) <- numpy.divmod ielem (nelems sample2);
        do index2 <- getindex sample2 ielem2;
        let npoints2 := numpy.len index2 in
        do hull1 <- get_element_hull sample1 ielem1;
        do tri2 <- get_element_tri sample2 ielem2;
        do tri1 <- get_element_tri sample1 ielem1;
        do hull2 <- get_element_hull sample2 ielem2;
        product_hull hull1 tri2 tri1 hull2 npoints2 (attr_ndims a)
      else if npoints sample1 =? 1 then get_element_hull sample2 ielem
      else if npoints sample2 =? 1 then get_element_hull sample1 ielem
      else Raise NotImplementedError
  | Zip _ _ _ _ _ _ _ => Raise NotImplementedError
  | TakeElements a parent _indices _ =>
      if negb (in_range ielem (attr_nelems a)) then Raise IndexError
      else do i <- numpy.getitem _indices ielem; get_element_hull parent i
  end.

End Triangulation.

(** Leaves, the empty sample, and sums and element subsets of them: the
    samples whose elements each are an element of a leaf. *)
Fixpoint leaf_elements (s : Sample) : bool :=
  match s with
  | DefaultIndex _ _ _ _ | CustomIndex _ _ _ _ _ _ | Empty _ => true
  | Add _ sample1 sample2 => leaf_elements sample1 && leaf_elements sample2
  | TakeElements _ parent _ _ => leaf_elements parent
  | Mul _ _ _ | Zip _ _ _ _ _ _ _ => false
  end.

(** Every vertex of the local triangulation [t] is one of [n] points. *)
Definition local_vertices (t : list (list Z)) (n : Z) : Prop :=
  Forall (Forall (fun v => 0 ≤ v < n)) t.

(** The triangulations that the points of the leaves of [s] supply refer
    to the points of their element only. *)
Fixpoint points_valid (s : Sample) : Prop :=
  match s with
  | DefaultIndex _ _ _ points | CustomIndex _ _ _ points _ _ =>
      Forall (fun p => local_vertices (points_tri p) (Points_npoints p) ∧
                       local_vertices (points_hull p) (Points_npoints p)) points
  | Add _ sample1 sample2 | Mul _ sample1 sample2 =>
      points_valid sample1 ∧ points_valid sample2
  | TakeElements _ parent _ _ => points_valid parent
  | Empty _ | Zip _ _ _ _ _ _ _ => True
  end.

(** Points [p] and [q] of [s] belong to the same element. *)
Definition same_element (s : Sample) (p q : Z) : Prop :=
  ∃ e, contains s e p ∧ contains s e q.

(** [index is None], or the shape that [Sample.new] asserts of it. *)
Definition index_fits (points : PointsSequence) (index : IndexArg) : bool :=
  match index with
  | IndexNone => true
  | IndexArray ind => numpy.len ind =? PointsSequence_npoints points
  | IndexTuple inds =>
      shapes_match inds points
      && (numpy.len (concat inds) =? PointsSequence_npoints points)
  end.

(** ** Concrete samples used in the examples below *)

Module Examples.

(** A leaf sample on [space] of dimension [d] whose elements have
    [ns] points. *)
Definition leaf (space : string) (d : Z) (ns : list nat) : res Sample :=
  new space [mkTransforms d (numpy.range (numpy.len ns))]
    (map (fun n => mkPoints n [] []) ns) IndexNone.

(** The sample that a construction returned; the constructions below
    all succeed. *)
Definition or_empty (r : res Sample) : Sample :=
  match r with
  | Ok s => s
  | Raise _ => empty [] 0
  end.

(** One element with three points on space X. *)
Definition X3 : Sample := or_empty (leaf "X" 1 [3%nat]).
(** Three elements with one point each on space Y, of dimension 2. *)
Definition Y111 : Sample := or_empty (leaf "Y" 2 [1; 1; 1]%nat).
(** One element with two points on space X. *)
Definition X2 : Sample := or_empty (leaf "X" 1 [2%nat]).
(** One element without points on space X. *)
Definition X0 : Sample := or_empty (leaf "X" 1 [0%nat]).
(** One element with one point on space X. *)
Definition X1 : Sample := or_empty (leaf "X" 1 [1%nat]).
(** Two elements with one point each on space X, evaluated in the
    order given by the index [1, 0]. *)
Definition X11_swapped : Sample :=
  or_empty (new "X" [mkTransforms 1 [0; 1]]
              [mkPoints 1 [] []; mkPoints 1 [] []] (IndexArray [1; 0])).

(** The sum of a one-point element and a two-point element. *)
Definition X1_plus_X2 : Sample := or_empty (__add__ X1 X2).

End Examples.

(** Further samples: a leaf on a third space, and line elements with
    their triangulations. *)
Module Examples2.

(** One element with two points on space Z. *)
Definition Z2 : Sample := Examples.or_empty (Examples.leaf "Z" 1 [2%nat]).

(** Two line elements with two points each on space X, each with one
    simplex between its two points and the two end points as hull. *)
Definition segment : Points := mkPoints 2 [[0; 1]] [[0]; [1]].

Definition L22 : Sample :=
  Examples.or_empty
    (new "X" [mkTransforms 1 [0; 1]] [segment; segment] IndexNone).

(** The second and the first element of [L22], in this order. *)
Definition L22_swapped : Sample :=
  Examples.or_empty (take_elements L22 [1; 0]).

End Examples2.

(** * Properties *)

(** ** Results and exceptions *)

Lemma bind_Ok {A B : Type} (m : res A) (k : A → res B) (b : B) :
  bind m k = Ok b ↔ ∃ a, m = Ok a ∧ k a = Ok b.
Proof.
  destruct m as [a|e]; simpl.
  - split; [eauto | intros (a' & [= ->] & H); exact H].
  - split; [discriminate | intros (a' & [=] & _)].
Qed.

Lemma assert_Ok (c : bool) (u : unit) : assert c = Ok u ↔ c = true.
Proof. destruct c, u; simpl; split; (reflexivity || discriminate). Qed.

(** Splits a hypothesis [bind ... = Ok _] into its steps. *)
Ltac inv_bind H :=
  repeat match type of H with
  | bind _ _ = Ok _ =>
      let r := fresh "r" in
      let Hr := fresh "Hr" in
      apply bind_Ok in H as (r & Hr & H)
  end.

Lemma mapM_Ok_length {A B : Type} (f : A → res B) (l : list A) (r : list B) :
  mapM f l = Ok r → length r = length l.
Proof.
  revert r; induction l as [|x l IH]; intros r H; simpl in H.
  - injection H as <-; reflexivity.
  - inv_bind H. injection H as <-. simpl. f_equal. eauto.
Qed.

Lemma mapM_Ok_lookup {A B : Type} (f : A → res B) (l : list A) (r : list B) :
  mapM f l = Ok r →
  ∀ (i : nat) (x : A), l !! i = Some x → ∃ y, r !! i = Some y ∧ f x = Ok y.
Proof.
  revert r; induction l as [|x l IH]; intros r H i x' Hi; simpl in H.
  - discriminate.
  - inv_bind H. injection H as <-. destruct i as [|i]; simpl in *.
    + injection Hi as <-. eauto.
    + eauto.
Qed.

Lemma mapM_total {A B : Type} (f : A → res B) (l : list A) :
  (∀ x, x ∈ l → ∃ y, f x = Ok y) → ∃ r, mapM f l = Ok r.
Proof.
  induction l as [|x l IH]; intros H; simpl.
  - eauto.
  - destruct (H x) as [y Hy]; [left|]. rewrite Hy. simpl.
    destruct IH as [r Hr]; [intros; apply H; right; assumption|].
    rewrite Hr. simpl. eauto.
Qed.

Lemma mapM_Ok_map {A B : Type} (f : A → B) (l : list A) :
  mapM (fun x => Ok (f x)) l = Ok (map f l).
Proof. induction l as [|x l IH]; simpl; [|rewrite IH]; reflexivity. Qed.

(** ** Spaces *)

Lemma spaces_eqb_true (x y : list string) : spaces_eqb x y = true ↔ x = y.
Proof. unfold spaces_eqb. apply bool_decide_eq_true. Qed.

Lemma isdisjoint_true (x y : list string) :
  isdisjoint x y = true ↔ ∀ sp, sp ∈ x → sp ∉ y.
Proof.
  unfold isdisjoint. rewrite forallb_forall. split.
  - intros H sp Hsp. apply list_elem_of_In in Hsp.
    specialize (H sp Hsp). apply bool_decide_eq_true in H. exact H.
  - intros H sp Hsp. apply bool_decide_eq_true, H, list_elem_of_In, Hsp.
Qed.

Lemma isdisjoint_false (x y : list string) :
  isdisjoint x y = false ↔ ∃ sp, sp ∈ x ∧ sp ∈ y.
Proof.
  split.
  - intros H. induction x as [|sp x IH]; simpl in H; [discriminate|].
    apply andb_false_iff in H as [H|H].
    + apply bool_decide_eq_false in H. exists sp. split; [left|].
      destruct (decide (sp ∈ y)); [assumption | contradiction].
    + destruct (IH H) as (sp' & H1 & H2). exists sp'. split; [right|]; assumption.
  - intros (sp & H1 & H2). destruct (isdisjoint x y) eqn:E; [|reflexivity].
    rewrite isdisjoint_true in E. exfalso. exact (E sp H1 H2).
Qed.

Lemma spaces_eqb_false (x y : list string) : x ≠ y → spaces_eqb x y = false.
Proof. unfold spaces_eqb. apply bool_decide_eq_false. Qed.

Lemma remove_dups_length_le (l : list string) :
  (length (remove_dups l) ≤ length l)%nat.
Proof.
  induction l as [|x l IH]; simpl; [lia|].
  destruct (decide_rel elem_of x l); simpl; lia.
Qed.

Lemma has_duplicates_false (l : list string) :
  has_duplicates l = false ↔ NoDup l.
Proof.
  unfold has_duplicates, numpy.len. rewrite Z.ltb_ge.
  induction l as [|x l IH]; simpl.
  - split; [constructor | lia].
  - pose proof (remove_dups_length_le l) as Hle.
    destruct (decide_rel elem_of x l) as [Hin|Hin]; simpl.
    + split; [lia|]. intros H. apply list.NoDup_cons in H as [H _]. contradiction.
    + rewrite list.NoDup_cons. split.
      * intros H. split; [assumption|]. apply IH. lia.
      * intros [_ H]. apply IH in H. lia.
Qed.

Lemma has_duplicates_true (l : list string) :
  has_duplicates l = true ↔ ¬ NoDup l.
Proof.
  rewrite <- has_duplicates_false. destruct (has_duplicates l); split; congruence.
Qed.

(** ** Addition *)

(** C7: [a + b] raises a [ValueError] when the spaces differ; with equal
    spaces it returns [a] itself when [b] has no points, [b] itself when
    only [a] has no points, and the [_Add] sample of the two otherwise. *)
Theorem add_cases (a b : Sample) :
  (spaces a ≠ spaces b → __add__ a b = Raise ValueError) ∧
  (spaces a = spaces b → npoints b = 0 → __add__ a b = Ok a) ∧
  (spaces a = spaces b → npoints b ≠ 0 → npoints a = 0 → __add__ a b = Ok b) ∧
  (spaces a = spaces b → npoints b ≠ 0 → npoints a ≠ 0 →
     __add__ a b = _Add_init a b ∧
     ∃ attr, __add__ a b = Ok (Add attr a b)).
Proof.
  unfold __add__. split; [|split; [|split]].
  - intros H. apply spaces_eqb_false in H. rewrite H. reflexivity.
  - intros H Hb. apply spaces_eqb_true in H. apply Z.eqb_eq in Hb.
    rewrite H, Hb. reflexivity.
  - intros H Hb Ha. apply spaces_eqb_true in H. apply Z.eqb_neq in Hb.
    apply Z.eqb_eq in Ha. rewrite H, Hb, Ha. reflexivity.
  - intros H Hb Ha. apply spaces_eqb_true in H. apply Z.eqb_neq in Hb.
    apply Z.eqb_neq in Ha. rewrite H, Hb, Ha. simpl. split; [reflexivity|].
    unfold _Add_init. rewrite H. simpl. eauto.
Qed.

Lemma add_cases_witness :
  __add__ Examples.X2 Examples.X0 = Ok Examples.X2 ∧
  __add__ Examples.X0 Examples.X2 = Ok Examples.X2 ∧
  __add__ Examples.X2 Examples.Y111 = Raise ValueError ∧
  ∃ attr, __add__ Examples.X2 Examples.X3 = Ok (Add attr Examples.X2 Examples.X3).
Proof.
  split; [|split; [|split]].
  - apply (proj1 (proj2 (add_cases Examples.X2 Examples.X0))); reflexivity.
  - apply (proj1 (proj2 (proj2 (add_cases Examples.X0 Examples.X2))));
      (reflexivity || discriminate).
  - apply (proj1 (add_cases Examples.X2 Examples.Y111)). discriminate.
  - apply (proj2 (proj2 (proj2 (add_cases Examples.X2 Examples.X3))));
      (reflexivity || discriminate).
Defined.

Lemma leaf_Constructed (space : string) (d : Z) (ns : list nat) (s : Sample) :
  Examples.leaf space d ns = Ok s → Constructed s.
Proof.
  unfold Examples.leaf, new. intros H. inv_bind H. injection H as <-.
  eapply C_DefaultIndex; eassumption.
Qed.

(** C2, as stated, fails: a sample with one element and two points plus
    a sample on the same space with one element and no points is the
    first sample itself, with one element rather than two. *)
Lemma add_nelems_counterexample :
  Constructed Examples.X2 ∧ Constructed Examples.X0 ∧
  spaces Examples.X2 = spaces Examples.X0 ∧
  ∃ r, __add__ Examples.X2 Examples.X0 = Ok r ∧
       nelems r ≠ nelems Examples.X2 + nelems Examples.X0.
Proof.
  split; [|split; [|split]].
  - apply (leaf_Constructed "X" 1 [2%nat]). reflexivity.
  - apply (leaf_Constructed "X" 1 [0%nat]). reflexivity.
  - reflexivity.
  - exists Examples.X2. split; [reflexivity | discriminate].
Qed.

(** C2, amended: for samples on equal spaces [a + b] succeeds and its
    number of points is the sum of the operands'; its number of elements
    is the sum of the operands' provided that an operand without points
    has no elements either. *)
Theorem add_counts (a b : Sample) :
  spaces a = spaces b →
  ∃ r, __add__ a b = Ok r ∧
       npoints r = npoints a + npoints b ∧
       ((npoints a = 0 → nelems a = 0) → (npoints b = 0 → nelems b = 0) →
        nelems r = nelems a + nelems b).
Proof.
  intros Hsp. unfold __add__. rewrite (proj2 (spaces_eqb_true _ _) Hsp). simpl.
  destruct (npoints b =? 0) eqn:Hb.
  - apply Z.eqb_eq in Hb. exists a. split; [reflexivity|]. split; [lia|].
    intros _ H. specialize (H Hb). lia.
  - destruct (npoints a =? 0) eqn:Ha.
    + apply Z.eqb_eq in Ha. exists b. split; [reflexivity|]. split; [lia|].
      intros H _. specialize (H Ha). lia.
    + unfold _Add_init. rewrite (proj2 (spaces_eqb_true _ _) Hsp). simpl.
      eexists. split; [reflexivity|]. split; reflexivity.
Qed.

Lemma add_counts_witness :
  ∃ r, __add__ Examples.X2 Examples.X3 = Ok r ∧
       npoints r = npoints Examples.X2 + npoints Examples.X3 ∧
       nelems r = nelems Examples.X2 + nelems Examples.X3.
Proof.
  destruct (add_counts Examples.X2 Examples.X3 eq_refl) as (r & H1 & H2 & H3).
  exists r. split; [exact H1|]. split; [exact H2|].
  apply H3; discriminate.
Defined.

(** ** Multiplication *)

Lemma outer_ravel_length (x : list Z) (m : Z) (y : list Z) :
  length (numpy.outer_ravel x m y) = (length x * length y)%nat.
Proof.
  unfold numpy.outer_ravel. induction x as [|i x IH]; simpl; [reflexivity|].
  rewrite length_app, length_map, IH. reflexivity.
Qed.

Lemma outer_ravel_lookup (x : list Z) (m : Z) (y : list Z) (k1 k2 : nat) (i j : Z) :
  x !! k1 = Some i → y !! k2 = Some j →
  numpy.outer_ravel x m y !! (k1 * length y + k2)%nat = Some (i * m + j).
Proof.
  unfold numpy.outer_ravel. revert k1.
  induction x as [|i0 x IH]; intros k1 Hi Hj; [discriminate|].
  pose proof (lookup_lt_Some _ _ _ Hj) as Hlt. simpl.
  destruct k1 as [|k1]; simpl in Hi.
  - injection Hi as ->. rewrite lookup_app_l by (rewrite length_map; lia).
    simpl. change (map ?f y) with (f <$> y). rewrite list_lookup_fmap, Hj. reflexivity.
  - rewrite lookup_app_r by (rewrite length_map; lia). rewrite length_map.
    replace (S k1 * length y + k2 - length y)%nat
      with (k1 * length y + k2)%nat by lia.
    apply IH; assumption.
Qed.

(** C4: [a * b] raises a [ValueError] when the operands share a space;
    otherwise it is a sample with [nelems a * nelems b] elements, whose
    element [ielem] combines element [ielem // nelems b] of [a] with
    element [ielem % nelems b] of [b], and the point made of points [i] of
    [a] and [j] of [b] has index [i * npoints b + j], the points of [b]
    varying fastest. *)
Theorem mul_product_index (a b : Sample) :
  ((∃ sp, sp ∈ spaces a ∧ sp ∈ spaces b) → __mul__ a b = Raise ValueError) ∧
  ((∀ sp, sp ∈ spaces a → sp ∉ spaces b) →
   ∃ p, __mul__ a b = Ok p ∧
     nelems p = nelems a * nelems b ∧
     npoints p = npoints a * npoints b ∧
     ∀ ielem index1 index2,
       nelems b ≠ 0 →
       getindex a (ielem `div` nelems b) = Ok index1 →
       getindex b (ielem `mod` nelems b) = Ok index2 →
       ∃ ind, getindex p ielem = Ok ind ∧
         length ind = (length index1 * length index2)%nat ∧
         ∀ k1 k2 i j, index1 !! k1 = Some i → index2 !! k2 = Some j →
           ind !! (k1 * length index2 + k2)%nat = Some (i * npoints b + j)).
Proof.
  unfold __mul__. split.
  - intros H. apply isdisjoint_false in H. rewrite H. reflexivity.
  - intros H. apply isdisjoint_true in H. rewrite H. simpl.
    unfold _Mul_init. rewrite H. simpl. eexists. split; [reflexivity|].
    split; [reflexivity|]. split; [reflexivity|].
    intros ielem index1 index2 Hb H1 H2. simpl. unfold numpy.divmod.
    apply Z.eqb_neq in Hb. rewrite Hb. simpl. rewrite H1. simpl. rewrite H2. simpl.
    eexists. split; [reflexivity|]. split; [apply outer_ravel_length|].
    intros k1 k2 i j Hi Hj. apply outer_ravel_lookup; assumption.
Qed.

Lemma mul_product_index_witness :
  ∃ p, __mul__ Examples.X2 Examples.Y111 = Ok p ∧
       nelems p = 3 ∧ npoints p = 6 ∧
       ∃ ind, getindex p 1 = Ok ind ∧ ind !! 1%nat = Some (1 * 3 + 1).
Proof.
  destruct (proj2 (mul_product_index Examples.X2 Examples.Y111))
    as (p & Hp & Hn & Hnp & Hind).
  { intros sp Hx Hy. apply list_elem_of_In in Hx, Hy. simpl in Hx, Hy.
    destruct Hx as [<-|[]]. destruct Hy as [[=]|[]]. }
  exists p. split; [exact Hp|]. split; [exact Hn|]. split; [exact Hnp|].
  destruct (Hind 1 [0; 1] [1]) as (ind & Hg & _ & Hk);
    [discriminate | reflexivity | reflexivity |].
  exists ind. split; [exact Hg|].
  exact (Hk 1%nat 0%nat 1 1 eq_refl eq_refl).
Defined.

(** ** Basis *)









(** ** What the constructors return *)

Lemma _TransformChainsSample_init_Ok space transforms points a :
  _TransformChainsSample_init space transforms points = Ok a →
  ∃ t0 rest, transforms = t0 :: rest ∧
    Forall (fun t => numpy.len (chains t) = numpy.len points) transforms ∧
    a = mkAttrs [space] (fromdims t0) (numpy.len points) (PointsSequence_npoints points).
Proof.
  unfold _TransformChainsSample_init. intros H. inv_bind H.
  apply assert_Ok in Hr, Hr0. injection H as <-.
  destruct transforms as [|t0 rest]; [discriminate|].
  injection Hr1 as <-. exists t0, rest. split; [reflexivity|]. split; [|reflexivity].
  apply List.Forall_forall. intros t Ht. rewrite forallb_forall in Hr0.
  apply Z.eqb_eq, Hr0, Ht.
Qed.

Lemma _Zip_init_Ok (junk : Z) (samples : list Sample) (z : Sample) :
  _Zip_init junk samples = Ok z →
  ∃ sample0 rest rows flat _ielems _ilocals,
    samples = sample0 :: rest ∧
    Forall (fun s => npoints s = npoints sample0) samples ∧
    NoDup (concat (map spaces samples)) ∧
    0 ≤ npoints sample0 ∧
    mapM (zip_fill junk (npoints sample0)) samples = Ok rows ∧
    numpy.ravel_multi_index (map fst rows) (map nelems samples)
      (Z.to_nat (npoints sample0)) = Ok flat ∧
    numpy.unravel_index (numpy.unique_values flat) (map nelems samples) = Ok _ielems ∧
    mapM (fun ilocal => numpy.take ilocal (numpy.argsort (numpy.unique_inverse flat)))
      (map snd rows) = Ok _ilocals ∧
    z = Zip (mkAttrs (concat (map spaces samples)) (ndims sample0)
               (numpy.len (numpy.unique_counts flat)) (npoints sample0))
          samples (numpy.cumsum (0 :: numpy.unique_counts flat))
          (numpy.unique_counts flat) (numpy.argsort (numpy.unique_inverse flat))
          _ielems _ilocals.
Proof.
  unfold _Zip_init. destruct samples as [|sample0 rest]; [discriminate|].
  set (samples := sample0 :: rest).
  destruct (forallb _ samples) eqn:Hn; simpl; [|discriminate].
  destruct (has_duplicates _) eqn:Hd; [discriminate|].
  destruct (npoints sample0 <? 0) eqn:Hneg; [discriminate|].
  intros H. inv_bind H. unfold numpy.unique in H. inv_bind H.
  injection H as <-.
  exists sample0, rest, r, r0, r1, r2. repeat split; try assumption.
  - apply List.Forall_forall. intros s Hs. rewrite forallb_forall in Hn.
    apply Z.eqb_eq, Hn, Hs.
  - apply has_duplicates_false, Hd.
  - apply Z.ltb_ge, Hneg.
Qed.

(** ** Zipped samples: spaces and dimension *)

(** C10: the spaces of a zipped sample are the concatenation of the
    spaces of the zipped samples, in order, and its dimension is the
    dimension of the first of them, whatever the dimensions of the
    others. *)
Theorem zip_spaces_ndims (junk : Z) (samples : list Sample) (z : Sample) :
  zip junk samples = Ok z →
  spaces z = concat (map spaces samples) ∧
  ∃ sample1 rest, samples = sample1 :: rest ∧ ndims z = ndims sample1.
Proof.
  unfold zip. intros H.
  apply _Zip_init_Ok in H
    as (sample0 & rest & rows & flat & ie & il & -> & _ & _ & _ & _ & _ & _ & _ & ->).
  split; [reflexivity|]. exists sample0, rest. split; reflexivity.
Qed.

Lemma zip_spaces_ndims_witness :
  ∃ z, zip 0 [Examples.X3; Examples.Y111] = Ok z ∧
       spaces z = ["X"; "Y"]%string ∧ ndims Examples.Y111 = 2 ∧ ndims z = 1.
Proof.
  assert (∃ z, zip 0 [Examples.X3; Examples.Y111] = Ok z) as [z Hz].
  { eexists. vm_compute. reflexivity. }
  exists z. split; [exact Hz|].
  destruct (zip_spaces_ndims 0 [Examples.X3; Examples.Y111] z Hz)
    as (Hsp & s1 & rest & Hs & Hnd).
  split; [exact Hsp|]. split; [reflexivity|].
  injection Hs as <- _. exact Hnd.
Defined.

Lemma _CustomIndex_init_Ok (parent : Sample) (index : list Z) (s : Sample) :
  _CustomIndex_init parent index = Ok s →
  numpy.len index = npoints parent ∧ transform_backed parent = true ∧
  ∃ a space transforms points,
    _TransformChainsSample_init space transforms points = Ok a ∧
    s = CustomIndex a space transforms points parent index ∧
    (∃ a', parent = DefaultIndex a' space transforms points ∨
           ∃ p i, parent = CustomIndex a' space transforms points p i).
Proof.
  unfold _CustomIndex_init. intros H. inv_bind H. apply assert_Ok, Z.eqb_eq in Hr.
  split; [exact Hr|].
  destruct parent as [a' sp tr pts | a' sp tr pts p i | | | | |]; try discriminate;
    inv_bind H; injection H as <-; (split; [reflexivity|]);
    exists r0, sp, tr, pts; (split; [assumption|]); (split; [reflexivity|]);
    exists a'; [left | right]; eauto.
Qed.

Lemma _Add_init_Ok (sample1 sample2 s : Sample) :
  _Add_init sample1 sample2 = Ok s →
  spaces sample1 = spaces sample2 ∧
  s = Add (mkAttrs (spaces sample1) (ndims sample1)
             (nelems sample1 + nelems sample2) (npoints sample1 + npoints sample2))
        sample1 sample2.
Proof.
  unfold _Add_init. intros H. inv_bind H. apply assert_Ok, spaces_eqb_true in Hr.
  injection H as <-. split; [exact Hr | reflexivity].
Qed.

Lemma _Mul_init_Ok (sample1 sample2 s : Sample) :
  _Mul_init sample1 sample2 = Ok s →
  (∀ sp, sp ∈ spaces sample1 → sp ∉ spaces sample2) ∧
  s = Mul (mkAttrs (spaces sample1 ++ spaces sample2) (ndims sample1 + ndims sample2)
             (nelems sample1 * nelems sample2) (npoints sample1 * npoints sample2))
        sample1 sample2.
Proof.
  unfold _Mul_init. intros H. inv_bind H. apply assert_Ok in Hr.
  injection H as <-. split; [exact (proj1 (isdisjoint_true _ _) Hr) | reflexivity].
Qed.

Lemma _TakeElements_init_Ok (parent : Sample) (indices : list Z) (s : Sample) :
  _TakeElements_init parent indices = Ok s →
  indices ≠ [] ∧
  ∃ sizes n,
    mapM (fun i => do ind <- getindex parent i; Ok (numpy.len ind)) indices = Ok sizes ∧
    numpy.getitem (numpy.cumsum (0 :: sizes)) (-1) = Ok n ∧
    s = TakeElements (mkAttrs (spaces parent) (ndims parent) (numpy.len indices) n)
          parent indices (numpy.cumsum (0 :: sizes)).
Proof.
  unfold _TakeElements_init. intros H. inv_bind H. apply assert_Ok, Z.ltb_lt in Hr.
  injection H as <-. split.
  - intros ->. unfold numpy.len in Hr. simpl in Hr. lia.
  - eauto.
Qed.

(** Every sample is what the constructor of its class returned. *)
Lemma Constructed_inv (s : Sample) :
  Constructed s →
  match s with
  | DefaultIndex a space transforms points =>
      _TransformChainsSample_init space transforms points = Ok a
  | CustomIndex _ _ _ _ parent index =>
      Constructed parent ∧ _CustomIndex_init parent index = Ok s
  | Empty a => attr_nelems a = 0 ∧ attr_npoints a = 0
  | Add _ sample1 sample2 =>
      Constructed sample1 ∧ Constructed sample2 ∧ _Add_init sample1 sample2 = Ok s
  | Mul _ sample1 sample2 =>
      Constructed sample1 ∧ Constructed sample2 ∧ _Mul_init sample1 sample2 = Ok s
  | Zip _ samples _ _ _ _ _ =>
      Forall Constructed samples ∧ ∃ junk, _Zip_init junk samples = Ok s
  | TakeElements _ parent indices _ =>
      Constructed parent ∧ _TakeElements_init parent indices = Ok s
  end.
Proof.
  intros H. destruct H as [space transforms points s H | parent index s Hp H | |
    sample1 sample2 s H1 H2 H | sample1 sample2 s H1 H2 H | junk samples s Hs H |
    parent indices s Hp H].
  - unfold _DefaultIndex_init in H. inv_bind H. injection H as <-. exact Hr.
  - pose proof H as H'. apply _CustomIndex_init_Ok in H'
      as (_ & _ & a & sp & tr & pts & _ & -> & _). split; assumption.
  - split; reflexivity.
  - pose proof H as H'. apply _Add_init_Ok in H' as (_ & ->). repeat split; assumption.
  - pose proof H as H'. apply _Mul_init_Ok in H' as (_ & ->). repeat split; assumption.
  - pose proof H as H'. apply _Zip_init_Ok in H'
      as (s0 & rest & rows & flat & ie & il & E & _ & _ & _ & _ & _ & _ & _ & ->).
    split; [assumption | eauto].
  - pose proof H as H'. apply _TakeElements_init_Ok in H' as (_ & sz & n & _ & _ & ->).
    split; assumption.
Qed.

(** ** Arrays *)

Lemma norm_index_nonneg (n : nat) (i : Z) :
  0 ≤ i < Z.of_nat n → numpy.norm_index n i = Ok (Z.to_nat i).
Proof.
  intros H. unfold numpy.norm_index.
  replace (0 <=? i) with true by (symmetry; apply Z.leb_le; lia).
  replace (i <? Z.of_nat n) with true by (symmetry; apply Z.ltb_lt; lia).
  reflexivity.
Qed.

Lemma norm_index_Ok (n : nat) (i : Z) (k : nat) :
  numpy.norm_index n i = Ok k → (k < n)%nat.
Proof.
  unfold numpy.norm_index. intros H.
  destruct ((0 <=? i) && (i <? Z.of_nat n)) eqn:E1.
  - injection H as <-. apply andb_true_iff in E1 as [E1 E2].
    apply Z.leb_le in E1. apply Z.ltb_lt in E2. lia.
  - destruct ((- Z.of_nat n <=? i) && (i <? 0)) eqn:E2; [|discriminate].
    injection H as <-. apply andb_true_iff in E2 as [E2 E3].
    apply Z.leb_le in E2. apply Z.ltb_lt in E3. lia.
Qed.

Lemma getitem_nonneg {A : Type} (a : list A) (i : Z) (x : A) :
  0 ≤ i → a !! Z.to_nat i = Some x → numpy.getitem a i = Ok x.
Proof.
  intros Hi Hx. unfold numpy.getitem.
  rewrite norm_index_nonneg.
  - simpl. rewrite Hx. reflexivity.
  - apply lookup_lt_Some in Hx. lia.
Qed.

Lemma getitem_Ok_elem {A : Type} (a : list A) (i : Z) (x : A) :
  numpy.getitem a i = Ok x → x ∈ a.
Proof.
  unfold numpy.getitem. intros H. inv_bind H.
  destruct (a !! r) eqn:E; [|discriminate]. injection H as <-.
  eapply list_elem_of_lookup_2, E.
Qed.

Lemma cumsum_from_length (acc : Z) (l : list Z) :
  length (numpy.cumsum_from acc l) = length l.
Proof. revert acc; induction l as [|x l IH]; intros acc; simpl; [|rewrite IH]; reflexivity. Qed.

Lemma cumsum_from_lookup (acc : Z) (l : list Z) (i : nat) :
  (i < length l)%nat →
  numpy.cumsum_from acc l !! i = Some (acc + numpy.sum (take (S i) l)).
Proof.
  revert acc i; induction l as [|x l IH]; intros acc i Hi; simpl in Hi; [lia|].
  destruct i as [|i].
  - unfold numpy.sum. simpl. f_equal. lia.
  - simpl. rewrite IH by lia. f_equal. unfold numpy.sum. simpl. lia.
Qed.

(** Entry [i] of [cumsum([0] + l)] is the sum of the first [i] entries
    of [l]. *)
Lemma cumsum_cons0_lookup (l : list Z) (i : nat) :
  (i ≤ length l)%nat →
  numpy.cumsum (0 :: l) !! i = Some (numpy.sum (take i l)).
Proof.
  intros Hi. unfold numpy.cumsum. rewrite cumsum_from_lookup by (simpl; lia).
  simpl. reflexivity.
Qed.

Lemma cumsum_cons0_length (l : list Z) :
  length (numpy.cumsum (0 :: l)) = S (length l).
Proof. unfold numpy.cumsum. rewrite cumsum_from_length. reflexivity. Qed.

Lemma sum_nonneg (l : list Z) : Forall (fun x => 0 ≤ x) l → 0 ≤ numpy.sum l.
Proof.
  unfold numpy.sum. induction 1 as [|x l Hx _ IH]; simpl; lia.
Qed.

Lemma sum_app (l k : list Z) : numpy.sum (l ++ k) = numpy.sum l + numpy.sum k.
Proof. unfold numpy.sum. induction l as [|x l IH]; simpl; lia. Qed.

Lemma cumsum_cons0_nonneg (l : list Z) (x : Z) :
  Forall (fun y => 0 ≤ y) l → x ∈ numpy.cumsum (0 :: l) → 0 ≤ x.
Proof.
  intros Hl Hx. apply list_elem_of_lookup in Hx as [i Hi].
  pose proof (lookup_lt_Some _ _ _ Hi) as Hlt. rewrite cumsum_cons0_length in Hlt.
  rewrite cumsum_cons0_lookup in Hi by lia. injection Hi as <-.
  apply sum_nonneg, Forall_take, Hl.
Qed.

Lemma len_nonneg {A : Type} (a : list A) : 0 ≤ numpy.len a.
Proof. unfold numpy.len. lia. Qed.

(** ** Counts are not negative *)

Lemma Constructed_nonneg (s : Sample) :
  Constructed s → 0 ≤ nelems s ∧ 0 ≤ npoints s.
Proof.
  induction 1 as [space transforms points s H | parent index s Hp IH H | |
    sample1 sample2 s H1 IH1 H2 IH2 H | sample1 sample2 s H1 IH1 H2 IH2 H |
    junk samples s Hs H | parent indices s Hp IH H].
  - unfold _DefaultIndex_init in H. inv_bind H. injection H as <-.
    apply _TransformChainsSample_init_Ok in Hr as (t0 & rest & _ & _ & ->).
    unfold nelems, npoints; simpl. split; [apply len_nonneg|].
    apply sum_nonneg, List.Forall_forall. intros x Hx. apply in_map_iff in Hx as (p & <- & _).
    unfold Points_npoints. lia.
  - apply _CustomIndex_init_Ok in H as (_ & _ & a & sp & tr & pts & Ha & -> & _).
    apply _TransformChainsSample_init_Ok in Ha as (t0 & rest & _ & _ & ->).
    unfold nelems, npoints; simpl. split; [apply len_nonneg|].
    apply sum_nonneg, List.Forall_forall. intros x Hx. apply in_map_iff in Hx as (p & <- & _).
    unfold Points_npoints. lia.
  - unfold nelems, npoints; simpl. lia.
  - apply _Add_init_Ok in H as (_ & ->). unfold nelems, npoints in *; simpl. lia.
  - apply _Mul_init_Ok in H as (_ & ->). unfold nelems, npoints in *; simpl. nia.
  - apply _Zip_init_Ok in H
      as (s0 & rest & rows & flat & ie & il & E & _ & _ & Hn & _ & _ & _ & _ & ->).
    unfold nelems, npoints; simpl. split; [apply len_nonneg | exact Hn].
  - apply _TakeElements_init_Ok in H as (_ & sz & n & Hsz & Hn & ->).
    unfold nelems, npoints; simpl. split; [apply len_nonneg|].
    apply getitem_Ok_elem in Hn. eapply cumsum_cons0_nonneg; [|exact Hn].
    apply List.Forall_forall. intros x Hx. apply list_elem_of_In in Hx.
    apply list_elem_of_lookup in Hx as [i Hi].
    pose proof (mapM_Ok_length _ _ _ Hsz) as Hlen.
    destruct (indices !! i) as [j|] eqn:Ej.
    + destruct (mapM_Ok_lookup _ _ _ Hsz i j Ej) as (y & Hy & Hf).
      rewrite Hi in Hy. injection Hy as <-. inv_bind Hf. injection Hf as <-.
      apply len_nonneg.
    + apply lookup_ge_None in Ej. apply lookup_lt_Some in Hi. lia.
Qed.

(** ** Element indices out of range *)

Lemma CustomIndex_attrs (parent : Sample) (index : list Z) (s : Sample) :
  Constructed parent → _CustomIndex_init parent index = Ok s →
  attrs s = attrs parent.
Proof.
  intros Hc H.
  apply _CustomIndex_init_Ok in H as (_ & _ & a & sp & tr & pts & Ha & -> & a' & Hp).
  simpl. destruct Hp as [-> | (p & i & ->)]; apply Constructed_inv in Hc; simpl.
  - congruence.
  - destruct Hc as [_ Hc].
    apply _CustomIndex_init_Ok in Hc as (_ & _ & a2 & sp2 & tr2 & pts2 & Ha2 & E & _).
    injection E as -> -> -> ->. congruence.
Qed.

Lemma in_range_false (ielem n : Z) : ¬ (0 ≤ ielem < n) → in_range ielem n = false.
Proof.
  intros H. unfold in_range. apply andb_false_iff.
  destruct (Z.leb_spec 0 ielem); [right; apply Z.ltb_ge; lia | left; reflexivity].
Qed.

Lemma in_range_true (ielem n : Z) : 0 ≤ ielem < n → in_range ielem n = true.
Proof.
  intros H. unfold in_range. apply andb_true_iff.
  split; [apply Z.leb_le | apply Z.ltb_lt]; lia.
Qed.

(** X2: every constructed sample without a zipped part, and without a
    product by a sample that has no elements, raises an [IndexError]
    from [getindex] for an element index outside [[0, nelems)]. *)
Lemma getindex_out_of_range (s : Sample) :
  Constructed s → guarded s = true →
  ∀ ielem, ¬ (0 ≤ ielem < nelems s) → getindex s ielem = Raise IndexError.
Proof.
  induction s as [a sp tr pts | a sp tr pts parent IH index | a |
    a s1 IH1 s2 IH2 | a s1 IH1 s2 IH2 | | a parent IH indices offs];
    intros Hc Hg ielem Hr; simpl in Hg; try discriminate.
  - simpl. unfold nelems in Hr; simpl in Hr. rewrite in_range_false by assumption.
    reflexivity.
  - apply Constructed_inv in Hc as [Hp Hc].
    pose proof (CustomIndex_attrs _ _ _ Hp Hc) as Ha.
    simpl. rewrite IH; [reflexivity | assumption | assumption |].
    unfold nelems in *. rewrite <- Ha. exact Hr.
  - reflexivity.
  - apply Constructed_inv in Hc as (Hc1 & Hc2 & Hc).
    apply _Add_init_Ok in Hc as (_ & E). injection E as ->.
    apply andb_true_iff in Hg as [Hg1 Hg2].
    pose proof (Constructed_nonneg _ Hc1) as [Hn1 _].
    pose proof (Constructed_nonneg _ Hc2) as [Hn2 _].
    unfold nelems at 1 in Hr; simpl in Hr. simpl.
    destruct (Z.ltb_spec ielem (nelems s1)).
    + apply IH1; [assumption | assumption | lia].
    + rewrite IH2; [reflexivity | assumption | assumption | lia].
  - apply Constructed_inv in Hc as (Hc1 & Hc2 & Hc).
    apply _Mul_init_Ok in Hc as (_ & E). injection E as ->.
    apply andb_true_iff in Hg as [Hg1 Hg2]. apply negb_true_iff in Hg2.
    pose proof (Constructed_nonneg _ Hc1) as [Hn1 _].
    pose proof (Constructed_nonneg _ Hc2) as [Hn2 _].
    unfold nelems at 1 in Hr; simpl in Hr. simpl.
    unfold numpy.divmod. rewrite Hg2. simpl. apply Z.eqb_neq in Hg2.
    rewrite IH1; [reflexivity | assumption | assumption |].
    intros [Hlo Hhi]. apply Hr. split.
    + destruct (Z.le_gt_cases 0 ielem) as [|Hneg]; [assumption|].
      assert (ielem `div` nelems s2 < 0) by (apply Z.div_lt_upper_bound; lia). lia.
    + apply Z.lt_le_trans with ((ielem `div` nelems s2 + 1) * nelems s2); [|nia].
      pose proof (Z.mod_pos_bound ielem (nelems s2) ltac:(lia)).
      pose proof (Z.div_mod ielem (nelems s2) ltac:(lia)). nia.
  - simpl. unfold nelems in Hr; simpl in Hr. rewrite in_range_false by assumption.
    reflexivity.
Qed.

(** C3, at its failing input: the zipped sample of a sample with one
    element of three points and a sample with three elements of one point
    each has three elements; for the element index 3 [getindex] returns
    all three points, and for the element indices -1 and 4 it raises a
    [TypeError]; in no case an [IndexError]. *)
Theorem zip_getindex_unguarded :
  ∃ z, zip 0 [Examples.X3; Examples.Y111] = Ok z ∧
       nelems z = 3 ∧
       getindex z 3 = Ok [0; 1; 2] ∧
       getindex z (-1) = Raise TypeError ∧
       getindex z 4 = Raise TypeError.
Proof.
  eexists. split; [vm_compute; reflexivity|].
  repeat split; vm_compute; reflexivity.
Qed.

(** The product with a sample without elements has no elements, and its
    [getindex] fails in the division. *)
Lemma mul_getindex_empty_factor :
  ∃ m, __mul__ Examples.X3 (empty ["Y"%string] 1) = Ok m ∧
       nelems m = 0 ∧ getindex m 0 = Raise ZeroDivisionError.
Proof.
  eexists. split; [vm_compute; reflexivity|].
  split; vm_compute; reflexivity.
Qed.

(** ** Lists ordered by a key *)

Section SortedBy.

Variable key : Z → Z.

Lemma filter_none (P : Z → Prop) `{!∀ x, Decision (P x)} (l : list Z) :
  Forall (fun x => ¬ P x) l → filter P l = [].
Proof.
  induction 1 as [|x l Hx _ IH]; [reflexivity|].
  rewrite filter_cons_False by assumption. exact IH.
Qed.

Lemma filter_all (P : Z → Prop) `{!∀ x, Decision (P x)} (l : list Z) :
  Forall P l → filter P l = l.
Proof.
  induction 1 as [|x l Hx _ IH]; [reflexivity|].
  rewrite filter_cons_True by assumption. rewrite IH. reflexivity.
Qed.

(** A list ordered by [key] consists of the positions with a key below
    [e], then those with key [e], then those with a key above [e]. *)
Lemma sorted_by_split (e : Z) (l : list Z) :
  sorted_by key l →
  l = filter (fun p => key p < e) l ++ filter (fun p => key p = e) l
        ++ filter (fun p => e < key p) l.
Proof.
  induction l as [|q l IH]; [reflexivity|]. intros [Hq Hl]. specialize (IH Hl).
  destruct (Z.lt_trichotomy (key q) e) as [Hlt|[Heq|Hgt]].
  - rewrite (filter_cons_True (fun p => key p < e)) by assumption.
    rewrite (filter_cons_False (fun p => key p = e)) by lia.
    rewrite (filter_cons_False (fun p => e < key p)) by lia.
    simpl. f_equal. exact IH.
  - rewrite (filter_cons_False (fun p => key p < e)) by lia.
    rewrite (filter_cons_True (fun p => key p = e)) by assumption.
    rewrite (filter_cons_False (fun p => e < key p)) by lia.
    rewrite (filter_none (fun p => key p < e)) in IH |- *
      by (eapply List.Forall_impl; [|exact Hq]; simpl; intros; lia).
    simpl. f_equal. exact IH.
  - rewrite (filter_cons_False (fun p => key p < e)) by lia.
    rewrite (filter_cons_False (fun p => key p = e)) by lia.
    rewrite (filter_cons_True (fun p => e < key p)) by assumption.
    rewrite (filter_none (fun p => key p < e)) in IH |- *
      by (eapply List.Forall_impl; [|exact Hq]; simpl; intros; lia).
    rewrite (filter_none (fun p => key p = e)) in IH |- *
      by (eapply List.Forall_impl; [|exact Hq]; simpl; intros; lia).
    simpl. f_equal. exact IH.
Qed.

(** The positions with key [e] are a contiguous part of the list. *)
Lemma sorted_by_slice (e : Z) (l : list Z) :
  sorted_by key l →
  take (length (filter (fun p => (key p = e)%Z) l))
       (drop (length (filter (fun p => (key p < e)%Z) l)) l)
  = filter (fun p => key p = e) l.
Proof.
  intros Hl. pose proof (sorted_by_split e l Hl) as E.
  set (A := filter (fun p => key p < e) l) in *.
  set (B := filter (fun p => key p = e) l) in *.
  set (C := filter (fun p => e < key p) l) in *.
  rewrite E at 1. rewrite drop_app_length, take_app_length. reflexivity.
Qed.

Lemma filter_lt_succ_length (e : Z) (l : list Z) :
  length (filter (fun p => key p < e + 1) l)
  = (length (filter (fun p => (key p < e)%Z) l)
     + length (filter (fun p => (key p = e)%Z) l))%nat.
Proof.
  induction l as [|q l IH]; [reflexivity|].
  rewrite !filter_cons.
  destruct (decide (key q < e + 1)), (decide (key q < e)), (decide (key q = e));
    simpl; lia.
Qed.

Lemma filter_lt_succ_perm (e : Z) (l : list Z) :
  filter (fun p => key p < e + 1) l
  ≡ₚ filter (fun p => key p < e) l ++ filter (fun p => key p = e) l.
Proof.
  induction l as [|q l IH]; [reflexivity|].
  rewrite !filter_cons.
  destruct (decide (key q < e + 1)), (decide (key q < e)), (decide (key q = e));
    try lia; simpl; rewrite ?IH; try reflexivity.
  apply Permutation_middle.
Qed.

Lemma insert_by_perm (p : Z) (l : list Z) : numpy.insert_by key p l ≡ₚ p :: l.
Proof.
  induction l as [|q l IH]; simpl; [reflexivity|].
  destruct (key p <? key q); [reflexivity|].
  rewrite IH. apply perm_swap.
Qed.

Lemma insert_by_sorted (p : Z) (l : list Z) :
  sorted_by key l → sorted_by key (numpy.insert_by key p l).
Proof.
  induction l as [|q l IH]; simpl; [intros _; split; [constructor | exact I]|].
  intros [Hq Hl]. destruct (Z.ltb_spec (key p) (key q)) as [Hlt|Hge].
  - simpl. split; [|split; assumption]. constructor; [lia|].
    eapply List.Forall_impl; [|exact Hq]; simpl; intros; lia.
  - simpl. split; [|apply IH, Hl].
    rewrite (insert_by_perm p l). constructor; assumption.
Qed.

Lemma foldl_insert_by (l acc : list Z) :
  sorted_by key acc →
  let r := foldl (fun acc p => numpy.insert_by key p acc) acc l in
  sorted_by key r ∧ r ≡ₚ l ++ acc.
Proof.
  revert acc. induction l as [|p l IH]; intros acc Hacc; simpl.
  - split; [assumption | reflexivity].
  - destruct (IH (numpy.insert_by key p acc) (insert_by_sorted p acc Hacc)) as [H1 H2].
    split; [exact H1|]. rewrite H2, insert_by_perm.
    symmetry. apply Permutation_middle.
Qed.

End SortedBy.

(** [argsort(a)] holds every position of [a] once, ordered by the
    entries of [a]. *)
Lemma argsort_spec (a : list Z) :
  sorted_by (fun p => default 0 (a !! Z.to_nat p)) (numpy.argsort a) ∧
  numpy.argsort a ≡ₚ numpy.range (numpy.len a).
Proof.
  unfold numpy.argsort.
  pose proof (foldl_insert_by (fun p => default 0 (a !! Z.to_nat p))
                (numpy.range (numpy.len a)) [] I) as [H1 H2].
  simpl in H1, H2. split; [exact H1|]. rewrite H2, app_nil_r. reflexivity.
Qed.

(** ** Distinct values *)

Lemma insert_unique_elem (x y : Z) (l : list Z) :
  y ∈ numpy.insert_unique x l ↔ y = x ∨ y ∈ l.
Proof.
  induction l as [|z l IH]; simpl.
  - rewrite list_elem_of_singleton. split; [auto | intros [H|H]; [auto | inversion H]].
  - destruct (Z.ltb_spec x z) as [Hlt|Hge]; [apply elem_of_cons|].
    destruct (Z.eqb_spec x z) as [->|Hne].
    + split; [auto|]. intros [->|H]; [left | exact H].
    + rewrite !elem_of_cons, IH. tauto.
Qed.

Lemma insert_unique_increasing (x : Z) (l : list Z) :
  increasing l → increasing (numpy.insert_unique x l).
Proof.
  unfold increasing. induction l as [|z l IH]; simpl.
  - intros _. split; [split; [constructor | exact I]|].
    apply NoDup_singleton.
  - intros [[Hz Hs] Hnd]. apply list.NoDup_cons in Hnd as [Hzl Hnd].
    destruct (IH (conj Hs Hnd)) as [IHs IHn].
    destruct (Z.ltb_spec x z) as [Hlt|Hge].
    + split.
      * simpl. split; [|split; assumption]. constructor; [lia|].
        eapply List.Forall_impl; [|exact Hz]; simpl; intros; lia.
      * apply list.NoDup_cons. split; [|apply list.NoDup_cons; split; assumption].
        intros Hin. apply elem_of_cons in Hin as [->|Hin]; [lia|].
        rewrite List.Forall_forall in Hz. apply list_elem_of_In in Hin.
        specialize (Hz _ Hin). simpl in Hz. lia.
    + destruct (Z.eqb_spec x z) as [->|Hne].
      * split; [split; assumption|]. apply list.NoDup_cons. split; assumption.
      * split.
        -- simpl. split; [|exact IHs]. apply List.Forall_forall. intros y Hy.
           apply list_elem_of_In, insert_unique_elem in Hy as [->|Hy]; [lia|].
           rewrite List.Forall_forall in Hz. apply Hz, list_elem_of_In, Hy.
        -- apply list.NoDup_cons. split; [|exact IHn].
           rewrite insert_unique_elem. intros [->|H]; [lia | contradiction].
Qed.

Lemma unique_values_increasing (a : list Z) : increasing (numpy.unique_values a).
Proof.
  unfold numpy.unique_values. induction a as [|x a IH]; simpl.
  - split; [exact I | constructor].
  - apply insert_unique_increasing, IH.
Qed.

Lemma unique_values_NoDup (a : list Z) : NoDup (numpy.unique_values a).
Proof. apply unique_values_increasing. Qed.

Lemma unique_values_elem (a : list Z) (x : Z) :
  x ∈ numpy.unique_values a ↔ x ∈ a.
Proof.
  unfold numpy.unique_values. induction a as [|y a IH]; simpl.
  - reflexivity.
  - rewrite insert_unique_elem, elem_of_cons, IH. reflexivity.
Qed.

Lemma index_of_elem (x : Z) (u : list Z) :
  x ∈ u →
  0 ≤ numpy.index_of x u < numpy.len u ∧
  u !! Z.to_nat (numpy.index_of x u) = Some x.
Proof.
  unfold numpy.len. induction u as [|y u IH]; intros Hx; [inversion Hx|].
  simpl. destruct (Z.eqb_spec x y) as [->|Hne].
  - split; [lia | reflexivity].
  - apply elem_of_cons in Hx as [->|Hx]; [contradiction|].
    destruct (IH Hx) as [Hr Hl]. split; [lia|].
    replace (Z.to_nat (1 + numpy.index_of x u)) with (S (Z.to_nat (numpy.index_of x u)))
      by lia.
    exact Hl.
Qed.

Lemma index_of_lookup (u : list Z) (k : nat) (x : Z) :
  NoDup u → u !! k = Some x → numpy.index_of x u = Z.of_nat k.
Proof.
  revert k. induction u as [|y u IH]; intros k Hnd Hk; [discriminate|].
  apply list.NoDup_cons in Hnd as [Hy Hnd]. simpl.
  destruct k as [|k]; simpl in Hk.
  - injection Hk as ->. rewrite Z.eqb_refl. reflexivity.
  - destruct (Z.eqb_spec x y) as [->|Hne].
    + exfalso. apply Hy. eapply list_elem_of_lookup_2, Hk.
    + rewrite (IH k Hnd Hk). lia.
Qed.

Lemma filter_ext_elem (P Q : Z → Prop) `{!∀ x, Decision (P x)} `{!∀ x, Decision (Q x)}
    (l : list Z) :
  (∀ x, x ∈ l → (P x ↔ Q x)) → filter P l = filter Q l.
Proof.
  induction l as [|x l IH]; intros Hext; [reflexivity|].
  rewrite !filter_cons.
  rewrite IH by (intros y Hy; apply Hext; right; exact Hy).
  pose proof (Hext x (list_elem_of_here _ _)) as Hx.
  destruct (decide (P x)) as [HP|HP], (decide (Q x)) as [HQ|HQ]; try reflexivity;
    exfalso; tauto.
Qed.

Lemma filter_map_length {A : Type} (f : A → Z) (P : Z → Prop) `{!∀ x, Decision (P x)}
    (l : list A) :
  length (filter P (map f l)) = length (filter (fun x => P (f x)) l).
Proof.
  induction l as [|x l IH]; [reflexivity|]. simpl map.
  rewrite !filter_cons. destruct (decide (P (f x))); simpl; rewrite IH; reflexivity.
Qed.

Lemma map_lookup_range (a : list Z) :
  map (fun p => default 0 (a !! Z.to_nat p)) (numpy.range (numpy.len a)) = a.
Proof.
  unfold numpy.range, numpy.len. apply list_eq. intros i.
  change (map ?f ?l) with (f <$> l). rewrite list_lookup_fmap.
  destruct (decide (i < length a)%nat) as [Hi|Hi].
  - rewrite lookup_seqZ_lt by lia. simpl.
    replace (Z.to_nat (0 + Z.of_nat i)) with i by lia.
    destruct (lookup_lt_is_Some_2 a i Hi) as [x Hx]. rewrite Hx. reflexivity.
  - rewrite lookup_seqZ_ge by lia. simpl. symmetry. apply lookup_ge_None. lia.
Qed.

(** ** Slices *)

Lemma getslice_nonneg {A : Type} (a : list A) (lo hi : Z) :
  0 ≤ lo ≤ hi → hi ≤ numpy.len a →
  numpy.getslice a (Some lo) (Some hi)
  = take (Z.to_nat (hi - lo)) (drop (Z.to_nat lo) a).
Proof.
  intros Hlo Hhi. unfold numpy.getslice, numpy.slice_bound.
  replace (lo <? 0) with false by (symmetry; apply Z.ltb_ge; lia).
  replace (hi <? 0) with false by (symmetry; apply Z.ltb_ge; lia).
  rewrite !Z.min_l by lia. reflexivity.
Qed.

Lemma take_2_drop {A : Type} (l : list A) (k : nat) (x y : A) :
  l !! k = Some x → l !! S k = Some y → take 2 (drop k l) = [x; y].
Proof.
  revert l. induction k as [|k IH]; intros l Hx Hy.
  - destruct l as [|x' [|y' l]]; try discriminate.
    injection Hx as ->. injection Hy as ->. reflexivity.
  - destruct l as [|z l]; [discriminate|]. simpl. apply IH; assumption.
Qed.

(** [a[i:i+2]] for a position [i] that has a successor. *)
Lemma getslice_pair (a : list Z) (i x y : Z) :
  0 ≤ i → a !! Z.to_nat i = Some x → a !! S (Z.to_nat i) = Some y →
  numpy.getslice a (Some i) (Some (i + 2)) = [x; y].
Proof.
  intros Hi Hx Hy. pose proof (lookup_lt_Some _ _ _ Hy) as Hlt.
  rewrite getslice_nonneg by (unfold numpy.len; lia).
  replace (Z.to_nat (i + 2 - i)) with 2%nat by lia.
  apply take_2_drop; assumption.
Qed.

(** ** The layout of a zipped sample

    [flat] is the array of the flattened element tuples of the points. *)

Section ZipLayout.

Variable flat : list Z.

Let u := numpy.unique_values flat.
Let inverse := numpy.unique_inverse flat.
Let sizes := numpy.unique_counts flat.
Let indices := numpy.argsort inverse.
Let key := fun p : Z => default 0 (inverse !! Z.to_nat p).

Lemma layout_inverse_length : length inverse = length flat.
Proof. unfold inverse, numpy.unique_inverse. apply length_map. Qed.

Lemma layout_sizes_length : length sizes = length u.
Proof. unfold sizes, numpy.unique_counts. apply length_map. Qed.

Lemma layout_indices :
  sorted_by key indices ∧ indices ≡ₚ numpy.range (numpy.len flat).
Proof.
  destruct (argsort_spec inverse) as [H1 H2]. split; [exact H1|].
  unfold indices. rewrite H2. unfold numpy.len. rewrite layout_inverse_length.
  reflexivity.
Qed.

Lemma layout_indices_elem (p : Z) : p ∈ indices ↔ 0 ≤ p < numpy.len flat.
Proof.
  destruct layout_indices as [_ H]. rewrite H. unfold numpy.range.
  rewrite elem_of_seqZ. lia.
Qed.

(** The key of a point is the position of its flattened tuple among
    the distinct ones. *)
Lemma layout_key (p : Z) :
  0 ≤ p < numpy.len flat →
  ∃ x, flat !! Z.to_nat p = Some x ∧ key p = numpy.index_of x u ∧
       0 ≤ key p < numpy.len u ∧ u !! Z.to_nat (key p) = Some x.
Proof.
  intros Hp. unfold numpy.len in Hp.
  destruct (lookup_lt_is_Some_2 flat (Z.to_nat p) ltac:(lia)) as [x Hx].
  exists x. split; [exact Hx|].
  assert (key p = numpy.index_of x u) as ->.
  { unfold key, inverse, numpy.unique_inverse.
    change (map ?f ?l) with (f <$> l). rewrite list_lookup_fmap, Hx. reflexivity. }
  split; [reflexivity|]. apply index_of_elem.
  apply unique_values_elem. eapply list_elem_of_lookup_2, Hx.
Qed.

Lemma layout_key_nonneg (p : Z) : 0 ≤ key p.
Proof.
  unfold key. destruct (inverse !! Z.to_nat p) as [k|] eqn:E; simpl; [|lia].
  unfold inverse, numpy.unique_inverse in E.
  change (map ?f ?l) with (f <$> l) in E. rewrite list_lookup_fmap in E.
  destruct (flat !! Z.to_nat p) as [x|] eqn:Ex; [|discriminate].
  injection E as <-.
  apply index_of_elem, unique_values_elem. eapply list_elem_of_lookup_2, Ex.
Qed.

(** Every distinct tuple is the tuple of some point. *)
Lemma layout_key_onto (k : nat) :
  (k < length u)%nat → ∃ p, 0 ≤ p < numpy.len flat ∧ key p = Z.of_nat k.
Proof.
  intros Hk. destruct (lookup_lt_is_Some_2 u k Hk) as [x Hx].
  assert (x ∈ flat) as Hin
    by (apply unique_values_elem; eapply list_elem_of_lookup_2, Hx).
  apply list_elem_of_lookup in Hin as [i Hi].
  pose proof (lookup_lt_Some _ _ _ Hi) as Hlt.
  exists (Z.of_nat i). split; [unfold numpy.len; lia|].
  destruct (layout_key (Z.of_nat i)) as (y & Hy & -> & _); [unfold numpy.len; lia|].
  rewrite Nat2Z.id in Hy. rewrite Hi in Hy. injection Hy as <-.
  apply index_of_lookup; [apply unique_values_NoDup | exact Hx].
Qed.

Lemma layout_sizes (k : nat) :
  (k < length u)%nat →
  sizes !! k
  = Some (Z.of_nat (length (filter (fun p => key p = Z.of_nat k) indices))).
Proof.
  intros Hk. destruct (lookup_lt_is_Some_2 u k Hk) as [x Hx].
  unfold sizes, numpy.unique_counts. change (map ?f ?l) with (f <$> l).
  rewrite list_lookup_fmap. fold u. rewrite Hx. simpl. f_equal.
  unfold numpy.count, numpy.len. f_equal.
  destruct layout_indices as [_ Hperm]. rewrite Hperm.
  transitivity (length (filter (fun y => numpy.index_of y u = Z.of_nat k) flat)).
  - f_equal. apply filter_ext_elem. intros y Hy. split.
    + intros ->. apply index_of_lookup; [apply unique_values_NoDup | exact Hx].
    + intros Hy'. apply unique_values_elem in Hy. fold u in Hy.
      destruct (index_of_elem y u Hy) as [_ Hl]. rewrite Hy', Nat2Z.id, Hx in Hl.
      congruence.
  - pose proof (filter_map_length (fun y => numpy.index_of y u)
                  (fun i => i = Z.of_nat k) flat) as E1.
    pose proof (filter_map_length key (fun i => i = Z.of_nat k)
                  (numpy.range (numpy.len inverse))) as E2.
    unfold key at 1 in E2. rewrite map_lookup_range in E2.
    unfold inverse at 1, numpy.unique_inverse in E2. fold u in E2.
    simpl in E1, E2. rewrite <- E1, E2.
    unfold numpy.len. rewrite layout_inverse_length. reflexivity.
Qed.

Lemma layout_sizes_sum (k : nat) :
  (k ≤ length u)%nat →
  numpy.sum (take k sizes)
  = Z.of_nat (length (filter (fun p => key p < Z.of_nat k) indices)).
Proof.
  induction k as [|k IH]; intros Hk.
  - simpl. rewrite filter_none; [reflexivity|].
    apply List.Forall_forall. intros p _. pose proof (layout_key_nonneg p). lia.
  - pose proof (layout_sizes k ltac:(lia)) as Hs.
    rewrite (take_S_r _ _ _ Hs), sum_app, IH by lia.
    unfold numpy.sum at 1. simpl.
    replace (Z.of_nat (S k)) with (Z.of_nat k + 1) by lia.
    rewrite filter_lt_succ_length. lia.
Qed.

Lemma layout_offsets (k : nat) :
  (k ≤ length u)%nat →
  numpy.cumsum (0 :: sizes) !! k
  = Some (Z.of_nat (length (filter (fun p => key p < Z.of_nat k) indices))).
Proof.
  intros Hk. rewrite cumsum_cons0_lookup by (rewrite layout_sizes_length; exact Hk).
  rewrite layout_sizes_sum by exact Hk. reflexivity.
Qed.

(** The points of merged element [e]: the slice of [indices] between
    two consecutive offsets holds exactly the points with key [e]. *)
Lemma layout_slice (e : Z) :
  0 ≤ e < numpy.len u →
  numpy.slice_star indices
    (numpy.getslice (numpy.cumsum (0 :: sizes)) (Some e) (Some (e + 2)))
  = Ok (filter (fun p => key p = e) indices).
Proof.
  intros He. unfold numpy.len in He.
  pose proof (layout_offsets (Z.to_nat e) ltac:(lia)) as Hlo.
  pose proof (layout_offsets (S (Z.to_nat e)) ltac:(lia)) as Hhi.
  rewrite Z2Nat.id in Hlo by lia.
  replace (Z.of_nat (S (Z.to_nat e))) with (e + 1) in Hhi by lia.
  rewrite filter_lt_succ_length in Hhi.
  rewrite (getslice_pair _ e _ _ (proj1 He) Hlo Hhi). simpl.
  pose proof (length_filter (fun p => key p < e + 1) indices) as Hle.
  rewrite filter_lt_succ_length in Hle.
  rewrite getslice_nonneg by (unfold numpy.len; lia).
  f_equal. rewrite Nat2Z.id.
  replace (Z.to_nat (Z.of_nat _ - Z.of_nat _))
    with (length (filter (fun p => key p = e) indices)) by lia.
  apply sorted_by_slice, layout_indices.
Qed.

(** The merged elements hold every point once. *)
Lemma layout_blocks (m : nat) :
  concat (map (fun e => filter (fun p => key p = e) indices)
            (numpy.range (Z.of_nat m)))
  ≡ₚ filter (fun p => key p < Z.of_nat m) indices.
Proof.
  unfold numpy.range. induction m as [|m IH].
  - simpl. rewrite filter_none; [reflexivity|].
    apply List.Forall_forall. intros p _. pose proof (layout_key_nonneg p). lia.
  - rewrite seqZ_S, map_app, concat_app, IH. simpl. rewrite app_nil_r.
    replace (Z.of_nat (S m)) with (Z.of_nat m + 1) by lia.
    rewrite filter_lt_succ_perm. reflexivity.
Qed.

Lemma layout_partition :
  concat (map (fun e => filter (fun p => key p = e) indices)
            (numpy.range (numpy.len u)))
  ≡ₚ numpy.range (numpy.len flat).
Proof.
  unfold numpy.len at 1. rewrite layout_blocks.
  rewrite filter_all; [apply layout_indices|].
  apply List.Forall_forall. intros p Hp.
  apply list_elem_of_In, layout_indices_elem in Hp.
  destruct (layout_key p Hp) as (x & _ & _ & Hk & _). unfold numpy.len in Hk. lia.
Qed.

End ZipLayout.

(** ** Samples whose elements partition the points *)

Lemma index_Ok_lookup (s : Sample) (idx : list (list Z)) (e : Z) :
  index s = Ok idx → 0 ≤ e < nelems s →
  ∃ ind, idx !! Z.to_nat e = Some ind ∧ getindex s e = Ok ind.
Proof.
  unfold index, numpy.range. intros H He.
  destruct (mapM_Ok_lookup _ _ _ H (Z.to_nat e) e) as (ind & H1 & H2).
  - rewrite lookup_seqZ_lt by lia. f_equal. lia.
  - eauto.
Qed.

Lemma index_Ok_length (s : Sample) (idx : list (list Z)) :
  index s = Ok idx → length idx = Z.to_nat (nelems s).
Proof.
  unfold index, numpy.range. intros H. apply mapM_Ok_length in H.
  rewrite H. apply length_seqZ.
Qed.

Lemma elem_of_concat {A : Type} (L : list (list A)) (x : A) :
  x ∈ concat L ↔ ∃ (i : nat) (a : list A), L !! i = Some a ∧ x ∈ a.
Proof.
  induction L as [|a0 L IH]; simpl.
  - split; [intros H; inversion H | intros (i & a & H & _); discriminate].
  - rewrite elem_of_app, IH. split.
    + intros [H|(i & a & H1 & H2)]; [exists 0%nat, a0 | exists (S i), a]; auto.
    + intros ([|i] & a & H1 & H2); simpl in H1.
      * injection H1 as ->. left. exact H2.
      * right. eauto.
Qed.

Lemma NoDup_concat_lookup {A : Type} (L : list (list A)) (i j : nat) (a b : list A)
    (x : A) :
  NoDup (concat L) → L !! i = Some a → L !! j = Some b → x ∈ a → x ∈ b → i = j.
Proof.
  revert i j. induction L as [|a0 L IH]; intros i j Hnd Hi Hj Ha Hb; [discriminate|].
  simpl in Hnd. apply list.NoDup_app in Hnd as (_ & Hdis & Hnd).
  destruct i as [|i], j as [|j]; simpl in Hi, Hj.
  - reflexivity.
  - injection Hi as ->. exfalso. apply (Hdis x Ha). apply elem_of_concat. eauto.
  - injection Hj as ->. exfalso. apply (Hdis x Hb). apply elem_of_concat. eauto.
  - f_equal. eapply IH; eassumption.
Qed.

Lemma partitions_total (s : Sample) (e : Z) :
  partitions s → 0 ≤ e < nelems s →
  ∃ ind, getindex s e = Ok ind ∧ ∀ p, p ∈ ind → 0 ≤ p < npoints s.
Proof.
  intros (idx & Hidx & Hperm) He.
  destruct (index_Ok_lookup s idx e Hidx He) as (ind & H1 & H2).
  exists ind. split; [exact H2|]. intros p Hp.
  assert (p ∈ numpy.range (npoints s)) as Hin.
  { rewrite <- Hperm. apply elem_of_concat. eauto. }
  unfold numpy.range in Hin. apply elem_of_seqZ in Hin. lia.
Qed.

Lemma partitions_cover (s : Sample) (p : Z) :
  partitions s → 0 ≤ p < npoints s → ∃ e, contains s e p.
Proof.
  intros (idx & Hidx & Hperm) Hp.
  assert (p ∈ concat idx) as Hin.
  { rewrite Hperm. unfold numpy.range. apply elem_of_seqZ. lia. }
  apply elem_of_concat in Hin as (i & a & Hi & Ha).
  pose proof (lookup_lt_Some _ _ _ Hi) as Hlt.
  rewrite (index_Ok_length s idx Hidx) in Hlt.
  destruct (index_Ok_lookup s idx (Z.of_nat i) Hidx ltac:(lia)) as (ind & H1 & H2).
  rewrite Nat2Z.id, Hi in H1. injection H1 as <-.
  exists (Z.of_nat i). split; [lia|]. eauto.
Qed.

Lemma partitions_disjoint (s : Sample) (e e' p : Z) :
  partitions s → contains s e p → contains s e' p → e = e'.
Proof.
  intros (idx & Hidx & Hperm) (He & ind & Hg & Hp) (He' & ind' & Hg' & Hp').
  destruct (index_Ok_lookup s idx e Hidx He) as (a & Ha & Hga).
  destruct (index_Ok_lookup s idx e' Hidx He') as (a' & Ha' & Hga').
  rewrite Hg in Hga. injection Hga as <-. rewrite Hg' in Hga'. injection Hga' as <-.
  assert (NoDup (concat idx)) as Hnd by (rewrite Hperm; apply NoDup_seqZ).
  pose proof (NoDup_concat_lookup idx _ _ _ _ p Hnd Ha Ha' Hp Hp'). lia.
Qed.

(** ** Filling the element table of a zipped sample *)

Lemma assign_Ok (a idx vals : list Z) :
  Forall (fun i => 0 ≤ i < numpy.len a) idx →
  ∃ a', numpy.assign a idx vals = Ok a' ∧ length a' = length a.
Proof.
  revert a vals. induction idx as [|i idx IH]; intros a vals Hidx; simpl.
  - eauto.
  - destruct vals as [|v vals]; [eauto|].
    apply List.Forall_cons_iff in Hidx as [Hi Hidx]. unfold numpy.len in Hi.
    rewrite norm_index_nonneg by exact Hi. simpl.
    destruct (IH (<[Z.to_nat i := v]> a) vals) as (a' & H1 & H2).
    + unfold numpy.len. rewrite length_insert. exact Hidx.
    + exists a'. split; [exact H1|]. rewrite H2. apply length_insert.
Qed.

Lemma assign_replicate (a idx : list Z) (v : Z) (a' : list Z) :
  Forall (fun i => 0 ≤ i < numpy.len a) idx →
  numpy.assign a idx (replicate (length idx) v) = Ok a' →
  ∀ p : nat,
    (Z.of_nat p ∈ idx → a' !! p = Some v) ∧
    (Z.of_nat p ∉ idx → a' !! p = a !! p).
Proof.
  revert a. induction idx as [|i idx IH]; intros a Hidx H p; simpl in H.
  - injection H as <-. split; [intros Hin; inversion Hin | reflexivity].
  - apply List.Forall_cons_iff in Hidx as [Hi Hidx]. unfold numpy.len in Hi.
    rewrite norm_index_nonneg in H by exact Hi. simpl in H.
    assert (Forall (fun j => 0 ≤ j < numpy.len (<[Z.to_nat i := v]> a)) idx) as Hidx'
      by (unfold numpy.len; rewrite length_insert; exact Hidx).
    destruct (IH _ Hidx' H p) as [IH1 IH2].
    destruct (decide (Z.of_nat p ∈ idx)) as [Hin|Hin].
    + split; [intros _; apply IH1, Hin|]. intros Hn. exfalso. apply Hn. right. exact Hin.
    + rewrite (IH2 Hin). destruct (decide (Z.of_nat p = i)) as [<-|Hne].
      * split; [|intros Hn; exfalso; apply Hn; left].
        intros _. rewrite Nat2Z.id. apply list_lookup_insert_eq. lia.
      * split.
        -- intros Hp. apply elem_of_cons in Hp as [Hp|Hp]; [lia | contradiction].
        -- intros _. apply list_lookup_insert_ne. lia.
Qed.

Lemma zip_fill_fold (s : Sample) (n : nat) (es : list Z) (rows : list Z * list Z) :
  (∀ e, e ∈ es → ∃ ind, getindex s e = Ok ind ∧
                   Forall (fun i => 0 ≤ i < Z.of_nat n) ind) →
  length rows.1 = n → length rows.2 = n →
  ∃ rows', foldM (zip_fill_elem s) rows es = Ok rows' ∧
    length rows'.1 = n ∧ length rows'.2 = n ∧
    ∀ (p : nat) (v : Z), rows'.1 !! p = Some v →
      (v ∈ es ∧ ∃ ind, getindex s v = Ok ind ∧ Z.of_nat p ∈ ind) ∨
      (rows.1 !! p = Some v ∧
       ∀ e ind, e ∈ es → getindex s e = Ok ind → Z.of_nat p ∉ ind).
Proof.
  revert rows. induction es as [|e es IH]; intros rows Hes H1 H2; simpl.
  - exists rows. repeat split; try assumption.
    intros p v Hv. right. split; [exact Hv|]. intros e ind He. inversion He.
  - destruct (Hes e (list_elem_of_here _ _)) as (ind & Hg & Hind).
    unfold zip_fill_elem at 1. rewrite Hg. simpl.
    assert (Forall (fun i => 0 ≤ i < numpy.len rows.1) ind) as Hind1
      by (unfold numpy.len; rewrite H1; exact Hind).
    assert (Forall (fun i => 0 ≤ i < numpy.len rows.2) ind) as Hind2
      by (unfold numpy.len; rewrite H2; exact Hind).
    destruct (assign_Ok rows.1 ind (replicate (length ind) e) Hind1) as (r1 & Hr1 & Hl1).
    destruct (assign_Ok rows.2 ind (numpy.range (numpy.len ind)) Hind2) as (r2 & Hr2 & Hl2).
    rewrite Hr1. simpl. rewrite Hr2. simpl.
    destruct (IH (r1, r2)) as (rows' & Hf & Hl1' & Hl2' & Hrows').
    + intros e' He'. apply Hes. right. exact He'.
    + simpl. lia.
    + simpl. lia.
    + exists rows'. split; [exact Hf|]. split; [exact Hl1'|]. split; [exact Hl2'|].
      intros p v Hv. destruct (Hrows' p v Hv) as [(Hin & ind' & Hg' & Hp)|(Hv' & Hnone)].
      * left. split; [right; exact Hin | eauto].
      * simpl in Hv'. destruct (assign_replicate _ _ _ _ Hind1 Hr1 p) as [Hyes Hno].
        destruct (decide (Z.of_nat p ∈ ind)) as [Hp|Hp].
        -- rewrite (Hyes Hp) in Hv'. injection Hv' as <-.
           left. split; [left | eauto].
        -- rewrite (Hno Hp) in Hv'. right. split; [exact Hv'|].
           intros e' ind' He' Hg'. apply elem_of_cons in He' as [->|He'].
           ++ rewrite Hg in Hg'. injection Hg' as <-. exact Hp.
           ++ eapply Hnone; eassumption.
Qed.

(** For a sample whose elements partition its points, the loop of
    [_Zip.__init__] writes every entry of the row, each with the element
    that holds the point. *)
Lemma zip_fill_Ok (junk : Z) (s : Sample) :
  partitions s → 0 ≤ npoints s →
  ∃ rows, zip_fill junk (npoints s) s = Ok rows ∧
    length rows.1 = Z.to_nat (npoints s) ∧
    length rows.2 = Z.to_nat (npoints s) ∧
    ∀ (p : nat) (e : Z), rows.1 !! p = Some e → contains s e (Z.of_nat p).
Proof.
  intros Hpart Hn. unfold zip_fill.
  set (fresh := replicate (Z.to_nat (npoints s)) junk).
  destruct (zip_fill_fold s (Z.to_nat (npoints s)) (numpy.range (nelems s))
              (fresh, fresh)) as (rows & Hf & Hl1 & Hl2 & Hrows).
  - intros e He. unfold numpy.range in He. apply elem_of_seqZ in He.
    destruct (partitions_total s e Hpart ltac:(lia)) as (ind & Hg & Hind).
    exists ind. split; [exact Hg|]. apply List.Forall_forall. intros i Hi.
    apply list_elem_of_In, Hind in Hi. lia.
  - apply length_replicate.
  - apply length_replicate.
  - exists rows. split; [exact Hf|]. split; [exact Hl1|]. split; [exact Hl2|].
    intros p e Hp. pose proof (lookup_lt_Some _ _ _ Hp) as Hlt.
    destruct (Hrows p e Hp) as [(Hin & ind & Hg & Hpi)|(_ & Hnone)].
    + unfold numpy.range in Hin. apply elem_of_seqZ in Hin.
      split; [lia | eauto].
    + exfalso. destruct (partitions_cover s (Z.of_nat p) Hpart ltac:(lia))
        as (e' & He' & ind & Hg & Hpi).
      apply (Hnone e' ind); [|exact Hg | exact Hpi].
      unfold numpy.range. apply elem_of_seqZ. lia.
Qed.

(** ** Flattening element tuples *)

Lemma ravel_point_total (acc : Z) (coords dims : list Z) :
  Forall2 (fun c d => 0 ≤ c < d) coords dims →
  ∃ v, numpy.ravel_point acc coords dims = Ok v.
Proof.
  intros H. revert acc. induction H as [|c d coords dims Hc _ IH]; intros acc; simpl.
  - eauto.
  - replace ((0 <=? c) && (c <? d)) with true; [apply IH|].
    symmetry. apply andb_true_iff. split; [apply Z.leb_le | apply Z.ltb_lt]; lia.
Qed.

Lemma ravel_point_Ok (acc : Z) (coords dims : list Z) (v : Z) :
  numpy.ravel_point acc coords dims = Ok v →
  Forall2 (fun c d => 0 ≤ c < d) coords dims.
Proof.
  revert acc dims. induction coords as [|c coords IH]; intros acc [|d dims] H;
    simpl in H; try discriminate.
  - constructor.
  - destruct ((0 <=? c) && (c <? d)) eqn:E; [|discriminate].
    apply andb_true_iff in E as [E1 E2]. apply Z.leb_le in E1. apply Z.ltb_lt in E2.
    constructor; [lia | eapply IH, H].
Qed.

(** Unravelling undoes ravelling. *)
Lemma unravel_ravel_point (acc : Z) (coords dims : list Z) (v : Z) (rdims tl : list Z) :
  numpy.ravel_point acc coords dims = Ok v →
  numpy.unravel_point v (rev dims ++ rdims) tl
  = numpy.unravel_point acc rdims (coords ++ tl).
Proof.
  revert acc dims rdims. induction coords as [|c coords IH]; intros acc [|d dims] rdims H;
    simpl in H; try discriminate.
  - injection H as ->. reflexivity.
  - destruct ((0 <=? c) && (c <? d)) eqn:E; [|discriminate].
    apply andb_true_iff in E as [E1 E2]. apply Z.leb_le in E1. apply Z.ltb_lt in E2.
    simpl. rewrite <- app_assoc. simpl.
    rewrite (IH _ _ (d :: rdims) H). simpl.
    replace ((acc * d + c) `div` d) with acc
      by (apply Z.div_unique_pos with c; lia).
    replace ((acc * d + c) `mod` d) with c
      by (apply Z.mod_unique_pos with acc; lia).
    reflexivity.
Qed.

Lemma ravel_point_inj (coords coords' dims : list Z) (v : Z) :
  numpy.ravel_point 0 coords dims = Ok v →
  numpy.ravel_point 0 coords' dims = Ok v →
  coords = coords'.
Proof.
  intros H H'.
  pose proof (unravel_ravel_point 0 coords dims v [] [] H) as E.
  pose proof (unravel_ravel_point 0 coords' dims v [] [] H') as E'.
  simpl in E, E'. rewrite !app_nil_r in E, E'. congruence.
Qed.

Lemma ravel_point_bounds (acc : Z) (coords dims : list Z) (v : Z) :
  numpy.ravel_point acc coords dims = Ok v → 0 ≤ acc →
  acc * numpy.size dims ≤ v < (acc + 1) * numpy.size dims.
Proof.
  revert acc dims. induction coords as [|c coords IH]; intros acc [|d dims] H Hacc;
    simpl in H; try discriminate.
  - injection H as ->. unfold numpy.size. simpl. lia.
  - destruct ((0 <=? c) && (c <? d)) eqn:E; [|discriminate].
    apply andb_true_iff in E as [E1 E2]. apply Z.leb_le in E1. apply Z.ltb_lt in E2.
    specialize (IH _ _ H ltac:(nia)).
    unfold numpy.size in *. simpl. nia.
Qed.

Lemma ravel_multi_index_lookup (rows : list (list Z)) (dims : list Z) (n : nat)
    (flat : list Z) :
  numpy.ravel_multi_index rows dims n = Ok flat →
  length flat = n ∧
  ∀ p : nat, (p < n)%nat →
    ∃ v, flat !! p = Some v ∧ numpy.ravel_point 0 (numpy.column rows p) dims = Ok v.
Proof.
  unfold numpy.ravel_multi_index. intros H. split.
  - apply mapM_Ok_length in H. rewrite H. apply length_seq.
  - intros p Hp. destruct (mapM_Ok_lookup _ _ _ H p p) as (v & H1 & H2).
    + rewrite lookup_seq. split; [reflexivity | exact Hp].
    + eauto.
Qed.

Lemma ravel_multi_index_total (rows : list (list Z)) (dims : list Z) (n : nat) :
  (∀ p : nat, (p < n)%nat →
     Forall2 (fun c d => 0 ≤ c < d) (numpy.column rows p) dims) →
  ∃ flat, numpy.ravel_multi_index rows dims n = Ok flat.
Proof.
  intros H. unfold numpy.ravel_multi_index. apply mapM_total. intros p Hp.
  apply elem_of_seq in Hp. apply ravel_point_total, H. lia.
Qed.

Lemma unravel_index_lookup (flat dims : list Z) (r : list (list Z)) :
  numpy.unravel_index flat dims = Ok r →
  length r = length dims ∧
  ∀ (i k : nat) (x : Z), (i < length dims)%nat → flat !! k = Some x →
    ∃ row, r !! i = Some row ∧
      row !! k = Some (default 0 (numpy.unravel_point x (rev dims) [] !! i)).
Proof.
  unfold numpy.unravel_index. intros H. inv_bind H. injection H as <-.
  split; [apply length_imap|]. intros i k x Hi Hk.
  destruct (lookup_lt_is_Some_2 dims i Hi) as [d Hd].
  rewrite list_lookup_imap, Hd. simpl. eexists. split; [reflexivity|].
  destruct (mapM_Ok_lookup _ _ _ Hr k x Hk) as (pt & Hpt & Hf).
  change (map ?f ?l) with (f <$> l). rewrite list_lookup_fmap, Hpt. simpl.
  destruct ((0 <=? x) && (x <? numpy.size dims)); [|discriminate].
  injection Hf as <-. reflexivity.
Qed.

Lemma unravel_index_total (flat dims : list Z) :
  (∀ x, x ∈ flat → 0 ≤ x < numpy.size dims) →
  ∃ r, numpy.unravel_index flat dims = Ok r.
Proof.
  intros H. unfold numpy.unravel_index.
  destruct (mapM_total
    (fun v => if (0 <=? v) && (v <? numpy.size dims)
              then Ok (numpy.unravel_point v (rev dims) [])
              else Raise ValueError) flat) as [pts Hpts].
  - intros x Hx. specialize (H x Hx).
    replace ((0 <=? x) && (x <? numpy.size dims)) with true; [eauto|].
    symmetry. apply andb_true_iff. split; [apply Z.leb_le | apply Z.ltb_lt]; lia.
  - rewrite Hpts. simpl. eauto.
Qed.

(** ** The elements of a zipped sample *)

Section ZipSpec.

(** The intermediate results of [_Zip.__init__], for samples whose
    elements partition their [n] points. *)
Variables (junk : Z) (samples : list Sample) (n : Z).
Variables (rows : list (list Z * list Z)) (flat : list Z) (ielems : list (list Z)).
Variables (sp : list string) (nd : Z) (ilocals : list (list Z)).

Hypothesis Hn : 0 ≤ n.
Hypothesis Hnp : Forall (fun s => npoints s = n) samples.
Hypothesis Hpart : Forall partitions samples.
Hypothesis Hrows : mapM (zip_fill junk n) samples = Ok rows.
Hypothesis Hflat :
  numpy.ravel_multi_index (map fst rows) (map nelems samples) (Z.to_nat n) = Ok flat.
Hypothesis Hielems :
  numpy.unravel_index (numpy.unique_values flat) (map nelems samples) = Ok ielems.

Let dims := map nelems samples.
Let u := numpy.unique_values flat.
Let indices := numpy.argsort (numpy.unique_inverse flat).
Let key := fun p : Z => default 0 (numpy.unique_inverse flat !! Z.to_nat p).
Let zs := Zip (mkAttrs sp nd (numpy.len (numpy.unique_counts flat)) n) samples
            (numpy.cumsum (0 :: numpy.unique_counts flat))
            (numpy.unique_counts flat) indices ielems ilocals.

Lemma zs_sample (i : nat) (s : Sample) :
  samples !! i = Some s → npoints s = n ∧ partitions s.
Proof.
  intros Hs. split.
  - exact (Forall_lookup_1 _ _ _ _ Hnp Hs).
  - exact (Forall_lookup_1 _ _ _ _ Hpart Hs).
Qed.

Lemma zs_rows_length : length rows = length samples.
Proof. exact (mapM_Ok_length _ _ _ Hrows). Qed.

Lemma zs_rows (i : nat) (s : Sample) :
  samples !! i = Some s →
  ∃ r, rows !! i = Some r ∧ length r.1 = Z.to_nat n ∧
       ∀ (p : nat) (e : Z), r.1 !! p = Some e → contains s e (Z.of_nat p).
Proof.
  intros Hs. destruct (zs_sample i s Hs) as [Hns Hps].
  destruct (mapM_Ok_lookup _ _ _ Hrows i s Hs) as (r & Hr & Hf).
  destruct (zip_fill_Ok junk s Hps ltac:(lia)) as (r' & Hf' & Hl & _ & Hc).
  rewrite Hns in Hf', Hl. rewrite Hf in Hf'. injection Hf' as <-. eauto.
Qed.

Lemma zs_column_length (p : nat) :
  length (numpy.column (map fst rows) p) = length samples.
Proof. unfold numpy.column. rewrite !length_map. apply zs_rows_length. Qed.

(** Column [p] of the table holds, for every sample, the element that
    holds point [p]. *)
Lemma zs_column (p i : nat) (s : Sample) :
  samples !! i = Some s → (p < Z.to_nat n)%nat →
  ∃ e, numpy.column (map fst rows) p !! i = Some e ∧ contains s e (Z.of_nat p).
Proof.
  intros Hs Hp. destruct (zs_rows i s Hs) as (r & Hr & Hl & Hc).
  destruct (lookup_lt_is_Some_2 r.1 p ltac:(lia)) as [e He].
  exists e. split; [|apply Hc, He].
  unfold numpy.column. change (map ?f ?l) with (f <$> l).
  rewrite !list_lookup_fmap, Hr. simpl. rewrite He. reflexivity.
Qed.

Lemma zs_column_tuple (p : nat) :
  (p < Z.to_nat n)%nat →
  point_tuple samples (Z.of_nat p) (numpy.column (map fst rows) p).
Proof.
  intros Hp. apply Forall2_same_length_lookup_2.
  - symmetry. apply zs_column_length.
  - intros i s e Hs He. destruct (zs_column p i s Hs Hp) as (e' & He' & Hc).
    rewrite He in He'. injection He' as <-. exact Hc.
Qed.

Lemma point_tuple_unique (p : Z) (t t' : list Z) :
  point_tuple samples p t → point_tuple samples p t' → t = t'.
Proof.
  unfold point_tuple. intros Ht Ht'. apply list_eq_same_length with (length samples).
  - symmetry. exact (list.Forall2_length _ _ _ Ht').
  - symmetry. exact (list.Forall2_length _ _ _ Ht).
  - intros i x y Hi Hx Hy.
    destruct (Forall2_lookup_r _ _ _ _ _ Ht Hx) as (s & Hs & Hc).
    destruct (Forall2_lookup_r _ _ _ _ _ Ht' Hy) as (s' & Hs' & Hc').
    rewrite Hs in Hs'. injection Hs' as <-.
    destruct (zs_sample i s Hs) as [_ Hps].
    exact (partitions_disjoint s x y p Hps Hc Hc').
Qed.

Lemma zs_flat_length : numpy.len flat = n.
Proof.
  destruct (ravel_multi_index_lookup _ _ _ _ Hflat) as [Hl _].
  unfold numpy.len. lia.
Qed.

Lemma zs_flat (p : nat) :
  (p < Z.to_nat n)%nat →
  ∃ v, flat !! p = Some v ∧
       numpy.ravel_point 0 (numpy.column (map fst rows) p) dims = Ok v.
Proof.
  destruct (ravel_multi_index_lookup _ _ _ _ Hflat) as [_ H]. exact (H p).
Qed.

(** Two points have the same flattened tuple exactly when every sample
    holds them in the same element. *)
Lemma zs_flat_eq (p q : nat) :
  (p < Z.to_nat n)%nat → (q < Z.to_nat n)%nat →
  flat !! p = flat !! q ↔
  ∀ s, s ∈ samples → ∀ k, contains s k (Z.of_nat p) ↔ contains s k (Z.of_nat q).
Proof.
  intros Hp Hq.
  destruct (zs_flat p Hp) as (v & Hv & Hrv). destruct (zs_flat q Hq) as (w & Hw & Hrw).
  pose proof (zs_column_tuple p Hp) as Htp. pose proof (zs_column_tuple q Hq) as Htq.
  rewrite Hv, Hw. split.
  - intros [= <-]. pose proof (ravel_point_inj _ _ _ _ Hrv Hrw) as E.
    rewrite <- E in Htq. intros s Hs k.
    apply list_elem_of_lookup in Hs as [i Hs].
    destruct (Forall2_lookup_l _ _ _ _ _ Htp Hs) as (e & He & Hcp).
    destruct (Forall2_lookup_l _ _ _ _ _ Htq Hs) as (e' & He' & Hcq).
    rewrite He in He'. injection He' as <-.
    destruct (zs_sample i s Hs) as [_ Hps]. split; intros Hk.
    + rewrite (partitions_disjoint s k e _ Hps Hk Hcp). exact Hcq.
    + rewrite (partitions_disjoint s k e _ Hps Hk Hcq). exact Hcp.
  - intros H. f_equal.
    assert (numpy.column (map fst rows) p = numpy.column (map fst rows) q) as E.
    { apply (point_tuple_unique (Z.of_nat q)); [|exact Htq].
      apply Forall2_same_length_lookup_2.
      - symmetry. apply zs_column_length.
      - intros i s e Hs He. apply (H s); [eapply list_elem_of_lookup_2, Hs|].
        exact (Forall2_lookup_lr _ _ _ _ _ _ Htp Hs He). }
    rewrite E in Hrv. congruence.
Qed.

Lemma zs_key (p : Z) :
  0 ≤ p < n →
  ∃ x, flat !! Z.to_nat p = Some x ∧ key p = numpy.index_of x u ∧
       0 ≤ key p < numpy.len u ∧ u !! Z.to_nat (key p) = Some x.
Proof. intros Hp. apply layout_key. rewrite zs_flat_length. exact Hp. Qed.

Lemma zs_key_eq (p q : Z) :
  0 ≤ p < n → 0 ≤ q < n →
  key p = key q ↔ flat !! Z.to_nat p = flat !! Z.to_nat q.
Proof.
  intros Hp Hq.
  destruct (zs_key p Hp) as (x & Hx & Hkx & _ & Hux).
  destruct (zs_key q Hq) as (y & Hy & Hky & _ & Huy).
  rewrite Hx, Hy. split.
  - intros E. rewrite E in Hux. congruence.
  - intros [= <-]. congruence.
Qed.

Lemma zs_nelems : nelems zs = numpy.len u.
Proof.
  unfold nelems, zs, numpy.len; simpl. f_equal. apply layout_sizes_length.
Qed.

(** The points of an element of the zipped sample are the points with
    that key, in the order of [_indices]. *)
Lemma zs_getindex (e : Z) :
  0 ≤ e < nelems zs →
  getindex zs e = Ok (filter (fun p => key p = e) indices).
Proof. rewrite zs_nelems. intros He. simpl. apply layout_slice. exact He. Qed.

Lemma zs_contains (e p : Z) :
  contains zs e p ↔ 0 ≤ p < n ∧ key p = e.
Proof.
  split.
  - intros (He & ind & Hg & Hp). rewrite (zs_getindex e He) in Hg.
    injection Hg as <-. apply list_elem_of_filter in Hp as [Hk Hp].
    apply layout_indices_elem in Hp. rewrite zs_flat_length in Hp. auto.
  - intros [Hp Hk]. destruct (zs_key p Hp) as (x & _ & _ & Hr & _).
    rewrite Hk in Hr. rewrite <- zs_nelems in Hr. split; [exact Hr|].
    exists (filter (fun p => key p = e) indices). split; [apply zs_getindex, Hr|].
    apply list_elem_of_filter. split; [exact Hk|].
    apply layout_indices_elem. rewrite zs_flat_length. exact Hp.
Qed.

Lemma zs_index :
  index zs = Ok (map (fun e => filter (fun p => key p = e) indices)
                   (numpy.range (nelems zs))).
Proof.
  unfold index.
  assert (∀ l, (∀ e, e ∈ l → 0 ≤ e < nelems zs) →
            mapM (getindex zs) l
            = Ok (map (fun e => filter (fun p => key p = e) indices) l)) as H.
  { induction l as [|e l IH]; intros Hl; [reflexivity|].
    change (mapM (getindex zs) (e :: l))
      with (do y <- getindex zs e; do ys <- mapM (getindex zs) l; Ok (y :: ys)).
    rewrite zs_getindex by (apply Hl; left).
    rewrite IH by (intros e' He'; apply Hl; right; exact He'). reflexivity. }
  apply H. intros e He. unfold numpy.range in He. apply elem_of_seqZ in He. lia.
Qed.

Lemma zs_partitions : partitions zs.
Proof.
  eexists. split; [apply zs_index|].
  rewrite zs_nelems. unfold u, key, indices.
  rewrite layout_partition, zs_flat_length. reflexivity.
Qed.

Lemma zs_nonempty (e : Z) : 0 ≤ e < nelems zs → ∃ p, contains zs e p.
Proof.
  rewrite zs_nelems. unfold numpy.len, u. intros He.
  destruct (layout_key_onto flat (Z.to_nat e) ltac:(lia)) as (p & Hp & Hk).
  rewrite zs_flat_length in Hp. exists p. apply zs_contains.
  split; [exact Hp|]. unfold key. rewrite Hk. lia.
Qed.

(** Two points are in the same element of the zipped sample exactly
    when every zipped sample holds them in the same element. *)
Lemma zs_same_element (e e' p q : Z) :
  contains zs e p → contains zs e' q →
  e = e' ↔ ∀ s, s ∈ samples → ∀ k, contains s k p ↔ contains s k q.
Proof.
  intros Hp Hq. apply zs_contains in Hp as [Hp <-]. apply zs_contains in Hq as [Hq <-].
  rewrite (zs_key_eq p q Hp Hq).
  rewrite (zs_flat_eq (Z.to_nat p) (Z.to_nat q)) by lia.
  rewrite !Z2Nat.id by lia. reflexivity.
Qed.

Lemma zs_ielems_length : length ielems = length samples.
Proof.
  destruct (unravel_index_lookup _ _ _ Hielems) as [Hl _].
  rewrite Hl. apply length_map.
Qed.

(** The tuple recorded for an element of the zipped sample is the tuple
    of the elements that hold its points in the zipped samples. *)
Lemma zs_tuple (e p : Z) :
  contains zs e p → point_tuple samples p (element_tuple zs e).
Proof.
  intros Hc. apply zs_contains in Hc as [Hp <-].
  destruct (zs_key p Hp) as (x & Hx & _ & Hr & Hux).
  destruct (zs_flat (Z.to_nat p) ltac:(lia)) as (v & Hv & Hrv).
  rewrite Hx in Hv. injection Hv as <-.
  pose proof (unravel_ravel_point 0 _ _ _ [] [] Hrv) as Hun.
  simpl in Hun. rewrite !app_nil_r in Hun.
  pose proof (zs_column_tuple (Z.to_nat p) ltac:(lia)) as Ht.
  rewrite Z2Nat.id in Ht by lia.
  assert (element_tuple zs (key p) = numpy.column (map fst rows) (Z.to_nat p)) as ->;
    [|exact Ht].
  destruct (unravel_index_lookup _ _ _ Hielems) as [Hl Hlk].
  apply list_eq_same_length with (length samples).
  - apply zs_column_length.
  - unfold element_tuple. simpl. rewrite length_map. apply zs_ielems_length.
  - intros i a b Hi Ha Hb.
    destruct (Hlk i (Z.to_nat (key p)) x) as (row & Hrow & Hrk).
    + rewrite length_map. exact Hi.
    + exact Hux.
    + unfold element_tuple in Ha. simpl in Ha.
      change (map ?f ?l) with (f <$> l) in Ha.
      rewrite list_lookup_fmap, Hrow in Ha. simpl in Ha. rewrite Hrk in Ha.
      simpl in Ha. fold dims in Ha. rewrite Hun, Hb in Ha. simpl in Ha. congruence.
Qed.

(** Different elements of the zipped sample have different tuples. *)
Lemma zs_tuple_inj (e e' : Z) :
  0 ≤ e < nelems zs → 0 ≤ e' < nelems zs →
  element_tuple zs e = element_tuple zs e' → e = e'.
Proof.
  intros He He' E.
  destruct (zs_nonempty e He) as [p Hp]. destruct (zs_nonempty e' He') as [q Hq].
  pose proof (zs_tuple e p Hp) as Htp. pose proof (zs_tuple e' q Hq) as Htq.
  rewrite <- E in Htq. apply (zs_same_element e e' p q Hp Hq).
  intros s Hs k. apply list_elem_of_lookup in Hs as [i Hs].
  destruct (Forall2_lookup_l _ _ _ _ _ Htp Hs) as (a & Ha & Hcp).
  destruct (Forall2_lookup_l _ _ _ _ _ Htq Hs) as (b & Hb & Hcq).
  rewrite Ha in Hb. injection Hb as <-.
  destruct (zs_sample i s Hs) as [_ Hps]. split; intros Hk.
  - rewrite (partitions_disjoint s k a _ Hps Hk Hcp). exact Hcq.
  - rewrite (partitions_disjoint s k a _ Hps Hk Hcq). exact Hcp.
Qed.

(** The points of an element are a contiguous part of [_indices],
    between two consecutive offsets. *)
Lemma zs_contiguous (e : Z) :
  0 ≤ e < nelems zs →
  ∃ lo hi, zip_offsets zs !! Z.to_nat e = Some lo ∧
           zip_offsets zs !! S (Z.to_nat e) = Some hi ∧
           0 ≤ lo ≤ hi ∧ hi ≤ numpy.len (zip_indices zs) ∧
           getindex zs e
           = Ok (take (Z.to_nat (hi - lo)) (drop (Z.to_nat lo) (zip_indices zs))).
Proof.
  rewrite zs_nelems. unfold numpy.len, u. intros He. simpl.
  pose proof (layout_offsets flat (Z.to_nat e) ltac:(lia)) as Hlo.
  pose proof (layout_offsets flat (S (Z.to_nat e)) ltac:(lia)) as Hhi.
  simpl in Hlo, Hhi.
  rewrite Z2Nat.id in Hlo by lia.
  replace (Z.of_nat (S (Z.to_nat e))) with (e + 1) in Hhi by lia.
  rewrite filter_lt_succ_length in Hhi.
  pose proof (length_filter
    (fun p => default 0 (numpy.unique_inverse flat !! Z.to_nat p) < e + 1) indices)
    as Hle.
  rewrite filter_lt_succ_length in Hle.
  eexists _, _. split; [exact Hlo|]. split; [exact Hhi|].
  split; [lia|]. split; [unfold indices in *; lia|].
  rewrite (getslice_pair _ e _ _ (proj1 He) Hlo Hhi). simpl.
  rewrite getslice_nonneg by (unfold numpy.len, indices in *; lia).
  reflexivity.
Qed.

(** The tuples recorded for the elements are, without repetition, the
    tuples of the points. *)
Lemma zs_tuples :
  NoDup (map (element_tuple zs) (numpy.range (nelems zs))) ∧
  ∀ t, t ∈ map (element_tuple zs) (numpy.range (nelems zs)) ↔
       ∃ p, 0 ≤ p < n ∧ point_tuple samples p t.
Proof.
  split.
  - apply NoDup_fmap_2_strong; [|apply NoDup_seqZ].
    intros e e' He He' E. unfold numpy.range in He, He'.
    apply elem_of_seqZ in He, He'. apply zs_tuple_inj; [lia | lia | exact E].
  - intros t. change (map ?f ?l) with (f <$> l). rewrite list_elem_of_fmap. split.
    + intros (e & -> & He). unfold numpy.range in He. apply elem_of_seqZ in He.
      destruct (zs_nonempty e ltac:(lia)) as [p Hp]. exists p.
      split; [apply (zs_contains e p), Hp | apply zs_tuple, Hp].
    + intros (p & Hp & Ht).
      assert (contains zs (key p) p) as Hc by (apply zs_contains; auto).
      exists (key p). split.
      * apply (point_tuple_unique p); [exact Ht | apply zs_tuple, Hc].
      * destruct Hc as [Hc _]. unfold numpy.range. apply elem_of_seqZ. lia.
Qed.

End ZipSpec.

Lemma partitions_X3 : partitions Examples.X3.
Proof. exists [[0; 1; 2]]. split; reflexivity. Qed.

Lemma partitions_Y111 : partitions Examples.Y111.
Proof. exists [[0]; [1]; [2]]. split; reflexivity. Qed.

(** C1: the elements of a zipped sample are the groups of points that
    every zipped sample holds in one element.  For samples whose elements
    partition their points, the elements of the zipped sample partition
    the points as well and none is empty; two points are in the same
    element of the zipped sample exactly when every zipped sample holds
    them in the same element; the tuple recorded for an element is the
    tuple of the elements that hold its points; the tuples recorded for
    the elements are, one per element and without repetition, exactly the
    tuples of the points; and [getindex] returns a contiguous part of
    [_indices].  In particular, a sample with one element of three points
    zipped with a sample with three elements of one point each has three
    elements. *)
Theorem zip_elements :
  (∀ (junk : Z) (samples : list Sample) (z : Sample),
     zip junk samples = Ok z → Forall partitions samples →
     partitions z ∧
     (∀ e, 0 ≤ e < nelems z → ∃ p, contains z e p) ∧
     (∀ e e' p q, contains z e p → contains z e' q →
        (e = e' ↔ ∀ s, s ∈ samples → ∀ k, contains s k p ↔ contains s k q)) ∧
     (∀ e p, contains z e p → point_tuple samples p (element_tuple z e)) ∧
     (NoDup (map (element_tuple z) (numpy.range (nelems z))) ∧
      ∀ t, t ∈ map (element_tuple z) (numpy.range (nelems z)) ↔
           ∃ p, 0 ≤ p < npoints z ∧ point_tuple samples p t) ∧
     (∀ e, 0 ≤ e < nelems z →
        ∃ lo hi, zip_offsets z !! Z.to_nat e = Some lo ∧
                 zip_offsets z !! S (Z.to_nat e) = Some hi ∧
                 0 ≤ lo ≤ hi ∧ hi ≤ numpy.len (zip_indices z) ∧
                 getindex z e
                 = Ok (take (Z.to_nat (hi - lo)) (drop (Z.to_nat lo) (zip_indices z))))) ∧
  (∃ z, zip 0 [Examples.X3; Examples.Y111] = Ok z ∧
        nelems z = 3 ∧
        index z = Ok [[0]; [1]; [2]] ∧
        map (element_tuple z) [0; 1; 2] = [[0; 0]; [0; 1]; [0; 2]]).
Proof.
  split.
  - intros junk samples z Hz Hpart. unfold zip in Hz.
    apply _Zip_init_Ok in Hz
      as (s0 & rest & rows & flat & ie & il & E & Hnp & _ & Hn & Hrows & Hflat & Hie & _ & ->).
    split; [eapply zs_partitions; eassumption|].
    split; [intros e; eapply zs_nonempty; eassumption|].
    split; [intros e e' p q; eapply zs_same_element; eassumption|].
    split; [intros e p; eapply zs_tuple; eassumption|].
    split; [eapply zs_tuples; eassumption|].
    intros e. apply zs_contiguous.
  - eexists. split; [vm_compute; reflexivity|].
    repeat split; vm_compute; reflexivity.
Qed.

Lemma zip_elements_witness :
  ∃ z, zip 0 [Examples.X3; Examples.Y111] = Ok z ∧ partitions z ∧
       ∀ e, 0 ≤ e < nelems z → ∃ p, contains z e p.
Proof.
  assert (∃ z, zip 0 [Examples.X3; Examples.Y111] = Ok z) as [z Hz].
  { eexists. vm_compute. reflexivity. }
  exists z. split; [exact Hz|].
  destruct (proj1 zip_elements 0 [Examples.X3; Examples.Y111] z Hz)
    as (H1 & H2 & _).
  { repeat constructor; [apply partitions_X3 | apply partitions_Y111]. }
  split; [exact H1 | exact H2].
Defined.

(** ** When zipping succeeds *)

Lemma take_total {A : Type} (a : list A) (idx : list Z) :
  (∀ i, i ∈ idx → 0 ≤ i < numpy.len a) → ∃ r, numpy.take a idx = Ok r.
Proof.
  intros H. unfold numpy.take. apply mapM_total. intros i Hi.
  specialize (H i Hi). unfold numpy.len in H.
  destruct (lookup_lt_is_Some_2 a (Z.to_nat i) ltac:(lia)) as [x Hx].
  exists x. apply getitem_nonneg; [lia | exact Hx].
Qed.

Lemma point_tuple_in_range (samples : list Sample) (p : Z) (t : list Z) :
  point_tuple samples p t →
  Forall2 (fun c d => 0 ≤ c < d) t (map nelems samples).
Proof.
  unfold point_tuple. induction 1 as [|s e samples t [He _] _ IH]; simpl.
  - constructor.
  - constructor; assumption.
Qed.

Lemma _Zip_init_total (junk : Z) (sample0 : Sample) (rest : list Sample) :
  let samples := sample0 :: rest in
  0 ≤ npoints sample0 →
  Forall (fun s => npoints s = npoints sample0) samples →
  NoDup (concat (map spaces samples)) →
  Forall partitions samples →
  ∃ z, _Zip_init junk samples = Ok z.
Proof.
  intros samples Hn Hnp Hnd Hpart. remember (npoints sample0) as n eqn:En.
  assert (∃ rows, mapM (zip_fill junk n) samples = Ok rows) as [rows Hrows].
  { apply mapM_total. intros s Hs.
    pose proof (proj1 (List.Forall_forall _ _) Hnp s (proj1 (list_elem_of_In _ _) Hs)) as Hs1.
    pose proof (proj1 (List.Forall_forall _ _) Hpart s (proj1 (list_elem_of_In _ _) Hs)) as Hs2.
    simpl in Hs1. destruct (zip_fill_Ok junk s Hs2 ltac:(lia)) as (r & Hr & _).
    rewrite Hs1 in Hr. eauto. }
  assert (∃ flat, numpy.ravel_multi_index (map fst rows) (map nelems samples)
                    (Z.to_nat n) = Ok flat) as [flat Hflat].
  { apply ravel_multi_index_total. intros p Hp.
    apply (point_tuple_in_range samples (Z.of_nat p)).
    eapply zs_column_tuple; eassumption. }
  assert (∃ ie, numpy.unravel_index (numpy.unique_values flat) (map nelems samples)
                = Ok ie) as [ie Hie].
  { apply unravel_index_total. intros x Hx.
    apply (proj1 (unique_values_elem _ _)) in Hx.
    apply list_elem_of_lookup in Hx as [k Hk].
    destruct (ravel_multi_index_lookup _ _ _ _ Hflat) as [Hl Hlk].
    pose proof (lookup_lt_Some _ _ _ Hk) as Hlt.
    destruct (Hlk k ltac:(lia)) as (v & Hv & Hrv). rewrite Hk in Hv. injection Hv as <-.
    pose proof (ravel_point_bounds _ _ _ _ Hrv ltac:(lia)). lia. }
  assert (∃ il, mapM (fun ilocal =>
                        numpy.take ilocal (numpy.argsort (numpy.unique_inverse flat)))
                  (map snd rows) = Ok il) as [il Hil].
  { apply mapM_total. intros ilocal Hil. apply take_total. intros i Hi.
    apply layout_indices_elem in Hi.
    destruct (ravel_multi_index_lookup _ _ _ _ Hflat) as [Hl _].
    apply list_elem_of_In, in_map_iff in Hil as (r & <- & Hr).
    apply list_elem_of_In, list_elem_of_lookup in Hr as [k Hk].
    pose proof (lookup_lt_Some _ _ _ Hk) as Hlt.
    rewrite (mapM_Ok_length _ _ _ Hrows) in Hlt.
    destruct (lookup_lt_is_Some_2 samples k Hlt) as [s Hs].
    destruct (mapM_Ok_lookup _ _ _ Hrows k s Hs) as (r' & Hr' & Hf).
    rewrite Hk in Hr'. injection Hr' as <-.
    pose proof (Forall_lookup_1 _ _ _ _ Hnp Hs) as Hs1.
    pose proof (Forall_lookup_1 _ _ _ _ Hpart Hs) as Hs2. simpl in Hs1.
    destruct (zip_fill_Ok junk s Hs2 ltac:(lia)) as (r' & Hr' & _ & Hl2 & _).
    rewrite Hs1 in Hr', Hl2. rewrite Hf in Hr'. injection Hr' as <-.
    unfold numpy.len in *. lia. }
  subst samples. unfold _Zip_init. rewrite <- En.
  set (samples := sample0 :: rest) in *.
  replace (forallb (fun sample => npoints sample =? n) samples) with true.
  2: { symmetry. apply forallb_forall. intros s Hs. apply Z.eqb_eq.
       exact (proj1 (List.Forall_forall _ _) Hnp s Hs). }
  simpl negb. cbv iota.
  rewrite (proj2 (has_duplicates_false _) Hnd).
  replace (n <? 0) with false by (symmetry; apply Z.ltb_ge; lia).
  rewrite Hrows. cbn [bind]. rewrite Hflat. cbn [bind]. unfold numpy.unique.
  rewrite Hie. cbn [bind]. rewrite Hil. cbn [bind]. eauto.
Qed.

Lemma shared_space_duplicates (samples : list Sample) (i j : nat) (a b : Sample)
    (sp : string) :
  i ≠ j → samples !! i = Some a → samples !! j = Some b →
  sp ∈ spaces a → sp ∈ spaces b →
  has_duplicates (concat (map spaces samples)) = true.
Proof.
  intros Hij Ha Hb Hsa Hsb. apply has_duplicates_true. intros Hnd.
  apply Hij. eapply (NoDup_concat_lookup (map spaces samples) i j _ _ sp Hnd).
  - change (map ?f ?l) with (f <$> l). rewrite list_lookup_fmap, Ha. reflexivity.
  - change (map ?f ?l) with (f <$> l). rewrite list_lookup_fmap, Hb. reflexivity.
  - exact Hsa.
  - exact Hsb.
Qed.

(** C6: zipping raises a [ValueError] when a sample has a number of
    points different from the first, and when two of the samples share a
    space; a zipped sample has the number of points of each of the
    samples; and zipping samples with equal numbers of points, spaces
    without repetition and elements that partition the points succeeds. *)
Theorem zip_checks (junk : Z) (sample0 : Sample) (rest : list Sample) :
  let samples := sample0 :: rest in
  (∀ s, s ∈ samples → npoints s ≠ npoints sample0 →
     zip junk samples = Raise ValueError) ∧
  (∀ i j a b sp, i ≠ j → samples !! i = Some a → samples !! j = Some b →
     sp ∈ spaces a → sp ∈ spaces b →
     zip junk samples = Raise ValueError) ∧
  (∀ z, zip junk samples = Ok z → ∀ s, s ∈ samples → npoints z = npoints s) ∧
  (0 ≤ npoints sample0 →
   Forall (fun s => npoints s = npoints sample0) samples →
   NoDup (concat (map spaces samples)) →
   Forall partitions samples →
   ∃ z, zip junk samples = Ok z ∧ npoints z = npoints sample0).
Proof.
  intros samples. split; [|split; [|split]].
  - intros s Hs Hne. subst samples. unfold zip, _Zip_init.
    replace (forallb (fun sample => npoints sample =? npoints sample0) (sample0 :: rest))
      with false; [reflexivity|].
    symmetry. apply not_true_iff_false. intros H. rewrite forallb_forall in H.
    apply list_elem_of_In in Hs. specialize (H s Hs). apply Z.eqb_eq in H. contradiction.
  - intros i j a b sp Hij Ha Hb Hsa Hsb. subst samples. unfold zip, _Zip_init.
    destruct (forallb _ (sample0 :: rest)); [|reflexivity]. cbn [negb].
    rewrite (shared_space_duplicates _ i j a b sp Hij Ha Hb Hsa Hsb).
    reflexivity.
  - intros z Hz s Hs. unfold zip in Hz.
    apply _Zip_init_Ok in Hz
      as (s0 & rest' & rows & flat & ie & il & E & Hnp & _ & _ & _ & _ & _ & _ & ->).
    unfold npoints at 1; simpl.
    symmetry. apply (proj1 (List.Forall_forall _ _) Hnp s), list_elem_of_In, Hs.
  - intros Hn Hnp Hnd Hpart.
    destruct (_Zip_init_total junk sample0 rest Hn Hnp Hnd Hpart) as [z Hz].
    exists z. split; [exact Hz|].
    apply _Zip_init_Ok in Hz
      as (s0 & rest' & rows & flat & ie & il & E & _ & _ & _ & _ & _ & _ & _ & ->).
    injection E as <- _. reflexivity.
Qed.

Lemma zip_checks_witness :
  zip 0 [Examples.X3; Examples.X2] = Raise ValueError ∧
  zip 0 [Examples.X3; Examples.X3] = Raise ValueError ∧
  ∃ z, zip 0 [Examples.X3; Examples.Y111] = Ok z ∧ npoints z = 3.
Proof.
  split; [|split].
  - apply (proj1 (zip_checks 0 Examples.X3 [Examples.X2]) Examples.X2).
    + right. left.
    + discriminate.
  - apply (proj1 (proj2 (zip_checks 0 Examples.X3 [Examples.X3]))
             0%nat 1%nat Examples.X3 Examples.X3 "X"%string).
    + discriminate.
    + reflexivity.
    + reflexivity.
    + left.
    + left.
  - apply (proj2 (proj2 (proj2 (zip_checks 0 Examples.X3 [Examples.Y111])))).
    + discriminate.
    + repeat constructor.
    + simpl. apply NoDup_ListNoDup. repeat constructor; simpl; intuition discriminate.
    + repeat constructor; [apply partitions_X3 | apply partitions_Y111].
Defined.

(** ** Subsets of elements *)

Lemma getitem_last (l : list Z) (x : Z) :
  numpy.getitem (l ++ [x]) (-1) = Ok x.
Proof.
  unfold numpy.getitem, numpy.norm_index. rewrite length_app. simpl length.
  change (0 <=? -1) with false. cbn [andb].
  replace (- Z.of_nat (length l + 1) <=? -1) with true
    by (symmetry; apply Z.leb_le; lia).
  change (-1 <? 0) with true. cbn [andb bind].
  replace (Z.to_nat (-1 + Z.of_nat (length l + 1))) with (length l) by lia.
  rewrite list_lookup_middle by reflexivity. reflexivity.
Qed.

(** What [_TakeElements.__init__] builds: as many elements as indices,
    element [k] with as many points as element [indices[k]] of the
    parent, numbered consecutively. *)
Lemma _TakeElements_init_elements (parent : Sample) (indices : list Z) (r : Sample) :
  _TakeElements_init parent indices = Ok r →
  nelems r = numpy.len indices ∧ spaces r = spaces parent ∧ ndims r = ndims parent ∧
  ∀ (k : nat) (i : Z), indices !! k = Some i →
    ∃ ind lo, getindex parent i = Ok ind ∧
              getindex r (Z.of_nat k) = Ok (numpy.arange lo (lo + numpy.len ind)).
Proof.
  intros H. apply _TakeElements_init_Ok in H as (_ & sizes & n & Hsz & Hn & ->).
  split; [reflexivity|]. split; [reflexivity|]. split; [reflexivity|].
  intros k i Hk. pose proof (lookup_lt_Some _ _ _ Hk) as Hlt.
  pose proof (mapM_Ok_length _ _ _ Hsz) as Hlen.
  destruct (mapM_Ok_lookup _ _ _ Hsz k i Hk) as (sz & Hsk & Hf).
  inv_bind Hf. injection Hf as <-. rename r into ind.
  exists ind, (numpy.sum (take k sizes)). split; [exact Hr|].
  simpl. rewrite in_range_true by (unfold numpy.len; lia). simpl.
  rewrite (getitem_nonneg _ (Z.of_nat k) (numpy.sum (take k sizes))).
  2: lia.
  2: { rewrite Nat2Z.id. apply cumsum_cons0_lookup. lia. }
  simpl.
  rewrite (getitem_nonneg _ (Z.of_nat k + 1) (numpy.sum (take (S k) sizes))).
  2: lia.
  2: { replace (Z.to_nat (Z.of_nat k + 1)) with (S k) by lia.
       apply cumsum_cons0_lookup. lia. }
  simpl. rewrite (take_S_r _ _ _ Hsk), sum_app. unfold numpy.sum at 3. simpl.
  repeat f_equal. lia.
Qed.

Lemma _TakeElements_init_total (parent : Sample) (indices : list Z) :
  indices ≠ [] →
  (∀ i, i ∈ indices → ∃ ind, getindex parent i = Ok ind) →
  ∃ r, _TakeElements_init parent indices = Ok r.
Proof.
  intros Hne Hall. unfold _TakeElements_init.
  replace (0 <? numpy.len indices) with true
    by (symmetry; apply Z.ltb_lt; unfold numpy.len; destruct indices; [contradiction | simpl; lia]).
  simpl.
  destruct (mapM_total (fun i => do ind <- getindex parent i; Ok (numpy.len ind)) indices)
    as [sizes Hsz].
  { intros i Hi. destruct (Hall i Hi) as [ind ->]. simpl. eauto. }
  rewrite Hsz. simpl.
  assert (∃ n, numpy.getitem (numpy.cumsum (0 :: sizes)) (-1) = Ok n) as [n Hn].
  { destruct (numpy.cumsum (0 :: sizes)) as [|x l] eqn:E using rev_ind.
    - apply (f_equal length) in E. rewrite cumsum_cons0_length in E. discriminate.
    - exists x. apply getitem_last. }
  rewrite Hn. simpl. eauto.
Qed.

Lemma compress_nil {A : Type} (mask : list bool) : compress mask (@nil A) = [].
Proof. destruct mask as [|[] mask]; reflexivity. Qed.



Lemma compress_lt (n : Z) (l : list Z) :
  compress (map (fun i => i <? n) l) l = filter (fun i => i < n) l.
Proof.
  induction l as [|i l IH]; [reflexivity|]. simpl. rewrite filter_cons.
  destruct (Z.ltb_spec i n), (decide (i < n)); try lia; rewrite IH; reflexivity.
Qed.

Lemma compress_not_lt (n : Z) (l : list Z) :
  compress (map negb (map (fun i => i <? n) l)) l = filter (fun i => ¬ i < n) l.
Proof.
  induction l as [|i l IH]; [reflexivity|]. simpl. rewrite filter_cons.
  destruct (Z.ltb_spec i n), (decide (¬ i < n)); try lia; simpl; rewrite IH; reflexivity.
Qed.




(** ** Subsets of points *)

Lemma take_any (mask : list bool) (ind : list Z) (m : list bool) :
  numpy.take mask ind = Ok m →
  existsb id m = true ↔ ∃ p, p ∈ ind ∧ numpy.getitem mask p = Ok true.
Proof.
  unfold numpy.take. revert m. induction ind as [|i ind IH]; intros m H; simpl in H.
  - injection H as <-. simpl. split; [discriminate | intros (p & Hp & _); inversion Hp].
  - inv_bind H. injection H as <-. simpl. rewrite orb_true_iff, (IH _ Hr0). split.
    + intros [Hr1|(p & Hp & Hg)].
      * unfold id in Hr1. subst r. exists i. split; [left | exact Hr].
      * exists p. split; [right; exact Hp | exact Hg].
    + intros (p & Hp & Hg). apply elem_of_cons in Hp as [->|Hp].
      * left. rewrite Hr in Hg. injection Hg as ->. reflexivity.
      * right. eauto.
Qed.

(** The selection of [subset] holds, in increasing order, the elements
    with a marked point. *)
Lemma selected_marked (s : Sample) (mask : list bool) (ielems sel : list Z) :
  selected s mask ielems = Ok sel →
  sel `sublist_of` ielems ∧ ∀ e, e ∈ sel ↔ e ∈ ielems ∧ marked s mask e.
Proof.
  revert sel. induction ielems as [|e0 ielems IH]; intros sel H; simpl in H.
  - injection H as <-. split; [constructor|].
    intros e. split; [intros He; inversion He | intros [He _]; inversion He].
  - inv_bind H. injection H as <-. destruct (IH _ Hr1) as [Hsub Hin].
    pose proof (take_any _ _ _ Hr0) as Hany.
    destruct (existsb id r0) eqn:E.
    + split; [constructor; exact Hsub|]. intros e. rewrite elem_of_cons, Hin. split.
      * intros [->|[He Hm]].
        -- split; [left|]. destruct (proj1 Hany eq_refl) as (p & Hp & Hk).
           exists r, p. auto.
        -- split; [right|]; assumption.
      * intros [He Hm]. apply elem_of_cons in He as [->|He]; [left | right]; auto.
    + split; [constructor; exact Hsub|]. intros e. rewrite Hin. split.
      * intros [He Hm]. split; [right|]; assumption.
      * intros [He Hm]. apply elem_of_cons in He as [->|He]; [|auto].
        exfalso. destruct Hm as (ind & p & Hg & Hp & Hk).
        rewrite Hr in Hg. injection Hg as <-.
        assert (false = true) by (apply Hany; eauto). discriminate.
Qed.

(** X9: the elements that [subset] selects are exactly the elements
    with a point that the mask marks, in increasing order and each
    once. *)
Lemma selection_marked (s : Sample) (mask : list bool) (sel : list Z) :
  selection s mask = Ok sel →
  sel `sublist_of` numpy.range (nelems s) ∧
  ∀ e, e ∈ sel ↔ 0 ≤ e < nelems s ∧ marked s mask e.
Proof.
  unfold selection. intros H. destruct (selected_marked _ _ _ _ H) as [H1 H2].
  split; [exact H1|]. intros e. rewrite H2. unfold numpy.range.
  rewrite elem_of_seqZ. split; intros [He Hm]; (split; [lia | exact Hm]).
Qed.

(** The subset of a leaf sample is a new leaf sample on the selected
    elements, without index; the subset of any other sample is its
    restriction to the selected elements. *)
Lemma subset_cases (s : Sample) (mask : list bool) (r : Sample) :
  subset s mask = Ok r →
  ∃ sel, selection s mask = Ok sel ∧
    if transform_backed s
    then ∃ a space transforms points, r = DefaultIndex a space transforms points
    else take_elements s sel = Ok r.
Proof.
  intros H. destruct s; cbn [subset transform_backed] in H |- *; inv_bind H;
    try (exists r0; split; [assumption | exact H]).
  - unfold new, _DefaultIndex_init in H. inv_bind H. injection H as <-.
    inv_bind Hr2. injection Hr2 as <-. eauto 10.
  - unfold new, _DefaultIndex_init in H. inv_bind H. injection H as <-.
    inv_bind Hr2. injection Hr2 as <-. eauto 10.
Qed.

(** C5, at its failing input: a sample of two one-point elements whose
    index puts the point of element 0 at position 1 and the point of
    element 1 at position 0; the subset for the mask that marks both
    points is a sample without index on the same two elements, with the
    point of element 0 at position 0 and the point of element 1 at
    position 1. *)
Theorem subset_reindexed_order :
  index Examples.X11_swapped = Ok [[1]; [0]] ∧
  ∃ r a, subset Examples.X11_swapped [true; true] = Ok r ∧
         r = DefaultIndex a "X" [mkTransforms 1 [0; 1]]
               [mkPoints 1 [] []; mkPoints 1 [] []] ∧
         index r = Ok [[0]; [1]].
Proof.
  split; [reflexivity|]. eexists _, _. split; [vm_compute; reflexivity|].
  split; reflexivity.
Qed.

(** ** The elements of every sample partition its points *)

Lemma mapM_app {A B : Type} (f : A → res B) (l1 l2 : list A) :
  mapM f (l1 ++ l2) = (do a <- mapM f l1; do b <- mapM f l2; Ok (a ++ b)).
Proof.
  induction l1 as [|x l1 IH]; simpl.
  - destruct (mapM f l2); reflexivity.
  - destruct (f x) as [y|e]; simpl; [|reflexivity]. rewrite IH.
    destruct (mapM f l1) as [a|e]; simpl; [|reflexivity].
    destruct (mapM f l2); reflexivity.
Qed.

Lemma mapM_map {A B C : Type} (f : B → res C) (g : A → B) (l : list A) :
  mapM f (map g l) = mapM (fun x => f (g x)) l.
Proof. induction l as [|x l IH]; simpl; [|rewrite IH]; reflexivity. Qed.

Lemma mapM_ext_elem {A B : Type} (f g : A → res B) (l : list A) :
  (∀ x, x ∈ l → f x = g x) → mapM f l = mapM g l.
Proof.
  induction l as [|x l IH]; intros H; simpl; [reflexivity|].
  rewrite (H x (list_elem_of_here _ _)), IH; [reflexivity|].
  intros y Hy. apply H. right. exact Hy.
Qed.

Lemma mapM_Ok_elem {A B : Type} (f : A → res B) (g : A → B) (l : list A) :
  (∀ x, x ∈ l → f x = Ok (g x)) → mapM f l = Ok (map g l).
Proof.
  intros H. rewrite (mapM_ext_elem f (fun x => Ok (g x)) l H). apply mapM_Ok_map.
Qed.

(** Consecutive ranges whose lengths are [sizes] make up the range of
    their total length. *)
Lemma concat_aranges (sizes : list Z) :
  Forall (fun x => 0 ≤ x) sizes →
  concat (map (fun k : nat => numpy.arange (numpy.sum (take k sizes))
                                (numpy.sum (take (S k) sizes)))
            (seq 0 (length sizes)))
  = numpy.range (numpy.sum sizes).
Proof.
  induction sizes as [|x sizes IH] using rev_ind; intros H; [reflexivity|].
  apply Forall_app in H as [Hs Hx]. apply List.Forall_cons_iff in Hx as [Hx _].
  rewrite length_app, Nat.add_1_r, seq_S, map_app, concat_app.
  assert (map (fun k : nat => numpy.arange (numpy.sum (take k (sizes ++ [x])))
                               (numpy.sum (take (S k) (sizes ++ [x]))))
            (seq 0 (length sizes))
          = map (fun k : nat => numpy.arange (numpy.sum (take k sizes))
                                  (numpy.sum (take (S k) sizes)))
              (seq 0 (length sizes))) as ->.
  { apply map_ext_in. intros k Hk. apply in_seq in Hk.
    rewrite !take_app_le by lia. reflexivity. }
  rewrite (IH Hs). simpl.
  rewrite app_nil_r, take_app_length, take_ge by (rewrite length_app; simpl; lia).
  rewrite sum_app.
  assert (numpy.sum [x] = x) as -> by (unfold numpy.sum; simpl; lia).
  unfold numpy.range, numpy.arange.
  rewrite seqZ_app by (try apply sum_nonneg; assumption).
  do 2 f_equal. lia.
Qed.

Lemma seqZ_of_seq (n : nat) : seqZ 0 (Z.of_nat n) = map Z.of_nat (seq 0 n).
Proof.
  apply list_eq. intros i. change (map ?f ?l) with (f <$> l).
  rewrite list_lookup_fmap. destruct (decide (i < n)%nat).
  - rewrite lookup_seqZ_lt, lookup_seq_lt by lia. reflexivity.
  - rewrite lookup_seqZ_ge, lookup_seq_ge by lia. reflexivity.
Qed.

(** A sample whose element [e] holds the points between the sums of the
    first [e] and the first [e + 1] of [sizes]. *)
Lemma partitions_by_offsets (s : Sample) (sizes : list Z) :
  Forall (fun x => 0 ≤ x) sizes →
  nelems s = numpy.len sizes → npoints s = numpy.sum sizes →
  (∀ k : nat, (k < length sizes)%nat →
     getindex s (Z.of_nat k)
     = Ok (numpy.arange (numpy.sum (take k sizes)) (numpy.sum (take (S k) sizes)))) →
  partitions s.
Proof.
  intros Hs Hne Hnp Hg. unfold partitions, index.
  rewrite Hne, Hnp. unfold numpy.range at 1, numpy.len. rewrite seqZ_of_seq, mapM_map.
  rewrite (mapM_Ok_elem _ (fun k : nat => numpy.arange (numpy.sum (take k sizes))
                                    (numpy.sum (take (S k) sizes)))).
  - eexists. split; [reflexivity|]. rewrite concat_aranges by exact Hs. reflexivity.
  - intros k Hk. apply elem_of_seq in Hk. apply Hg. lia.
Qed.

Lemma offsets_getindex (a : Attrs) (space : string) (transforms : list Transforms)
    (points : PointsSequence) (k : nat) :
  attr_nelems a = numpy.len points → (k < length points)%nat →
  getindex (DefaultIndex a space transforms points) (Z.of_nat k)
  = Ok (numpy.arange (numpy.sum (take k (map Points_npoints points)))
          (numpy.sum (take (S k) (map Points_npoints points)))).
Proof.
  intros Ha Hk. simpl. rewrite Ha, in_range_true by (unfold numpy.len; lia). simpl.
  unfold offsets.
  rewrite (getslice_pair _ (Z.of_nat k)
             (numpy.sum (take k (map Points_npoints points)))
             (numpy.sum (take (S k) (map Points_npoints points)))).
  - reflexivity.
  - lia.
  - rewrite Nat2Z.id. apply cumsum_cons0_lookup. rewrite length_map. lia.
  - rewrite Nat2Z.id. apply cumsum_cons0_lookup. rewrite length_map. lia.
Qed.

Lemma Points_npoints_nonneg (points : PointsSequence) :
  Forall (fun x => 0 ≤ x) (map Points_npoints points).
Proof.
  apply List.Forall_forall. intros x Hx. apply in_map_iff in Hx as (p & <- & _).
  unfold Points_npoints. lia.
Qed.

Lemma DefaultIndex_partitions (a : Attrs) (space : string)
    (transforms : list Transforms) (points : PointsSequence) :
  _TransformChainsSample_init space transforms points = Ok a →
  partitions (DefaultIndex a space transforms points).
Proof.
  intros H. apply _TransformChainsSample_init_Ok in H as (t0 & rest & _ & _ & ->).
  apply (partitions_by_offsets _ (map Points_npoints points)).
  - apply Points_npoints_nonneg.
  - unfold nelems, numpy.len; simpl. rewrite length_map. reflexivity.
  - reflexivity.
  - intros k Hk. rewrite length_map in Hk. apply offsets_getindex; [reflexivity | exact Hk].
Qed.

Lemma TakeElements_partitions (parent : Sample) (indices : list Z) (s : Sample) :
  _TakeElements_init parent indices = Ok s → partitions s.
Proof.
  intros H. pose proof H as H'.
  apply _TakeElements_init_Ok in H' as (Hne & sizes & n & Hsz & Hn & ->).
  pose proof (mapM_Ok_length _ _ _ Hsz) as Hlen.
  assert (Forall (fun x => 0 ≤ x) sizes) as Hpos.
  { apply List.Forall_forall. intros x Hx. apply list_elem_of_In in Hx.
    apply list_elem_of_lookup in Hx as [k Hk].
    pose proof (lookup_lt_Some _ _ _ Hk) as Hlt.
    destruct (lookup_lt_is_Some_2 indices k ltac:(lia)) as [i Hi].
    destruct (mapM_Ok_lookup _ _ _ Hsz k i Hi) as (y & Hy & Hf).
    rewrite Hk in Hy. injection Hy as <-. inv_bind Hf. injection Hf as <-.
    apply len_nonneg. }
  apply (partitions_by_offsets _ sizes).
  - exact Hpos.
  - unfold nelems, numpy.len; simpl. lia.
  - unfold npoints; simpl.
    assert (numpy.cumsum (0 :: sizes) !! length sizes = Some (numpy.sum sizes)) as Hl
      by (rewrite cumsum_cons0_lookup by lia; rewrite take_ge by lia; reflexivity).
    destruct (numpy.cumsum (0 :: sizes)) as [|x l] eqn:E using rev_ind.
    + discriminate.
    + rewrite getitem_last in Hn. injection Hn as <-.
      apply (f_equal length) in E. rewrite cumsum_cons0_length, length_app in E.
      simpl in E. rewrite list_lookup_middle in Hl by lia. congruence.
  - intros k Hk. destruct (lookup_lt_is_Some_2 indices k ltac:(lia)) as [i Hi].
    destruct (_TakeElements_init_elements _ _ _ H) as (_ & _ & _ & Hel).
    simpl. rewrite in_range_true by (unfold numpy.len; lia). simpl.
    rewrite (getitem_nonneg _ (Z.of_nat k) (numpy.sum (take k sizes))).
    2: lia.
    2: { rewrite Nat2Z.id. apply cumsum_cons0_lookup. lia. }
    simpl.
    rewrite (getitem_nonneg _ (Z.of_nat k + 1) (numpy.sum (take (S k) sizes))).
    2: lia.
    2: { replace (Z.to_nat (Z.of_nat k + 1)) with (S k) by lia.
         apply cumsum_cons0_lookup. lia. }
    reflexivity.
Qed.

Lemma mapM_bind {A B C : Type} (f : A → res B) (h : B → res C) (k : B → C)
    (l : list A) (r : list B) :
  mapM f l = Ok r → (∀ x, x ∈ r → h x = Ok (k x)) →
  mapM (fun e => bind (f e) h) l = Ok (map k r).
Proof.
  revert r. induction l as [|x l IH]; intros r H Hh; simpl in H |- *.
  - injection H as <-. reflexivity.
  - inv_bind H. injection H as <-. rewrite Hr. simpl.
    rewrite (Hh r0 (list_elem_of_here _ _)). simpl.
    rewrite (IH r1 Hr0); [reflexivity|]. intros y Hy. apply Hh. right. exact Hy.
Qed.

Lemma take_map (a : list Z) (ind : list Z) :
  (∀ p, p ∈ ind → 0 ≤ p < numpy.len a) →
  numpy.take a ind = Ok (map (fun p => default 0 (a !! Z.to_nat p)) ind).
Proof.
  intros H. unfold numpy.take. apply mapM_Ok_elem. intros p Hp.
  specialize (H p Hp). unfold numpy.len in H.
  destruct (lookup_lt_is_Some_2 a (Z.to_nat p) ltac:(lia)) as [x Hx].
  rewrite Hx. simpl. apply getitem_nonneg; [lia | exact Hx].
Qed.

Lemma CustomIndex_partitions (parent : Sample) (ix : list Z) (s : Sample) :
  Constructed parent → _CustomIndex_init parent ix = Ok s →
  partitions parent → ix ≡ₚ numpy.range (numpy.len ix) →
  partitions s.
Proof.
  intros Hc H Hpart Hperm. pose proof (CustomIndex_attrs _ _ _ Hc H) as Ha.
  apply _CustomIndex_init_Ok in H as (Hlen & _ & a & sp & tr & pts & _ & -> & _).
  simpl in Ha. subst a. destruct Hpart as (idx & Hidx & Hp).
  exists (map (map (fun p => default 0 (ix !! Z.to_nat p))) idx). split.
  - unfold index in *. unfold nelems in *. simpl.
    apply (mapM_bind (getindex parent) _ _ _ _ Hidx).
    intros ind Hind. apply take_map. intros p Hp'.
    assert (p ∈ concat idx) as Hin.
    { apply list_elem_of_lookup in Hind as [i Hi]. apply elem_of_concat. eauto. }
    rewrite Hp in Hin. unfold numpy.range in Hin. apply elem_of_seqZ in Hin. lia.
  - rewrite <- concat_map. etransitivity; [apply Permutation_map, Hp|].
    unfold npoints in *. simpl. rewrite <- Hlen, map_lookup_range. exact Hperm.
Qed.

Lemma Add_partitions (sample1 sample2 s : Sample) :
  Constructed sample1 → Constructed sample2 → _Add_init sample1 sample2 = Ok s →
  partitions sample1 → partitions sample2 → partitions s.
Proof.
  intros Hc1 Hc2 H (idx1 & Hidx1 & Hp1) (idx2 & Hidx2 & Hp2).
  apply _Add_init_Ok in H as (_ & ->).
  destruct (Constructed_nonneg _ Hc1) as [Hn1 Hnp1].
  destruct (Constructed_nonneg _ Hc2) as [Hn2 Hnp2].
  exists (idx1 ++ map (map (fun p => p + npoints sample1)) idx2). split.
  - unfold index in *.
    match goal with
    | |- context [nelems (Add ?A sample1 sample2)] =>
        change (nelems (Add A sample1 sample2)) with (nelems sample1 + nelems sample2)
    end.
    unfold numpy.range in *. rewrite seqZ_app, mapM_app by assumption.
    rewrite (mapM_ext_elem _ (getindex sample1)).
    2: { intros e He. apply elem_of_seqZ in He. simpl.
         replace (e <? nelems sample1) with true by (symmetry; apply Z.ltb_lt; lia).
         reflexivity. }
    rewrite Hidx1. simpl.
    rewrite (Z.add_comm 0 (nelems sample1)), <- (fmap_add_seqZ (nelems sample1) 0).
    change (Z.add (nelems sample1) <$> ?l) with (map (Z.add (nelems sample1)) l).
    rewrite mapM_map.
    rewrite (mapM_ext_elem _
      (fun e => bind (getindex sample2 e)
                  (fun i => Ok (map (fun p => p + npoints sample1) i)))).
    2: { intros e He. apply elem_of_seqZ in He. simpl.
         replace (nelems sample1 + e <? nelems sample1) with false
           by (symmetry; apply Z.ltb_ge; lia).
         replace (nelems sample1 + e - nelems sample1) with e by lia. reflexivity. }
    rewrite (mapM_bind _ _ (map (fun p => p + npoints sample1)) _ _ Hidx2)
      by reflexivity.
    reflexivity.
  - rewrite concat_app, <- concat_map, Hp1, (Permutation_map _ Hp2).
    match goal with
    | |- context [npoints (Add ?A sample1 sample2)] =>
        change (npoints (Add A sample1 sample2)) with (npoints sample1 + npoints sample2)
    end.
    unfold numpy.range.
    rewrite (seqZ_app 0 _ _ Hnp1 Hnp2).
    rewrite (Z.add_comm 0 (npoints sample1)), <- (fmap_add_seqZ (npoints sample1) 0).
    apply Permutation_refl'. f_equal.
    change (Z.add (npoints sample1) <$> ?l) with (map (Z.add (npoints sample1)) l).
    apply map_ext. intros p. lia.
Qed.

(** *** Products *)

Lemma outer_ravel_app_l (x x' : list Z) (m : Z) (y : list Z) :
  numpy.outer_ravel (x ++ x') m y
  = numpy.outer_ravel x m y ++ numpy.outer_ravel x' m y.
Proof. unfold numpy.outer_ravel. apply flat_map_app. Qed.

Lemma outer_ravel_app_r (x : list Z) (m : Z) (y y' : list Z) :
  numpy.outer_ravel x m (y ++ y')
  ≡ₚ numpy.outer_ravel x m y ++ numpy.outer_ravel x m y'.
Proof.
  unfold numpy.outer_ravel. induction x as [|i x IH]; simpl; [reflexivity|].
  rewrite IH, map_app. rewrite <- !app_assoc. apply Permutation_app_head.
  rewrite !app_assoc. apply Permutation_app_tail. apply Permutation_app_comm.
Qed.

Lemma outer_ravel_perm (x x' : list Z) (m : Z) (y y' : list Z) :
  x ≡ₚ x' → y ≡ₚ y' → numpy.outer_ravel x m y ≡ₚ numpy.outer_ravel x' m y'.
Proof.
  intros Hx Hy. unfold numpy.outer_ravel.
  transitivity (flat_map (fun i => map (fun j => i * m + j) y') x).
  - clear Hx. induction x as [|i x IH]; simpl; [reflexivity|].
    rewrite IH, (Permutation_map _ Hy). reflexivity.
  - apply Permutation_flat_map, Hx.
Qed.

Lemma outer_ravel_range (n1 : nat) (m : Z) :
  0 ≤ m →
  numpy.outer_ravel (numpy.range (Z.of_nat n1)) m (numpy.range m)
  = numpy.range (Z.of_nat n1 * m).
Proof.
  intros Hm. unfold numpy.range. induction n1 as [|n1 IH]; [reflexivity|].
  rewrite seqZ_S, outer_ravel_app_l, IH.
  replace (Z.of_nat (S n1) * m) with (Z.of_nat n1 * m + m) by lia.
  rewrite seqZ_app by lia. f_equal.
  unfold numpy.outer_ravel. simpl. rewrite app_nil_r.
  rewrite (Z.add_comm 0 (Z.of_nat n1 * m)), <- (fmap_add_seqZ (Z.of_nat n1 * m) 0).
  change (Z.add (Z.of_nat n1 * m) <$> ?l) with (map (Z.add (Z.of_nat n1 * m)) l).
  apply map_ext. intros j. lia.
Qed.

Lemma outer_ravel_concat_r (a : list Z) (m : Z) (L : list (list Z)) :
  concat (map (fun b => numpy.outer_ravel a m b) L)
  ≡ₚ numpy.outer_ravel a m (concat L).
Proof.
  induction L as [|b L IH]; simpl.
  - unfold numpy.outer_ravel. induction a as [|i a IHa]; simpl; [reflexivity | exact IHa].
  - rewrite IH, outer_ravel_app_r. reflexivity.
Qed.

Lemma outer_ravel_concat (L1 L2 : list (list Z)) (m : Z) :
  concat (flat_map (fun a => map (fun b => numpy.outer_ravel a m b) L2) L1)
  ≡ₚ numpy.outer_ravel (concat L1) m (concat L2).
Proof.
  induction L1 as [|a L1 IH]; simpl; [reflexivity|].
  rewrite concat_app, IH, outer_ravel_concat_r, outer_ravel_app_l. reflexivity.
Qed.

Lemma Mul_index (a : Attrs) (sample1 sample2 : Sample) (idx2 : list (list Z))
    (l1 : list Z) (idx1 : list (list Z)) :
  0 < nelems sample2 → index sample2 = Ok idx2 →
  mapM (getindex sample1) l1 = Ok idx1 →
  mapM (getindex (Mul a sample1 sample2))
    (numpy.outer_ravel l1 (nelems sample2) (numpy.range (nelems sample2)))
  = Ok (flat_map (fun i1 => map (fun i2 => numpy.outer_ravel i1 (npoints sample2) i2) idx2)
          idx1).
Proof.
  intros Hn2 Hidx2. revert idx1. unfold numpy.outer_ravel at 1.
  induction l1 as [|e1 l1 IH]; intros idx1 H; simpl in H.
  - injection H as <-. reflexivity.
  - inv_bind H. injection H as <-. simpl flat_map. rewrite mapM_app, mapM_map.
    rewrite (mapM_ext_elem _
      (fun e2 => bind (getindex sample2 e2)
                   (fun i2 => Ok (numpy.outer_ravel r (npoints sample2) i2)))).
    2: { intros e2 He2. unfold numpy.range in He2. apply elem_of_seqZ in He2.
         simpl. unfold numpy.divmod.
         replace (nelems sample2 =? 0) with false by (symmetry; apply Z.eqb_neq; lia).
         simpl.
         replace ((e1 * nelems sample2 + e2) `div` nelems sample2) with e1
           by (apply Z.div_unique_pos with e2; lia).
         replace ((e1 * nelems sample2 + e2) `mod` nelems sample2) with e2
           by (apply Z.mod_unique_pos with e1; lia).
         rewrite Hr. reflexivity. }
    unfold index in Hidx2.
    rewrite (mapM_bind _ _ (fun i2 => numpy.outer_ravel r (npoints sample2) i2)
               _ _ Hidx2) by reflexivity.
    cbn [bind]. rewrite (IH _ Hr0). reflexivity.
Qed.

Lemma Mul_partitions (sample1 sample2 s : Sample) :
  Constructed sample1 → Constructed sample2 → _Mul_init sample1 sample2 = Ok s →
  partitions sample1 → partitions sample2 → partitions s.
Proof.
  intros Hc1 Hc2 H (idx1 & Hidx1 & Hp1) (idx2 & Hidx2 & Hp2).
  apply _Mul_init_Ok in H as (_ & ->).
  destruct (Constructed_nonneg _ Hc1) as [Hn1 Hnp1].
  destruct (Constructed_nonneg _ Hc2) as [Hn2 Hnp2].
  destruct (Z.eq_dec (nelems sample2) 0) as [Hz|Hnz].
  - pose proof (index_Ok_length _ _ Hidx2) as Hl. rewrite Hz in Hl.
    destruct idx2; [|discriminate]. simpl in Hp2.
    apply Permutation_nil_l in Hp2. apply (f_equal length) in Hp2.
    unfold numpy.range in Hp2. rewrite length_seqZ in Hp2. simpl in Hp2.
    exists []. unfold index, nelems, npoints. simpl.
    fold (nelems sample2) (npoints sample2). rewrite Hz, Z.mul_0_r.
    replace (npoints sample2) with 0 by lia. rewrite Z.mul_0_r.
    split; reflexivity.
  - eexists. split.
    + unfold index at 1.
      match goal with
      | |- context [nelems (Mul ?A sample1 sample2)] =>
          change (nelems (Mul A sample1 sample2)) with (nelems sample1 * nelems sample2)
      end.
      assert (numpy.range (nelems sample1 * nelems sample2)
              = numpy.outer_ravel (numpy.range (nelems sample1)) (nelems sample2)
                  (numpy.range (nelems sample2))) as ->.
      { rewrite <- (Z2Nat.id (nelems sample1)) by lia.
        rewrite outer_ravel_range by lia. reflexivity. }
      apply Mul_index; [lia | exact Hidx2 | exact Hidx1].
    + rewrite outer_ravel_concat, (outer_ravel_perm _ _ _ _ _ Hp1 Hp2).
      match goal with
      | |- context [npoints (Mul ?A sample1 sample2)] =>
          change (npoints (Mul A sample1 sample2)) with (npoints sample1 * npoints sample2)
      end.
      assert (numpy.range (npoints sample1 * npoints sample2)
              = numpy.outer_ravel (numpy.range (npoints sample1)) (npoints sample2)
                  (numpy.range (npoints sample2))) as ->.
      { rewrite <- (Z2Nat.id (npoints sample1)) by lia.
        rewrite outer_ravel_range by lia. reflexivity. }
      reflexivity.
Qed.

(** X1: every constructed sample whose custom index arrays are
    permutations partitions its points among its elements: [getindex]
    succeeds on every element, and the arrays it returns hold every
    point number below [npoints] exactly once. *)
Theorem Constructed_partitions (s : Sample) :
  Constructed s → permuted s → partitions s.
Proof.
  induction s as [a sp tr pts | a sp tr pts parent IH index | a |
    a s1 IH1 s2 IH2 | a s1 IH1 s2 IH2 | | a parent IH indices offs];
    intros Hc Hp; apply Constructed_inv in Hc.
  - apply DefaultIndex_partitions, Hc.
  - destruct Hc as [Hc H]. destruct Hp as [Hp Hperm].
    apply (CustomIndex_partitions parent index); auto.
  - destruct Hc as [Hn Hnp]. exists []. unfold index, nelems, npoints. simpl.
    rewrite Hn, Hnp. split; reflexivity.
  - destruct Hc as (Hc1 & Hc2 & H). destruct Hp as [Hp1 Hp2].
    apply (Add_partitions s1 s2); auto.
  - destruct Hc as (Hc1 & Hc2 & H). destruct Hp as [Hp1 Hp2].
    apply (Mul_partitions s1 s2); auto.
  - destruct Hc as (_ & junk & H). pose proof H as H'.
    apply _Zip_init_Ok in H'
      as (s0 & rest & rows & flat & ie & il & E & _ & _ & Hn & _ & Hflat & _ & _ & Ez).
    rewrite Ez. eapply zs_partitions; eassumption.
  - destruct Hc as [_ H]. apply (TakeElements_partitions parent indices), H.
Qed.

(** * Further properties *)

(** ** The samples of the examples are constructed *)

Lemma X3_Constructed : Constructed Examples.X3.
Proof. apply (leaf_Constructed "X" 1 [3%nat]). reflexivity. Qed.

Lemma Y111_Constructed : Constructed Examples.Y111.
Proof. apply (leaf_Constructed "Y" 2 [1; 1; 1]%nat). reflexivity. Qed.

Lemma X2_Constructed : Constructed Examples.X2.
Proof. apply (leaf_Constructed "X" 1 [2%nat]). reflexivity. Qed.

Lemma X1_Constructed : Constructed Examples.X1.
Proof. apply (leaf_Constructed "X" 1 [1%nat]). reflexivity. Qed.

Lemma X1_plus_X2_Constructed : Constructed Examples.X1_plus_X2.
Proof.
  apply (C_Add Examples.X1 Examples.X2);
    [apply X1_Constructed | apply X2_Constructed | reflexivity].
Qed.

Lemma L22_Constructed : Constructed Examples2.L22.
Proof.
  apply (C_DefaultIndex "X" [mkTransforms 1 [0; 1]] [Examples2.segment; Examples2.segment]).
  reflexivity.
Qed.

Lemma L22_swapped_Constructed : Constructed Examples2.L22_swapped.
Proof.
  apply (C_TakeElements Examples2.L22 [1; 0]); [apply L22_Constructed | reflexivity].
Qed.

(** ** Partition and element indices out of range, on an example *)

Lemma Constructed_partitions_witness : partitions Examples.X1_plus_X2.
Proof.
  apply Constructed_partitions; [apply X1_plus_X2_Constructed|].
  simpl. tauto.
Defined.

Lemma getindex_out_of_range_witness :
  getindex Examples.X1_plus_X2 2 = Raise IndexError ∧
  getindex Examples.X1_plus_X2 (-1) = Raise IndexError.
Proof.
  split; apply getindex_out_of_range;
    try apply X1_plus_X2_Constructed; try reflexivity;
    change (nelems Examples.X1_plus_X2) with 2; lia.
Defined.

Lemma selection_marked_witness :
  selection Examples.Y111 [false; true; true] = Ok [1; 2] ∧
  (1 ∈ [1; 2] ↔ 0 ≤ 1 < nelems Examples.Y111 ∧ marked Examples.Y111 [false; true; true] 1).
Proof.
  split; [reflexivity|].
  apply (selection_marked Examples.Y111 [false; true; true] [1; 2]). reflexivity.
Defined.

(** ** Custom indices given to [Sample.new] *)

Lemma getitem_app_r {A : Type} (l1 l2 : list A) (x : Z) :
  0 ≤ x → numpy.getitem (l1 ++ l2) (numpy.len l1 + x) = numpy.getitem l2 x.
Proof.
  intros Hx. unfold numpy.getitem, numpy.norm_index, numpy.len. rewrite length_app.
  destruct (Z.leb_spec 0 x); [|lia].
  destruct (Z.leb_spec 0 (Z.of_nat (length l1) + x)); [|lia].
  destruct (Z.ltb_spec x (Z.of_nat (length l2))),
           (Z.ltb_spec (Z.of_nat (length l1) + x) (Z.of_nat (length l1 + length l2)));
    try lia; simpl.
  - rewrite lookup_app_r by lia.
    replace (Z.to_nat (Z.of_nat (length l1) + x) - length l1)%nat with (Z.to_nat x) by lia.
    reflexivity.
  - destruct (Z.ltb_spec x 0), (Z.ltb_spec (Z.of_nat (length l1) + x) 0); try lia.
    rewrite !andb_false_r. reflexivity.
Qed.

Lemma take_app_r {A : Type} (l1 l2 : list A) (a b : Z) :
  0 ≤ a →
  numpy.take (l1 ++ l2) (numpy.arange (numpy.len l1 + a) (numpy.len l1 + b))
  = numpy.take l2 (numpy.arange a b).
Proof.
  intros Ha. unfold numpy.take, numpy.arange.
  replace (numpy.len l1 + b - (numpy.len l1 + a)) with (b - a) by lia.
  rewrite <- (fmap_add_seqZ (numpy.len l1) a).
  change (Z.add (numpy.len l1) <$> ?l) with (map (Z.add (numpy.len l1)) l).
  rewrite mapM_map. apply mapM_ext_elem. intros x Hx. apply elem_of_seqZ in Hx.
  apply getitem_app_r. lia.
Qed.

Lemma take_prefix {A : Type} (l1 l2 : list A) :
  numpy.take (l1 ++ l2) (numpy.arange 0 (numpy.len l1)) = Ok l1.
Proof.
  induction l1 as [|x l1 IH]; [reflexivity|].
  unfold numpy.arange at 1. rewrite Z.sub_0_r.
  rewrite seqZ_cons by (unfold numpy.len; simpl; lia).
  unfold numpy.take. cbn [mapM].
  rewrite (getitem_nonneg _ 0 x); [|lia | reflexivity]. cbn [bind].
  change (mapM (numpy.getitem ((x :: l1) ++ l2)) ?l) with (numpy.take ([x] ++ (l1 ++ l2)) l).
  replace (seqZ (Z.succ 0) (Z.pred (numpy.len (x :: l1))))
    with (numpy.arange (numpy.len [x] + 0) (numpy.len [x] + numpy.len l1)).
  2: { unfold numpy.arange, numpy.len. simpl length. f_equal; lia. }
  rewrite take_app_r by lia. rewrite IH. reflexivity.
Qed.

Lemma sum_take_le (l : list Z) (k : nat) :
  Forall (fun x => 0 ≤ x) l →
  0 ≤ numpy.sum (take k l) ∧ numpy.sum (take k l) ≤ numpy.sum (take (S k) l)
  ∧ numpy.sum (take (S k) l) ≤ numpy.sum l.
Proof.
  intros H.
  assert (numpy.sum l = numpy.sum (take (S k) l) + numpy.sum (drop (S k) l)) as ->
    by (rewrite <- sum_app, take_drop; reflexivity).
  pose proof (sum_nonneg (take k l) (Forall_take _ _ _ H)).
  pose proof (sum_nonneg (drop (S k) l) (Forall_drop _ _ _ H)).
  split; [assumption|]. split; [|lia].
  destruct (l !! k) as [x|] eqn:E.
  - rewrite (take_S_r _ _ _ E), sum_app.
    assert (0 ≤ x).
    { rewrite List.Forall_forall in H. apply H, list_elem_of_In, list_elem_of_lookup. eauto. }
    unfold numpy.sum at 3. simpl. lia.
  - apply lookup_ge_None in E. rewrite !firstn_all2 by lia. lia.
Qed.

Lemma tuple_lookup (inds : list (list Z)) (points : PointsSequence) (k : nat) :
  shapes_match inds points = true →
  numpy.len (concat inds) = numpy.sum (map Points_npoints points) →
  (k < length points)%nat →
  numpy.take (concat inds)
    (numpy.arange (numpy.sum (take k (map Points_npoints points)))
                  (numpy.sum (take (S k) (map Points_npoints points))))
  = Ok (default [] (inds !! k)).
Proof.
  revert points k. induction inds as [|i0 inds IH]; intros points k Hm Hlen Hk.
  - simpl in Hlen. change (numpy.len []) with 0 in Hlen.
    destruct (sum_take_le _ k (Points_npoints_nonneg points)) as (H1 & H2 & H3).
    replace (numpy.sum (take (S k) (map Points_npoints points)))
      with (numpy.sum (take k (map Points_npoints points))) by lia.
    unfold numpy.arange. rewrite Z.sub_diag. reflexivity.
  - destruct points as [|p points]; [simpl in Hk; lia|].
    simpl in Hm. apply andb_true_iff in Hm as [Hp Hm]. apply Z.eqb_eq in Hp.
    cbn [concat map] in *. unfold numpy.len in Hlen. rewrite length_app in Hlen.
    unfold numpy.sum in Hlen. simpl in Hlen. fold (numpy.sum (map Points_npoints points)) in Hlen.
    destruct k as [|k].
    + simpl. unfold numpy.sum. simpl. rewrite Z.add_0_r, <- Hp. apply take_prefix.
    + cbn [take]. unfold numpy.sum. cbn [foldr].
      fold (numpy.sum (take k (map Points_npoints points))).
      fold (numpy.sum (take (S k) (map Points_npoints points))).
      rewrite <- Hp. rewrite take_app_r.
      * apply IH; [exact Hm | unfold numpy.len in *; lia | simpl in Hk; lia].
      * apply (sum_take_le _ k (Points_npoints_nonneg points)).
Qed.

Lemma getindex_CustomIndex a space transforms points parent ix (e : Z) :
  getindex (CustomIndex a space transforms points parent ix) e
  = (do i <- getindex parent e; numpy.take ix i).
Proof. reflexivity. Qed.

Lemma new_tuple_elements (space : string) (transforms : list Transforms)
    (points : PointsSequence) (inds : list (list Z)) (s : Sample) :
  new space transforms points (IndexTuple inds) = Ok s →
  nelems s = numpy.len points ∧
  npoints s = numpy.len (concat inds) ∧
  ∀ e, 0 ≤ e < nelems s → getindex s e = Ok (default [] (inds !! Z.to_nat e)).
Proof.
  intros H. unfold new, _DefaultIndex_init in H.
  apply bind_Ok in H as (sample & Hsample & H).
  apply bind_Ok in Hsample as (a & Ha & Hsample). injection Hsample as <-.
  apply bind_Ok in H as ([] & Hm & H). apply assert_Ok in Hm.
  pose proof Ha as Ha'.
  apply _TransformChainsSample_init_Ok in Ha' as (t0 & rest & _ & _ & Ea).
  unfold _CustomIndex_init in H. apply bind_Ok in H as ([] & Hlen & H).
  apply assert_Ok, Z.eqb_eq in Hlen. rewrite Ha in H. injection H as <-.
  unfold nelems, npoints in *. cbn [attrs] in *. rewrite Ea in *.
  cbn [attr_nelems attr_npoints] in *. unfold PointsSequence_npoints in Hlen.
  split; [reflexivity|]. split; [symmetry; exact Hlen|].
  intros e He. unfold numpy.len in He.
  rewrite (getindex_CustomIndex _ _ _ _ _ _ e).
  rewrite <- (Z2Nat.id e) at 1 by lia.
  rewrite offsets_getindex; [|reflexivity | lia]. cbn [bind].
  apply tuple_lookup; [exact Hm | exact Hlen | lia].
Qed.

Lemma map_lookup_range_default {A : Type} (d : A) (a : list A) :
  map (fun p => default d (a !! Z.to_nat p)) (numpy.range (numpy.len a)) = a.
Proof.
  unfold numpy.range, numpy.len. rewrite seqZ_of_seq, map_map.
  apply list_eq. intros i.
  change (map ?f ?l) with (f <$> l). rewrite list_lookup_fmap.
  destruct (a !! i) as [x|] eqn:E.
  - rewrite lookup_seq_lt by (apply lookup_lt_Some in E; exact E). simpl.
    rewrite Nat2Z.id, E. reflexivity.
  - rewrite lookup_seq_ge by (apply lookup_ge_None in E; lia). reflexivity.
Qed.

Lemma new_tuple_round_trip (space : string) (transforms : list Transforms)
    (points : PointsSequence) (inds : list (list Z)) (s : Sample) :
  new space transforms points (IndexTuple inds) = Ok s →
  length inds = length points → index s = Ok inds.
Proof.
  intros H Hlen. destruct (new_tuple_elements _ _ _ _ _ H) as (Hn & _ & Hel).
  unfold index. rewrite <- (map_lookup_range_default [] inds) at 1.
  replace (numpy.len inds) with (nelems s) by (unfold numpy.len in *; lia).
  apply mapM_Ok_elem. intros e He. apply elem_of_seqZ in He. apply Hel. lia.
Qed.

(** X3: a sample made by [Sample.new] with a tuple of per-element index
    arrays, at least one ([numpy.concatenate] accepts no empty tuple),
    has as many elements as the points sequence and as many
    points as the arrays have entries together; [getindex] of element
    [e] returns the [e]-th array (the empty array when the tuple is
    shorter), and when the tuple has one array per element, [index]
    gives the tuple back. *)
Theorem new_tuple_index (space : string) (transforms : list Transforms)
    (points : PointsSequence) (inds : list (list Z)) (s : Sample) :
  inds ≠ [] →
  new space transforms points (IndexTuple inds) = Ok s →
  nelems s = numpy.len points ∧
  npoints s = numpy.len (concat inds) ∧
  (∀ e, 0 ≤ e < nelems s → getindex s e = Ok (default [] (inds !! Z.to_nat e))) ∧
  (length inds = length points → index s = Ok inds).
Proof.
  intros _ H. destruct (new_tuple_elements _ _ _ _ _ H) as (Hn & Hp & Hel).
  repeat (split; [assumption|]). apply (new_tuple_round_trip _ _ _ _ _ H).
Qed.

Lemma new_tuple_index_witness :
  ∃ s, new "X" [mkTransforms 1 [0; 1]] [mkPoints 1 [] []; mkPoints 2 [] []]
         (IndexTuple [[2]; [0; 1]]) = Ok s ∧
       getindex s 1 = Ok [0; 1] ∧ index s = Ok [[2]; [0; 1]].
Proof.
  assert (∃ s, new "X" [mkTransforms 1 [0; 1]] [mkPoints 1 [] []; mkPoints 2 [] []]
                 (IndexTuple [[2]; [0; 1]]) = Ok s ∧ nelems s = 2) as (s & Hs & Hn).
  { eexists. split; [vm_compute; reflexivity | reflexivity]. }
  exists s. split; [exact Hs|].
  assert (Hne : [[2]; [0; 1]] ≠ ([] : list (list Z))) by discriminate.
  destruct (new_tuple_index _ _ _ _ _ Hne Hs) as (_ & _ & Hel & Hidx).
  split; [apply (Hel 1); rewrite Hn; lia | apply Hidx; reflexivity].
Defined.

Lemma shapes_match_reshape (ind : list Z) (points : PointsSequence) :
  numpy.len ind = numpy.sum (map Points_npoints points) →
  shapes_match (reshape (map points_npoints points) ind) points = true ∧
  concat (reshape (map points_npoints points) ind) = ind.
Proof.
  revert ind. induction points as [|p points IH]; intros ind Hlen.
  - simpl. split; [reflexivity|]. destruct ind; [reflexivity|]. discriminate.
  - unfold numpy.sum, numpy.len in Hlen. simpl in Hlen.
    fold (numpy.sum (map Points_npoints points)) in Hlen.
    pose proof (sum_nonneg _ (Points_npoints_nonneg points)) as Hs.
    unfold Points_npoints in Hlen at 1.
    destruct (IH (drop (points_npoints p) ind)) as [IH1 IH2].
    { unfold numpy.len. rewrite length_drop. lia. }
    simpl. rewrite IH1, IH2, take_drop. split; [|reflexivity].
    rewrite andb_true_r. apply Z.eqb_eq. unfold numpy.len, Points_npoints.
    rewrite length_take. lia.
Qed.

(** X4: a sample made by [Sample.new] with a flat index array cuts this
    array into consecutive pieces, one per element and as long as the
    element has points: the concatenation of [getindex] over all
    elements is the array that was given. *)
Theorem new_flat_index (space : string) (transforms : list Transforms)
    (points : PointsSequence) (ind : list Z) (s : Sample) :
  new space transforms points (IndexArray ind) = Ok s →
  ∃ idx, index s = Ok idx ∧ concat idx = ind ∧
         Forall2 (fun i p => numpy.len i = Points_npoints p) idx points.
Proof.
  intros H.
  assert (Hlen : numpy.len ind = numpy.sum (map Points_npoints points)).
  { unfold new, _DefaultIndex_init in H.
    apply bind_Ok in H as (sample & Hsample & H).
    apply bind_Ok in Hsample as (a & Ha & Hsample). injection Hsample as <-.
    apply _TransformChainsSample_init_Ok in Ha as (t0 & rest & _ & _ & ->).
    unfold _CustomIndex_init in H. apply bind_Ok in H as ([] & Hlen & _).
    apply assert_Ok, Z.eqb_eq in Hlen. exact Hlen. }
  destruct (shapes_match_reshape ind points Hlen) as [Hm Hc].
  set (inds := reshape (map points_npoints points) ind) in *.
  assert (Ht : new space transforms points (IndexTuple inds) = Ok s).
  { unfold new in *. destruct (_DefaultIndex_init space transforms points); [|discriminate].
    cbn [bind] in *. rewrite Hm, Hc. exact H. }
  assert (Hl : length inds = length points)
    by (unfold inds; rewrite length_reshape, length_map; reflexivity).
  exists inds. split; [exact (new_tuple_round_trip _ _ _ _ _ Ht Hl)|]. split; [exact Hc|].
  clearbody inds. clear -Hm Hl. revert points Hm Hl. induction inds as [|i inds IH]; intros points Hm Hl.
  - destruct points; [constructor | discriminate].
  - destruct points as [|p points]; [discriminate|]. simpl in Hm.
    apply andb_true_iff in Hm as [Hp Hm]. apply Z.eqb_eq in Hp.
    constructor; [exact Hp|]. apply IH; [exact Hm | simpl in Hl; lia].
Qed.

Lemma new_flat_index_witness :
  ∃ s idx, new "X" [mkTransforms 1 [0; 1]] [mkPoints 1 [] []; mkPoints 2 [] []]
             (IndexArray [2; 0; 1]) = Ok s ∧
           index s = Ok idx ∧ concat idx = [2; 0; 1].
Proof.
  assert (∃ s, new "X" [mkTransforms 1 [0; 1]] [mkPoints 1 [] []; mkPoints 2 [] []]
                 (IndexArray [2; 0; 1]) = Ok s) as (s & Hs).
  { eexists. vm_compute. reflexivity. }
  destruct (new_flat_index _ _ _ _ _ Hs) as (idx & Hidx & Hc & _).
  exists s, idx. split; [exact Hs|]. split; [exact Hidx | exact Hc].
Defined.

(** ** Sums and products are associative *)

Lemma add_Ok (a b r : Sample) :
  __add__ a b = Ok r →
  spaces a = spaces b ∧ spaces r = spaces a ∧ npoints r = npoints a + npoints b.
Proof.
  unfold __add__. destruct (spaces_eqb (spaces a) (spaces b)) eqn:E; [|discriminate].
  apply spaces_eqb_true in E. simpl.
  destruct (Z.eqb_spec (npoints b) 0) as [Hb|Hb].
  { intros [= <-]. split; [exact E|]. split; [reflexivity | lia]. }
  destruct (Z.eqb_spec (npoints a) 0) as [Ha|Ha].
  { intros [= <-]. split; [exact E|]. split; [congruence | lia]. }
  intros H. apply _Add_init_Ok in H as (_ & ->). split; [exact E|]. split; reflexivity.
Qed.

Lemma add_total (a b : Sample) :
  spaces a = spaces b → ∃ r, __add__ a b = Ok r.
Proof.
  intros E. unfold __add__. rewrite (proj2 (spaces_eqb_true _ _) E). simpl.
  destruct (npoints b =? 0); [eauto|]. destruct (npoints a =? 0); [eauto|].
  unfold _Add_init. rewrite (proj2 (spaces_eqb_true _ _) E). simpl. eauto.
Qed.

Lemma add_nonzero (a b : Sample) :
  spaces a = spaces b → npoints a ≠ 0 → npoints b ≠ 0 →
  __add__ a b = Ok (Add (mkAttrs (spaces a) (ndims a) (nelems a + nelems b)
                           (npoints a + npoints b)) a b).
Proof.
  intros E Ha Hb. unfold __add__, _Add_init.
  rewrite (proj2 (spaces_eqb_true _ _) E). simpl.
  rewrite (proj2 (Z.eqb_neq _ _) Ha), (proj2 (Z.eqb_neq _ _) Hb). reflexivity.
Qed.

Lemma add_zero_r (a b : Sample) :
  spaces a = spaces b → npoints b = 0 → __add__ a b = Ok a.
Proof.
  intros E Hb. unfold __add__. rewrite (proj2 (spaces_eqb_true _ _) E). simpl.
  rewrite (proj2 (Z.eqb_eq _ _) Hb). reflexivity.
Qed.

Lemma add_zero_l (a b : Sample) :
  spaces a = spaces b → npoints b ≠ 0 → npoints a = 0 → __add__ a b = Ok b.
Proof.
  intros E Hb Ha. unfold __add__. rewrite (proj2 (spaces_eqb_true _ _) E). simpl.
  rewrite (proj2 (Z.eqb_neq _ _) Hb), (proj2 (Z.eqb_eq _ _) Ha). reflexivity.
Qed.

(** X5: addition of constructed samples on the same spaces is
    associative: [(a + b) + c] and [a + (b + c)] both succeed, store the
    same attributes and have the same [getindex], whichever operands are
    without points. *)
Theorem add_associative (a b c : Sample) :
  Constructed a → Constructed b → Constructed c →
  spaces a = spaces b → spaces b = spaces c →
  ∃ ab bc l r,
    __add__ a b = Ok ab ∧ __add__ ab c = Ok l ∧
    __add__ b c = Ok bc ∧ __add__ a bc = Ok r ∧
    attrs l = attrs r ∧ ∀ e, getindex l e = getindex r e.
Proof.
  intros Hca Hcb Hcc Eab Ebc.
  destruct (Constructed_nonneg a Hca) as [Hna Hpa].
  destruct (Constructed_nonneg b Hcb) as [Hnb Hpb].
  destruct (Constructed_nonneg c Hcc) as [Hnc Hpc].
  destruct (Z.eq_dec (npoints c) 0) as [Hc0|Hc0].
  { destruct (add_total a b Eab) as [ab Hab].
    pose proof (add_Ok _ _ _ Hab) as (_ & Esp & _).
    exists ab, b, ab, ab. rewrite Hab.
    rewrite (add_zero_r ab c) by congruence.
    rewrite (add_zero_r b c) by congruence. repeat split. }
  destruct (Z.eq_dec (npoints b) 0) as [Hb0|Hb0].
  { destruct (add_total a c ltac:(congruence)) as [ac Hac].
    exists a, c, ac, ac.
    rewrite (add_zero_r a b), (add_zero_l b c), Hac by assumption. repeat split. }
  destruct (Z.eq_dec (npoints a) 0) as [Ha0|Ha0].
  { pose proof (add_nonzero b c Ebc Hb0 Hc0) as Hbc.
    eexists b, _, _, _. rewrite (add_zero_l a b) by assumption.
    rewrite Hbc. rewrite add_zero_l; [repeat split | exact Eab | | exact Ha0].
    unfold npoints at 1; simpl. lia. }
  pose proof (add_nonzero a b Eab Ha0 Hb0) as Hab.
  pose proof (add_nonzero b c Ebc Hb0 Hc0) as Hbc.
  set (ab := Add _ a b) in Hab. set (bc := Add _ b c) in Hbc.
  assert (Hl : __add__ ab c = Ok (Add (mkAttrs (spaces ab) (ndims ab) (nelems ab + nelems c)
                                         (npoints ab + npoints c)) ab c)).
  { apply add_nonzero; [change (spaces a = spaces c); congruence | | exact Hc0].
    change (npoints a + npoints b ≠ 0). lia. }
  assert (Hr : __add__ a bc = Ok (Add (mkAttrs (spaces a) (ndims a) (nelems a + nelems bc)
                                         (npoints a + npoints bc)) a bc)).
  { apply add_nonzero; [exact Eab | exact Ha0 |].
    change (npoints b + npoints c ≠ 0). lia. }
  eexists ab, bc, _, _. rewrite Hab, Hbc, Hl, Hr. clear Hab Hbc Hl Hr. subst ab bc.
  do 4 (split; [reflexivity|]). split.
  - unfold spaces, ndims, nelems, npoints; simpl. f_equal; lia.
  - intros e. cbn [getindex]. unfold nelems at 1 3, npoints at 1 4; simpl.
    fold (nelems a) (nelems b) (npoints a) (npoints b).
    destruct (Z.ltb_spec e (nelems a)) as [H1|H1].
    + rewrite (proj2 (Z.ltb_lt _ _)) by lia. reflexivity.
    + replace (e - nelems a <? nelems b) with (e <? nelems a + nelems b)
        by (destruct (Z.ltb_spec e (nelems a + nelems b)), (Z.ltb_spec (e - nelems a) (nelems b));
            (reflexivity || lia)).
      destruct (e <? nelems a + nelems b); [reflexivity|].
      replace (e - nelems a - nelems b) with (e - (nelems a + nelems b)) by lia.
      destruct (getindex c _); [|reflexivity]. simpl. rewrite map_map. f_equal.
      apply map_ext. intros p. unfold npoints at 1; simpl. fold (npoints a) (npoints b). lia.
Qed.

Lemma add_associative_witness :
  ∃ ab bc l r,
    __add__ Examples.X1 Examples.X2 = Ok ab ∧ __add__ ab Examples.X3 = Ok l ∧
    __add__ Examples.X2 Examples.X3 = Ok bc ∧ __add__ Examples.X1 bc = Ok r ∧
    attrs l = attrs r ∧ ∀ e, getindex l e = getindex r e.
Proof.
  apply add_associative;
    [apply X1_Constructed | apply X2_Constructed | apply X3_Constructed
    | reflexivity | reflexivity].
Defined.

Lemma outer_ravel_assoc (x : list Z) (m : Z) (y : list Z) (m' : Z) (z : list Z) :
  numpy.outer_ravel (numpy.outer_ravel x m y) m' z
  = numpy.outer_ravel x (m * m') (numpy.outer_ravel y m' z).
Proof.
  unfold numpy.outer_ravel. induction x as [|i x IH]; [reflexivity|].
  simpl. rewrite flat_map_app, IH. f_equal. clear IH.
  induction y as [|j y IH]; [reflexivity|].
  simpl. rewrite map_app, IH. f_equal. rewrite map_map. apply map_ext. intros k. lia.
Qed.

Lemma mul_disjoint (a b : Sample) :
  (∀ sp, sp ∈ spaces a → sp ∉ spaces b) →
  __mul__ a b = Ok (Mul (mkAttrs (spaces a ++ spaces b) (ndims a + ndims b)
                           (nelems a * nelems b) (npoints a * npoints b)) a b).
Proof.
  intros H. unfold __mul__, _Mul_init. rewrite (proj2 (isdisjoint_true _ _) H). reflexivity.
Qed.

(** X6: the product of constructed samples on pairwise disjoint spaces
    is associative: [(a * b) * c] and [a * (b * c)] both succeed, store
    the same attributes, and [getindex] returns the same array or raises
    the same exception for every element index. *)
Theorem mul_associative (a b c : Sample) :
  Constructed a → Constructed b → Constructed c →
  (∀ sp, sp ∈ spaces a → sp ∉ spaces b) →
  (∀ sp, sp ∈ spaces a → sp ∉ spaces c) →
  (∀ sp, sp ∈ spaces b → sp ∉ spaces c) →
  ∃ ab bc l r,
    __mul__ a b = Ok ab ∧ __mul__ ab c = Ok l ∧
    __mul__ b c = Ok bc ∧ __mul__ a bc = Ok r ∧
    attrs l = attrs r ∧ ∀ e, getindex l e = getindex r e.
Proof.
  intros Hca Hcb Hcc Dab Dac Dbc.
  destruct (Constructed_nonneg b Hcb) as [Hnb _].
  destruct (Constructed_nonneg c Hcc) as [Hnc _].
  pose proof (mul_disjoint a b Dab) as Hab.
  pose proof (mul_disjoint b c Dbc) as Hbc.
  set (ab := Mul _ a b) in Hab. set (bc := Mul _ b c) in Hbc.
  assert (Hl : __mul__ ab c = Ok (Mul (mkAttrs (spaces ab ++ spaces c) (ndims ab + ndims c)
                                         (nelems ab * nelems c) (npoints ab * npoints c)) ab c)).
  { apply mul_disjoint. intros sp Hsp. change (sp ∈ spaces a ++ spaces b) in Hsp.
    apply elem_of_app in Hsp as [Hsp|Hsp]; auto. }
  assert (Hr : __mul__ a bc = Ok (Mul (mkAttrs (spaces a ++ spaces bc) (ndims a + ndims bc)
                                         (nelems a * nelems bc) (npoints a * npoints bc)) a bc)).
  { apply mul_disjoint. intros sp Hsp Hin. change (sp ∈ spaces b ++ spaces c) in Hin.
    apply elem_of_app in Hin as [Hin|Hin]; [exact (Dab sp Hsp Hin) | exact (Dac sp Hsp Hin)]. }
  eexists ab, bc, _, _. rewrite Hab, Hbc, Hl, Hr. clear Hab Hbc Hl Hr. subst ab bc.
  do 4 (split; [reflexivity|]). split.
  - unfold spaces, ndims, nelems, npoints; simpl. rewrite <- app_assoc. f_equal; lia.
  - intros e. cbn [getindex]. unfold nelems at 2 3, npoints at 1 4; simpl.
    fold (nelems b) (nelems c) (npoints b) (npoints c).
    unfold numpy.divmod.
    destruct (Z.eqb_spec (nelems c) 0) as [Hc0|Hc0].
    { rewrite Hc0, Z.mul_0_r. reflexivity. }
    destruct (Z.eqb_spec (nelems b) 0) as [Hb0|Hb0].
    { rewrite Hb0, Z.mul_0_l. reflexivity. }
    replace (nelems b * nelems c =? 0) with false by (symmetry; apply Z.eqb_neq; nia).
    cbn [bind].
    replace ((e `div` nelems c) `div` nelems b) with (e `div` (nelems b * nelems c)).
    2: { rewrite Z.div_div by lia. f_equal. lia. }
    replace ((e `mod` (nelems b * nelems c)) `div` nelems c)
      with ((e `div` nelems c) `mod` nelems b).
    2: { rewrite (Z.mul_comm (nelems b)), Z.rem_mul_r by lia.
         rewrite (Z.mul_comm (nelems c)), Z.div_add by lia.
         rewrite (Z.div_small (e `mod` nelems c)) by (apply Z.mod_pos_bound; lia).
         reflexivity. }
    replace ((e `mod` (nelems b * nelems c)) `mod` nelems c) with (e `mod` nelems c).
    2: { rewrite (Z.mul_comm (nelems b)), Z.rem_mul_r by lia.
         rewrite (Z.mul_comm (nelems c)), Z.mod_add by lia.
         rewrite Z.mod_mod by lia. reflexivity. }
    destruct (getindex a _) as [i1|]; [|reflexivity]. cbn [bind].
    destruct (getindex b _) as [i2|]; [|reflexivity]. cbn [bind].
    destruct (getindex c _) as [i3|]; [|reflexivity]. cbn [bind].
    rewrite outer_ravel_assoc. reflexivity.
Qed.

Lemma mul_associative_witness :
  ∃ ab bc l r,
    __mul__ Examples.X2 Examples.Y111 = Ok ab ∧ __mul__ ab Examples2.Z2 = Ok l ∧
    __mul__ Examples.Y111 Examples2.Z2 = Ok bc ∧ __mul__ Examples.X2 bc = Ok r ∧
    attrs l = attrs r ∧ ∀ e, getindex l e = getindex r e.
Proof.
  apply mul_associative;
    [apply X2_Constructed | apply Y111_Constructed
    | apply (leaf_Constructed "Z" 1 [2%nat]); reflexivity | | |];
    apply isdisjoint_true; reflexivity.
Defined.

(** ** The points of an element subset *)

Lemma element_sizes_filter (f : Z → res (list Z)) (P : Z → Prop) `{!∀ x, Decision (P x)}
    (l : list Z) (sizes : list Z) :
  mapM (fun i => do ind <- f i; Ok (numpy.len ind)) l = Ok sizes →
  ∃ s1 s2,
    mapM (fun i => do ind <- f i; Ok (numpy.len ind)) (filter P l) = Ok s1 ∧
    mapM (fun i => do ind <- f i; Ok (numpy.len ind)) (filter (fun i => ¬ P i) l) = Ok s2 ∧
    numpy.sum sizes = numpy.sum s1 + numpy.sum s2.
Proof.
  revert sizes. induction l as [|i l IH]; intros sizes Hs.
  - injection Hs as <-. exists [], []. repeat split.
  - simpl in Hs. apply bind_Ok in Hs as (sz & Hsz & Hs).
    apply bind_Ok in Hs as (rest & Hrest & Hs). injection Hs as <-.
    destruct (IH _ Hrest) as (s1 & s2 & H1 & H2 & Hsum).
    rewrite !filter_cons. destruct (decide (P i)) as [Hp|Hp].
    + rewrite decide_False by tauto. exists (sz :: s1), s2.
      simpl. rewrite Hsz, H1. simpl. split; [reflexivity|]. split; [exact H2|].
      unfold numpy.sum in *. simpl. lia.
    + rewrite decide_True by tauto. exists s1, (sz :: s2).
      simpl. rewrite Hsz, H2. simpl. split; [exact H1|]. split; [reflexivity|].
      unfold numpy.sum in *. simpl. lia.
Qed.

Lemma getitem_cumsum_last (sizes : list Z) (n : Z) :
  numpy.getitem (numpy.cumsum (0 :: sizes)) (-1) = Ok n → n = numpy.sum sizes.
Proof.
  pose proof (cumsum_cons0_lookup sizes (length sizes) ltac:(lia)) as Hl.
  rewrite firstn_all in Hl.
  pose proof (cumsum_cons0_length sizes) as Hlen.
  destruct (numpy.cumsum (0 :: sizes)) as [|x l _] using rev_ind; [discriminate|].
  rewrite getitem_last. intros [= <-].
  rewrite length_app in Hlen. simpl in Hlen.
  rewrite lookup_app_r in Hl by lia.
  replace (length sizes - length l)%nat with 0%nat in Hl by lia.
  simpl in Hl. congruence.
Qed.

Lemma inherited_take_elements (s : Sample) (indices sizes : list Z) :
  inherits_take_elements s = true →
  element_sizes s indices = Ok sizes →
  ∃ r, take_elements s indices = Ok r ∧ spaces r = spaces s ∧
       npoints r = numpy.sum sizes.
Proof.
  intros Hi Hs.
  assert (take_elements s indices
          = if 0 <? numpy.len indices then _TakeElements_init s indices
            else Ok (empty (spaces s) (ndims s))) as ->
    by (destruct s; try discriminate; reflexivity).
  destruct indices as [|i indices].
  - injection Hs as <-. eexists. split; [reflexivity|]. split; reflexivity.
  - replace (0 <? numpy.len (i :: indices)) with true
      by (symmetry; apply Z.ltb_lt; unfold numpy.len; simpl; lia).
    destruct (_TakeElements_init_total s (i :: indices)) as [r Hr0]; [discriminate | |].
    { intros j Hj. apply list_elem_of_lookup in Hj as [k Hk].
      destruct (mapM_Ok_lookup _ _ _ Hs k j Hk) as (y & _ & Hy).
      apply bind_Ok in Hy as (ind & Hind & _). eauto. }
    exists r. split; [exact Hr0|].
    apply _TakeElements_init_Ok in Hr0 as (_ & sz & n & Hsz & Hn & ->).
    split; [reflexivity|]. unfold npoints; cbn [attrs attr_npoints].
    unfold element_sizes in Hs. assert (sz = sizes) as -> by congruence.
    apply getitem_cumsum_last. exact Hn.
Qed.

Lemma mapM_Ok_elem_of {A B : Type} (f : A → res B) (l : list A) (r : list B) (x : A) :
  mapM f l = Ok r → x ∈ l → ∃ y, f x = Ok y.
Proof.
  intros H Hx. apply list_elem_of_lookup in Hx as [k Hk].
  destruct (mapM_Ok_lookup _ _ _ H k x Hk) as (y & _ & Hy). eauto.
Qed.

Lemma len_arange (lo n : Z) : 0 ≤ n → numpy.len (numpy.arange lo (lo + n)) = n.
Proof. intros H. unfold numpy.len, numpy.arange. rewrite length_seqZ. lia. Qed.

Lemma take_elements_points_all (s : Sample) :
  Constructed s → ∀ (indices sizes : list Z),
  element_sizes s indices = Ok sizes →
  ∃ r, take_elements s indices = Ok r ∧ spaces r = spaces s ∧
       npoints r = numpy.sum sizes.
Proof.
  induction s as [a sp tr pts | a sp tr pts parent IH index | a |
    a s1 IH1 s2 IH2 | a s1 IH1 s2 IH2 | | a parent IH indices0 offs];
    intros Hc indices sizes Hs;
    try (apply inherited_take_elements; [reflexivity | exact Hs]).
  - (* _Empty *)
    apply Constructed_inv in Hc as [_ Hn].
    destruct indices as [|i indices]; [|discriminate].
    injection Hs as <-. exists (Empty a). split; [reflexivity|]. split; [reflexivity|].
    exact Hn.
  - (* _Add *)
    apply Constructed_inv in Hc as (Hc1 & Hc2 & Hc).
    apply _Add_init_Ok in Hc as (Hsp & E). injection E as ->.
    cbn [take_elements]. rewrite compress_lt, compress_not_lt.
    destruct (element_sizes_filter _ (fun i => i < nelems s1) indices sizes Hs)
      as (sz1 & sz2 & H1 & H2 & Hsum).
    destruct (IH1 Hc1 (filter (fun i => i < nelems s1) indices) sz1) as (r1 & Hr1 & Hsp1 & Hn1).
    { unfold element_sizes. rewrite <- H1. apply mapM_ext_elem. intros x Hx.
      apply list_elem_of_filter in Hx as [Hx _]. cbn [getindex].
      rewrite (proj2 (Z.ltb_lt _ _) Hx). reflexivity. }
    destruct (IH2 Hc2 (map (fun i => i - nelems s1)
                         (filter (fun i => ¬ i < nelems s1) indices)) sz2)
      as (r2 & Hr2 & Hsp2 & Hn2).
    { unfold element_sizes. rewrite mapM_map, <- H2. apply mapM_ext_elem. intros x Hx.
      apply list_elem_of_filter in Hx as [Hx _]. cbn [getindex].
      rewrite (proj2 (Z.ltb_ge _ _)) by lia.
      destruct (getindex s2 (x - nelems s1)); [|reflexivity]. simpl.
      unfold numpy.len. rewrite length_map. reflexivity. }
    rewrite Hr1, Hr2. cbn [bind].
    destruct (add_total r1 r2) as [r Hr]; [congruence|].
    exists r. split; [exact Hr|].
    apply add_Ok in Hr as (_ & Hspr & Hnr). split.
    + rewrite Hspr, Hsp1. reflexivity.
    + lia.
  - (* _TakeElements *)
    apply Constructed_inv in Hc as (Hcp & Hc).
    pose proof (_TakeElements_init_elements _ _ _ Hc) as (Hne & _ & _ & Hel).
    pose proof (_TakeElements_init_Ok _ _ _ Hc) as (_ & sz0 & n0 & _ & _ & E).
    injection E as -> _.
    assert (Hin : ∀ j, j ∈ indices → 0 ≤ j < numpy.len indices0).
    { intros j Hj. destruct (mapM_Ok_elem_of _ _ _ j Hs Hj) as [y Hy].
      apply bind_Ok in Hy as (ind & Hind & _). cbn [getindex attr_nelems] in Hind.
      destruct (in_range j (numpy.len indices0)) eqn:Er; [|discriminate].
      unfold in_range in Er. apply andb_true_iff in Er as [E1 E2].
      apply Z.leb_le in E1. apply Z.ltb_lt in E2. lia. }
    cbn [take_elements]. rewrite (take_map indices0 indices Hin). cbn [bind].
    destruct (IH Hcp (map (fun p => default 0 (indices0 !! Z.to_nat p)) indices) sizes)
      as (r & Hr & Hspr & Hnr).
    { unfold element_sizes. rewrite mapM_map, <- Hs. apply mapM_ext_elem. intros j Hj.
      specialize (Hin j Hj).
      destruct (indices0 !! Z.to_nat j) as [i|] eqn:Ei.
      2: { apply lookup_ge_None in Ei. unfold numpy.len in Hin. lia. }
      destruct (Hel _ _ Ei) as (ind & lo & Hp & Hg).
      rewrite Z2Nat.id in Hg by lia. change (default 0 (Some i)) with i.
      rewrite Hp, Hg. cbn [bind].
      rewrite len_arange by apply len_nonneg. reflexivity. }
    exists r. split; [exact Hr|]. split; [|exact Hnr].
    rewrite Hspr. reflexivity.
Qed.

(** X7: when [getindex] succeeds on every given element index,
    [take_elements] of a constructed sample succeeds, the result is on
    the same spaces, and it has as many points as the taken elements
    have together; this holds for every class, also for the sum with
    its two shortcuts. *)
Theorem take_elements_points (s : Sample) (indices sizes : list Z) :
  Constructed s →
  element_sizes s indices = Ok sizes →
  ∃ r, take_elements s indices = Ok r ∧ spaces r = spaces s ∧
       npoints r = numpy.sum sizes.
Proof. intros Hc. apply take_elements_points_all. exact Hc. Qed.

Lemma take_elements_points_witness :
  ∃ r, take_elements Examples.X1_plus_X2 [1; 0] = Ok r ∧
       spaces r = spaces Examples.X1_plus_X2 ∧ npoints r = numpy.sum [2; 1].
Proof.
  apply take_elements_points; [apply X1_plus_X2_Constructed | reflexivity].
Defined.

(** X8: [take_elements] never stacks element subsets: whatever the
    sample, its result is the empty sample, an element subset of a
    sample that does not override [take_elements] (a leaf, product or
    zipped sample), or a sum of such samples. *)
Theorem take_elements_plain (s : Sample) (indices : list Z) (r : Sample) :
  take_elements s indices = Ok r → plain_subset r = true.
Proof.
  revert indices r.
  induction s as [a sp tr pts | a sp tr pts parent IH index | a |
    a s1 IH1 s2 IH2 | a s1 IH1 s2 IH2 | | a parent IH indices0 offs];
    intros indices r H.
  1,2,5,6:
    (cbn [take_elements] in H; destruct (0 <? numpy.len indices);
     [ apply _TakeElements_init_Ok in H as (_ & sz & n & _ & _ & ->); reflexivity
     | injection H as <-; reflexivity ]).
  - injection H as <-. reflexivity.
  - cbn [take_elements] in H. apply bind_Ok in H as (r1 & Hr1 & H).
    apply bind_Ok in H as (r2 & Hr2 & H).
    apply IH1 in Hr1. apply IH2 in Hr2. unfold __add__ in H.
    destruct (negb _); [discriminate|].
    destruct (npoints r2 =? 0); [injection H as <-; exact Hr1|].
    destruct (npoints r1 =? 0); [injection H as <-; exact Hr2|].
    apply _Add_init_Ok in H as (_ & ->). simpl. rewrite Hr1, Hr2. reflexivity.
  - cbn [take_elements] in H. apply bind_Ok in H as (i & _ & H). eapply IH, H.
Qed.

Lemma take_elements_plain_witness :
  ∃ r, take_elements Examples.X1_plus_X2 [1; 0] = Ok r ∧ plain_subset r = true.
Proof.
  assert (∃ r, take_elements Examples.X1_plus_X2 [1; 0] = Ok r) as [r Hr].
  { eexists. vm_compute. reflexivity. }
  exists r. split; [exact Hr|]. exact (take_elements_plain _ _ _ Hr).
Defined.

(** ** Subsets keep the marked points *)

Lemma sublist_concat {A : Type} (L1 L2 : list (list A)) :
  L1 `sublist_of` L2 → concat L1 `sublist_of` concat L2.
Proof.
  induction 1 as [|x l1 l2 _ IH|x l1 l2 _ IH]; simpl.
  - constructor.
  - apply sublist_app; [reflexivity | exact IH].
  - apply sublist_inserts_l. exact IH.
Qed.

Lemma sublist_map {A B : Type} (f : A → B) (l1 l2 : list A) :
  l1 `sublist_of` l2 → map f l1 `sublist_of` map f l2.
Proof. induction 1; simpl; constructor; assumption. Qed.

Lemma selected_total (s : Sample) (mask : list bool) (ielems : list Z) :
  (∀ e, e ∈ ielems →
     ∃ ind, getindex s e = Ok ind ∧ ∀ p, p ∈ ind → 0 ≤ p < numpy.len mask) →
  ∃ sel, selected s mask ielems = Ok sel.
Proof.
  induction ielems as [|e ielems IH]; intros H; [eexists; reflexivity|].
  destruct (H e) as (ind & Hind & Hr); [left|].
  destruct (take_total mask ind Hr) as [m Hm].
  destruct IH as [rest Hrest]; [intros e' He'; apply H; right; exact He'|].
  simpl. rewrite Hind. simpl. rewrite Hm. simpl. rewrite Hrest. simpl. eauto.
Qed.

Lemma count_marked (mask : list bool) :
  length (filter (fun p => mask !! Z.to_nat p = Some true) (numpy.range (numpy.len mask)))
  = length (filter (fun b => b = true) mask).
Proof.
  induction mask as [|b mask IH] using rev_ind; [reflexivity|].
  unfold numpy.range, numpy.len in *. rewrite length_app. simpl length.
  replace (Z.of_nat (length mask + 1)) with (Z.of_nat (length mask) + 1) by lia.
  rewrite seqZ_app by lia. rewrite !list.filter_app, !length_app, <- IH. f_equal.
  - f_equal. apply filter_ext_elem. intros p Hp. apply elem_of_seqZ in Hp.
    rewrite lookup_app_l by lia. reflexivity.
  - change (seqZ (0 + Z.of_nat (length mask)) 1) with [0 + Z.of_nat (length mask)].
    rewrite !filter_cons, !filter_nil.
    replace (Z.to_nat (0 + Z.of_nat (length mask))) with (length mask) by lia.
    rewrite list_lookup_middle by reflexivity.
    destruct b; [rewrite !decide_True by reflexivity | rewrite !decide_False by (intros [=])];
      reflexivity.
Qed.

Lemma leaf_init (s : Sample) :
  Constructed s → transform_backed s = true →
  _TransformChainsSample_init (sample_space s) (sample_transforms s) (sample_points s)
  = Ok (attrs s).
Proof.
  intros Hc Ht. destruct s; try discriminate; apply Constructed_inv in Hc.
  - exact Hc.
  - destruct Hc as [_ Hc].
    apply _CustomIndex_init_Ok in Hc as (_ & _ & a0 & sp & tr & pts & Ha & E & _).
    injection E as -> -> -> ->. exact Ha.
Qed.

Lemma leaf_getindex_len (s : Sample) :
  Constructed s → transform_backed s = true →
  ∀ e ind, getindex s e = Ok ind →
    0 ≤ e < numpy.len (sample_points s) ∧
    ∃ p, sample_points s !! Z.to_nat e = Some p ∧ numpy.len ind = Points_npoints p.
Proof.
  induction s as [a sp tr pts | a sp tr pts parent IH index | a |
    a s1 IH1 s2 IH2 | a s1 IH1 s2 IH2 | | a parent IH indices offs];
    intros Hc Ht e ind He; try discriminate.
  - apply Constructed_inv in Hc.
    apply _TransformChainsSample_init_Ok in Hc as (t0 & rest & _ & _ & ->).
    cbn [sample_points].
    assert (Hr : 0 ≤ e < numpy.len pts).
    { cbn [getindex attr_nelems] in He.
      destruct (in_range e (numpy.len pts)) eqn:Er; [|discriminate].
      unfold in_range in Er. apply andb_true_iff in Er as [E1 E2].
      apply Z.leb_le in E1. apply Z.ltb_lt in E2. lia. }
    split; [exact Hr|]. unfold numpy.len in Hr.
    destruct (lookup_lt_is_Some_2 pts (Z.to_nat e) ltac:(lia)) as [p Hp].
    exists p. split; [exact Hp|].
    rewrite <- (Z2Nat.id e) in He by lia.
    rewrite offsets_getindex in He; [|reflexivity | lia]. injection He as <-.
    assert (Hm : map Points_npoints pts !! Z.to_nat e = Some (Points_npoints p)).
    { change (map Points_npoints pts) with (Points_npoints <$> pts).
      rewrite list_lookup_fmap, Hp. reflexivity. }
    rewrite (take_S_r _ _ _ Hm), sum_app.
    replace (numpy.sum [Points_npoints p]) with (Points_npoints p)
      by (unfold numpy.sum; simpl; lia).
    apply len_arange. unfold Points_npoints. lia.
  - apply Constructed_inv in Hc as [Hcp Hc].
    apply _CustomIndex_init_Ok in Hc as (_ & Htp & a0 & sp0 & tr0 & pts0 & Ha & E & a' & Hp).
    injection E as -> -> -> ->. cbn [sample_points].
    cbn [getindex] in He. apply bind_Ok in He as (i & Hi & He).
    apply mapM_Ok_length in He.
    destruct (IH Hcp Htp e i Hi) as (Hr & p & Hp' & Hlen).
    assert (sample_points parent = pts0) as Epts
      by (destruct Hp as [-> | (p0 & i0 & ->)]; reflexivity).
    rewrite Epts in *. split; [exact Hr|]. exists p. split; [exact Hp'|].
    unfold numpy.len in *. lia.
Qed.

Lemma take_default {A : Type} (d : A) (a : list A) (ind : list Z) :
  (∀ p, p ∈ ind → 0 ≤ p < numpy.len a) →
  numpy.take a ind = Ok (map (fun p => default d (a !! Z.to_nat p)) ind).
Proof.
  intros H. unfold numpy.take. apply mapM_Ok_elem. intros p Hp.
  specialize (H p Hp). unfold numpy.len in H.
  destruct (lookup_lt_is_Some_2 a (Z.to_nat p) ltac:(lia)) as [x Hx].
  rewrite Hx. simpl. apply getitem_nonneg; [lia | exact Hx].
Qed.

Lemma leaf_subset (s : Sample) (mask : list bool) (sel sizes : list Z) :
  Constructed s → transform_backed s = true →
  selection s mask = Ok sel → element_sizes s sel = Ok sizes →
  ∃ r, subset s mask = Ok r ∧ spaces r = spaces s ∧ npoints r = numpy.sum sizes.
Proof.
  intros Hc Ht Hsel Hs.
  assert (subset s mask
          = (do sel <- selection s mask;
             do transforms' <- mapM (fun t => Transforms_getitem t sel) (sample_transforms s);
             do points' <- PointsSequence_take (sample_points s) sel;
             new (sample_space s) transforms' points' IndexNone)) as ->
    by (destruct s; try discriminate; reflexivity).
  rewrite Hsel. cbn [bind].
  assert (Hin : ∀ e, e ∈ sel → 0 ≤ e < numpy.len (sample_points s)).
  { intros e He. destruct (mapM_Ok_elem_of _ _ _ e Hs He) as [y Hy].
    apply bind_Ok in Hy as (ind & Hind & _).
    apply (leaf_getindex_len s Hc Ht e ind Hind). }
  pose proof (leaf_init s Hc Ht) as Hinit.
  apply _TransformChainsSample_init_Ok in Hinit as (t0 & rest & Etr & Hch & Ea).
  set (sub := fun t => mkTransforms (fromdims t)
                         (map (fun p => default 0 (chains t !! Z.to_nat p)) sel)).
  rewrite (mapM_Ok_elem _ sub).
  2: { intros t Htin. unfold Transforms_getitem. rewrite take_map; [reflexivity|].
       rewrite List.Forall_forall in Hch. apply list_elem_of_In in Htin.
       rewrite (Hch t Htin). exact Hin. }
  cbn [bind]. unfold PointsSequence_take.
  rewrite (take_default (mkPoints 0 [] []) _ _ Hin). cbn [bind].
  set (pts' := map _ sel).
  unfold new, _DefaultIndex_init, _TransformChainsSample_init.
  rewrite Etr. cbn [map].
  replace (1 <=? numpy.len (sub t0 :: map sub rest)) with true
    by (symmetry; apply Z.leb_le; unfold numpy.len; simpl; lia).
  cbn [assert bind].
  replace (forallb _ (sub t0 :: map sub rest)) with true.
  2: { symmetry. apply forallb_forall. intros t Htin.
       change (sub t0 :: map sub rest) with (map sub (t0 :: rest)) in Htin.
       apply in_map_iff in Htin as (t' & <- & _). apply Z.eqb_eq.
       unfold sub, pts', numpy.len; simpl. rewrite !length_map. reflexivity. }
  cbn [assert bind].
  rewrite (getitem_nonneg _ 0 (sub t0)); [|lia | reflexivity]. cbn [bind].
  eexists. split; [reflexivity|]. split.
  - unfold spaces. rewrite Ea. reflexivity.
  - unfold npoints; cbn [attrs attr_npoints]. unfold PointsSequence_npoints. f_equal.
    assert (element_sizes s sel = Ok (map Points_npoints pts')) as E.
    { unfold element_sizes, pts'. rewrite map_map. apply mapM_Ok_elem. intros e He.
      destruct (mapM_Ok_elem_of _ _ _ e Hs He) as [y Hy].
      apply bind_Ok in Hy as (ind & Hind & _). rewrite Hind. cbn [bind].
      destruct (leaf_getindex_len s Hc Ht e ind Hind) as (_ & p & Hp & ->).
      cbv beta. symmetry.
      exact (f_equal (fun o => Ok (Points_npoints (default (mkPoints 0 [] []) o))) Hp). }
    congruence.
Qed.

Lemma subset_points (s : Sample) (mask : list bool) (sel sizes : list Z) :
  Constructed s →
  selection s mask = Ok sel → element_sizes s sel = Ok sizes →
  ∃ r, subset s mask = Ok r ∧ spaces r = spaces s ∧ npoints r = numpy.sum sizes.
Proof.
  intros Hc Hsel Hs. destruct (transform_backed s) eqn:Ht.
  - apply (leaf_subset s mask sel sizes); assumption.
  - assert (subset s mask = (do sel <- selection s mask; take_elements s sel)) as ->
      by (destruct s; try discriminate; reflexivity).
    rewrite Hsel. cbn [bind]. apply take_elements_points_all; assumption.
Qed.

Lemma sum_map_len {A : Type} (L : list (list A)) :
  numpy.sum (map numpy.len L) = numpy.len (concat L).
Proof.
  unfold numpy.sum, numpy.len. induction L as [|a L IH]; [reflexivity|].
  simpl. rewrite length_app, IH. lia.
Qed.

(** X10: for a constructed sample whose elements partition its points
    and a mask with one entry per point that marks at least one point,
    [subset] succeeds; the result is on the same spaces and has at
    least as many points as the mask marks, and at most as many as the
    sample.  (A mask that marks no point is left out: the selection
    then is an empty array, which numpy does not type as integers.) *)
Theorem subset_keeps_marked_points (s : Sample) (mask : list bool) :
  Constructed s → partitions s → numpy.len mask = npoints s →
  0 < count_nonzero mask →
  ∃ r, subset s mask = Ok r ∧ spaces r = spaces s ∧
       count_nonzero mask ≤ npoints r ∧ npoints r ≤ npoints s.
Proof.
  intros Hc Hpart Hlen _.
  pose proof Hpart as (idx & Hidx & Hperm).
  pose proof (Constructed_nonneg s Hc) as [Hne Hnp].
  pose proof (index_Ok_length s idx Hidx) as Hlidx.
  destruct (selected_total s mask (numpy.range (nelems s))) as [sel Hsel].
  { intros e He. apply elem_of_seqZ in He.
    destruct (partitions_total s e Hpart ltac:(lia)) as (ind & Hind & Hr).
    exists ind. split; [exact Hind|]. rewrite Hlen. exact Hr. }
  pose proof (selected_marked _ _ _ _ Hsel) as [Hsub Hmem].
  assert (Hrange : ∀ e, e ∈ sel → 0 ≤ e < nelems s).
  { intros e He. apply Hmem in He as [He _]. apply elem_of_seqZ in He. lia. }
  set (sub := map (fun e => default [] (idx !! Z.to_nat e)) sel).
  assert (Hsizes : element_sizes s sel = Ok (map numpy.len sub)).
  { unfold element_sizes, sub. rewrite map_map. apply mapM_Ok_elem. intros e He.
    destruct (index_Ok_lookup s idx e Hidx (Hrange e He)) as (ind & Hl & Hg).
    rewrite Hg, Hl. reflexivity. }
  destruct (subset_points s mask sel _ Hc Hsel Hsizes) as (r & Hr & Hsp & Hn).
  exists r. split; [exact Hr|]. split; [exact Hsp|].
  rewrite Hn, sum_map_len.
  assert (Hsl : concat sub `sublist_of` concat idx).
  { apply sublist_concat.
    rewrite <- (map_lookup_range_default [] idx) at 1.
    apply sublist_map. unfold numpy.len. rewrite Hlidx, Z2Nat.id by lia. exact Hsub. }
  assert (Hnd : NoDup (concat idx)).
  { rewrite Hperm. apply NoDup_seqZ. }
  split.
  - unfold count_nonzero, numpy.len. rewrite <- count_marked.
    apply inj_le. apply submseteq_length. apply NoDup_submseteq.
    { apply list.NoDup_filter, NoDup_seqZ. }
    intros p Hp. apply list_elem_of_filter in Hp as [Hm Hp].
    apply elem_of_seqZ in Hp.
    destruct (partitions_cover s p Hpart ltac:(lia)) as (e & He & ind & Hind & Hpin).
    assert (e ∈ sel) as Hes.
    { apply Hmem. split; [apply elem_of_seqZ; lia|].
      exists ind, p. split; [exact Hind|]. split; [exact Hpin|].
      apply getitem_nonneg; [lia | exact Hm]. }
    apply list_elem_of_lookup in Hes as [k Hk].
    apply elem_of_concat. exists k, ind. split; [|exact Hpin].
    unfold sub. change (map ?f ?l) with (f <$> l). rewrite list_lookup_fmap, Hk. simpl.
    destruct (index_Ok_lookup s idx e Hidx He) as (ind' & Hl & Hg).
    rewrite Hl. simpl. congruence.
  - apply sublist_length in Hsl.
    apply Permutation_length in Hperm. unfold numpy.range in Hperm.
    rewrite length_seqZ in Hperm. unfold numpy.len. lia.
Qed.

Lemma subset_keeps_marked_points_witness :
  ∃ r, subset Examples.X1_plus_X2 [false; true; false] = Ok r ∧
       spaces r = spaces Examples.X1_plus_X2 ∧
       count_nonzero [false; true; false] ≤ npoints r ∧
       npoints r ≤ npoints Examples.X1_plus_X2.
Proof.
  apply subset_keeps_marked_points.
  - apply X1_plus_X2_Constructed.
  - exists [[0]; [1; 2]]. split; reflexivity.
  - reflexivity.
  - reflexivity.
Defined.

(** ** The attributes of a zipped sample *)

(** X11: the attribute [_sizes] of a zipped sample has one entry per
    element, the number of points that [getindex] returns for this
    element. *)
Theorem zip_sizes_spec (junk : Z) (samples : list Sample) (z : Sample) :
  zip junk samples = Ok z →
  numpy.len (zip_sizes z) = nelems z ∧
  ∀ e, 0 ≤ e < nelems z →
    ∃ ind, getindex z e = Ok ind ∧ zip_sizes z !! Z.to_nat e = Some (numpy.len ind).
Proof.
  intros Hz. unfold zip in Hz.
  apply _Zip_init_Ok in Hz
    as (s0 & rest & rows & flat & ie & il & E & _ & _ & _ & _ & _ & _ & _ & ->).
  cbn [zip_sizes]. split; [reflexivity|].
  unfold nelems; cbn [attrs attr_nelems]. intros e He.
  pose proof (layout_sizes_length flat) as Hlen. unfold numpy.len in He.
  eexists. split.
  - cbn [getindex]. apply layout_slice. unfold numpy.len. lia.
  - rewrite (layout_sizes flat (Z.to_nat e)) by lia.
    rewrite Z2Nat.id by lia. reflexivity.
Qed.

Lemma zip_sizes_spec_witness :
  ∃ z, zip 0 [Examples.X3; Examples.Y111] = Ok z ∧
       zip_sizes z = [1; 1; 1] ∧
       ∃ ind, getindex z 2 = Ok ind ∧ zip_sizes z !! 2%nat = Some (numpy.len ind).
Proof.
  assert (∃ z, zip 0 [Examples.X3; Examples.Y111] = Ok z ∧ zip_sizes z = [1; 1; 1] ∧
               nelems z = 3) as (z & Hz & Hs & Hn).
  { eexists. split; [vm_compute; reflexivity|]. split; reflexivity. }
  exists z. split; [exact Hz|]. split; [exact Hs|].
  destruct (zip_sizes_spec 0 _ z Hz) as [_ H].
  apply (H 2). rewrite Hn. lia.
Defined.

Lemma assign_values (a idx vals a' : list Z) :
  Forall (fun i => 0 ≤ i < numpy.len a) idx → length vals = length idx →
  numpy.assign a idx vals = Ok a' →
  ∀ p : nat,
    (Z.of_nat p ∈ idx →
       ∃ (k : nat) (v : Z), idx !! k = Some (Z.of_nat p) ∧ vals !! k = Some v ∧
                            a' !! p = Some v) ∧
    (Z.of_nat p ∉ idx → a' !! p = a !! p).
Proof.
  revert a vals. induction idx as [|i idx IH]; intros a vals Hidx Hlen H p.
  - destruct vals; [|discriminate]. injection H as <-.
    split; [intros Hin; inversion Hin | reflexivity].
  - destruct vals as [|v vals]; [discriminate|]. simpl in H.
    apply List.Forall_cons_iff in Hidx as [Hi Hidx]. unfold numpy.len in Hi.
    rewrite norm_index_nonneg in H by exact Hi. simpl in H.
    assert (Forall (fun j => 0 ≤ j < numpy.len (<[Z.to_nat i := v]> a)) idx) as Hidx'
      by (unfold numpy.len; rewrite length_insert; exact Hidx).
    destruct (IH _ vals Hidx' ltac:(simpl in Hlen; lia) H p) as [IH1 IH2].
    destruct (decide (Z.of_nat p ∈ idx)) as [Hin|Hin].
    + split.
      * intros _. destruct (IH1 Hin) as (k & w & Hk & Hw & Ha).
        exists (S k), w. auto.
      * intros Hn. exfalso. apply Hn. right. exact Hin.
    + rewrite (IH2 Hin). destruct (decide (Z.of_nat p = i)) as [<-|Hne].
      * split; [|intros Hn; exfalso; apply Hn; left].
        intros _. exists 0%nat, v. split; [reflexivity|]. split; [reflexivity|].
        rewrite Nat2Z.id. apply list_lookup_insert_eq. lia.
      * split.
        -- intros Hp. apply elem_of_cons in Hp as [Hp|Hp]; [lia | contradiction].
        -- intros _. apply list_lookup_insert_ne. lia.
Qed.

Lemma zip_fill_fold_locals (s : Sample) (n : nat) (es : list Z)
    (rows rows' : list Z * list Z) :
  (∀ e, e ∈ es → ∃ ind, getindex s e = Ok ind ∧
                   Forall (fun i => 0 ≤ i < Z.of_nat n) ind) →
  length rows.1 = n → length rows.2 = n →
  foldM (zip_fill_elem s) rows es = Ok rows' →
  ∀ (p : nat) (loc : Z), rows'.2 !! p = Some loc →
    (∃ e ind, e ∈ es ∧ getindex s e = Ok ind ∧ 0 ≤ loc ∧
              ind !! Z.to_nat loc = Some (Z.of_nat p)) ∨
    (rows.2 !! p = Some loc ∧
     ∀ e ind, e ∈ es → getindex s e = Ok ind → Z.of_nat p ∉ ind).
Proof.
  revert rows. induction es as [|e es IH]; intros rows Hes H1 H2 Hf p loc Hloc.
  - injection Hf as <-. right. split; [exact Hloc|]. intros e ind He. inversion He.
  - destruct (Hes e (list_elem_of_here _ _)) as (ind & Hg & Hind).
    simpl in Hf. unfold zip_fill_elem at 1 in Hf. rewrite Hg in Hf. simpl in Hf.
    assert (Forall (fun i => 0 ≤ i < numpy.len rows.1) ind) as Hind1
      by (unfold numpy.len; rewrite H1; exact Hind).
    assert (Forall (fun i => 0 ≤ i < numpy.len rows.2) ind) as Hind2
      by (unfold numpy.len; rewrite H2; exact Hind).
    destruct (assign_Ok rows.1 ind (replicate (length ind) e) Hind1) as (r1 & Hr1 & Hl1).
    destruct (assign_Ok rows.2 ind (numpy.range (numpy.len ind)) Hind2) as (r2 & Hr2 & Hl2).
    rewrite Hr1 in Hf. simpl in Hf. rewrite Hr2 in Hf. simpl in Hf.
    destruct (IH (r1, r2) (fun e' He' => Hes e' (list_elem_of_further _ _ _ He'))
                ltac:(simpl; lia) ltac:(simpl; lia) Hf p loc Hloc)
      as [(e' & ind' & He' & Hg' & Hl & Hp)|(Hv' & Hnone)].
    + left. exists e', ind'. split; [right; exact He' | auto].
    + simpl in Hv'.
      assert (Hlv : length (numpy.range (numpy.len ind)) = length ind)
        by (unfold numpy.range, numpy.len; rewrite length_seqZ; lia).
      destruct (assign_values _ _ _ _ Hind2 Hlv Hr2 p) as [Hyes Hno].
      destruct (decide (Z.of_nat p ∈ ind)) as [Hp|Hp].
      * destruct (Hyes Hp) as (k & v & Hk & Hv & Ha).
        rewrite Ha in Hv'. injection Hv' as ->.
        unfold numpy.range in Hv. apply lookup_seqZ in Hv as [-> _].
        left. exists e, ind. split; [left|]. split; [exact Hg|]. split; [lia|].
        replace (Z.to_nat (0 + Z.of_nat k)) with k by lia. exact Hk.
      * rewrite (Hno Hp) in Hv'. right. split; [exact Hv'|].
        intros e' ind' He' Hg'. apply elem_of_cons in He' as [->|He'].
        -- rewrite Hg in Hg'. injection Hg' as <-. exact Hp.
        -- eapply Hnone; eassumption.
Qed.

(** The second row that the loop of [_Zip.__init__] fills holds, for
    every point, its position within the element that holds it. *)
Lemma zip_fill_locals (junk : Z) (s : Sample) (rows : list Z * list Z) :
  partitions s → 0 ≤ npoints s →
  zip_fill junk (npoints s) s = Ok rows →
  ∀ (p : nat) (loc : Z), rows.2 !! p = Some loc →
    ∃ e ind, 0 ≤ e < nelems s ∧ getindex s e = Ok ind ∧ 0 ≤ loc ∧
             ind !! Z.to_nat loc = Some (Z.of_nat p).
Proof.
  intros Hpart Hn Hf p loc Hloc. unfold zip_fill in Hf.
  destruct (zip_fill_Ok junk s Hpart Hn) as (rows0 & Hf0 & _ & Hl2 & _).
  unfold zip_fill in Hf0. rewrite Hf in Hf0. injection Hf0 as <-.
  pose proof (lookup_lt_Some _ _ _ Hloc) as Hlt.
  set (fresh := replicate (Z.to_nat (npoints s)) junk) in Hf.
  destruct (zip_fill_fold_locals s (Z.to_nat (npoints s)) (numpy.range (nelems s))
              (fresh, fresh) rows) with (p := p) (loc := loc)
    as [(e & ind & He & Hg & Hl & Hp)|(_ & Hnone)].
  - intros e He. unfold numpy.range in He. apply elem_of_seqZ in He.
    destruct (partitions_total s e Hpart ltac:(lia)) as (ind & Hg & Hind).
    exists ind. split; [exact Hg|]. apply List.Forall_forall. intros i Hi.
    apply list_elem_of_In, Hind in Hi. lia.
  - apply length_replicate.
  - apply length_replicate.
  - exact Hf.
  - exact Hloc.
  - unfold numpy.range in He. apply elem_of_seqZ in He.
    exists e, ind. split; [lia | auto].
  - exfalso. destruct (partitions_cover s (Z.of_nat p) Hpart ltac:(lia))
      as (e' & He' & ind & Hg & Hpi).
    apply (Hnone e' ind); [|exact Hg | exact Hpi].
    unfold numpy.range. apply elem_of_seqZ. lia.
Qed.

Lemma partitions_NoDup (s : Sample) (e : Z) (ind : list Z) :
  partitions s → 0 ≤ e < nelems s → getindex s e = Ok ind → NoDup ind.
Proof.
  intros (idx & Hidx & Hperm) He Hg.
  destruct (index_Ok_lookup s idx e Hidx He) as (ind' & Hl & Hg').
  assert (ind' = ind) as -> by congruence.
  assert (Hnd : NoDup (concat idx)) by (rewrite Hperm; apply NoDup_seqZ).
  apply list_elem_of_split_length in Hl as (l1 & l2 & -> & _).
  rewrite concat_app in Hnd. apply list.NoDup_app in Hnd as (_ & _ & Hnd).
  simpl in Hnd. apply list.NoDup_app in Hnd as (Hnd & _). exact Hnd.
Qed.

(** The rows do not depend on what the fresh arrays held. *)
Lemma zip_fill_junk (junk junk' : Z) (s : Sample) :
  partitions s → 0 ≤ npoints s →
  zip_fill junk (npoints s) s = zip_fill junk' (npoints s) s.
Proof.
  intros Hpart Hn.
  destruct (zip_fill_Ok junk s Hpart Hn) as (r & Hr & Hl1 & Hl2 & H1).
  destruct (zip_fill_Ok junk' s Hpart Hn) as (r' & Hr' & Hl1' & Hl2' & H1').
  pose proof (zip_fill_locals junk s r Hpart Hn Hr) as H2.
  pose proof (zip_fill_locals junk' s r' Hpart Hn Hr') as H2'.
  rewrite Hr, Hr'. f_equal. destruct r as [a b], r' as [a' b']; simpl in *.
  f_equal; apply list_eq; intros p.
  - destruct (a !! p) as [e|] eqn:E, (a' !! p) as [e'|] eqn:E'.
    + f_equal. eapply partitions_disjoint; eauto.
    + apply lookup_lt_Some in E. apply lookup_ge_None in E'. lia.
    + apply lookup_ge_None in E. apply lookup_lt_Some in E'. lia.
    + reflexivity.
  - destruct (b !! p) as [loc|] eqn:E, (b' !! p) as [loc'|] eqn:E'.
    + f_equal.
      destruct (H2 p loc E) as (e & ind & He & Hg & Hl & Hp).
      destruct (H2' p loc' E') as (e' & ind' & He' & Hg' & Hl' & Hp').
      assert (e = e') as <-.
      { apply (partitions_disjoint s e e' (Z.of_nat p) Hpart).
        - split; [exact He|]. exists ind. split; [exact Hg|].
          apply list_elem_of_lookup. eauto.
        - split; [exact He'|]. exists ind'. split; [exact Hg'|].
          apply list_elem_of_lookup. eauto. }
      assert (ind' = ind) as -> by congruence.
      pose proof (partitions_NoDup s e ind Hpart He Hg) as Hnd.
      pose proof (proj1 (NoDup_alt ind) Hnd _ _ _ Hp Hp'). lia.
    + apply lookup_lt_Some in E. apply lookup_ge_None in E'. lia.
    + apply lookup_ge_None in E. apply lookup_lt_Some in E'. lia.
    + reflexivity.
Qed.

Lemma getitem_nonneg_inv {A : Type} (a : list A) (i : Z) (x : A) :
  0 ≤ i → numpy.getitem a i = Ok x → a !! Z.to_nat i = Some x.
Proof.
  intros Hi H. unfold numpy.getitem, numpy.norm_index in H.
  destruct (Z.leb_spec 0 i); [|lia].
  destruct (Z.ltb_spec i (Z.of_nat (length a))); simpl in H.
  - destruct (a !! Z.to_nat i); [congruence | discriminate].
  - destruct (Z.ltb_spec i 0); [lia|]. rewrite andb_false_r in H. discriminate.
Qed.

(** X12: the attribute [_ilocals] of a zipped sample of samples that
    partition their points: for every zipped sample [s] and every
    position [q] of [_indices], [_ilocals] holds the position at which
    the point [_indices[q]] stands in the index array of the element of
    [s] that holds it. *)
Theorem zip_local_positions (junk : Z) (samples : list Sample) (z : Sample) :
  zip junk samples = Ok z → Forall partitions samples →
  ∀ (i : nat) (s : Sample) (q : nat) (p : Z),
    samples !! i = Some s → zip_indices z !! q = Some p →
    ∃ row loc e ind,
      zip_ilocals z !! i = Some row ∧ row !! q = Some loc ∧
      0 ≤ e < nelems s ∧ getindex s e = Ok ind ∧
      0 ≤ loc ∧ ind !! Z.to_nat loc = Some p.
Proof.
  intros Hz Hpart i s q p Hi Hq. unfold zip in Hz.
  apply _Zip_init_Ok in Hz
    as (s0 & rest & rows & flat & ie & il & E & Hnp & _ & Hn & Hrows & Hflat & _ & Hil & ->).
  cbn [zip_indices zip_ilocals] in *.
  rewrite List.Forall_forall in Hnp, Hpart.
  assert (Hs : s ∈ samples) by (apply list_elem_of_lookup; eauto).
  pose proof (Hnp s (proj1 (list_elem_of_In _ _) Hs)) as Enp.
  pose proof (Hpart s (proj1 (list_elem_of_In _ _) Hs)) as Hps.
  destruct (mapM_Ok_lookup _ _ _ Hrows i s Hi) as (r & Hr & Hfill).
  assert (Hsnd : map snd rows !! i = Some r.2).
  { change (map snd rows) with (snd <$> rows). rewrite list_lookup_fmap, Hr. reflexivity. }
  destruct (mapM_Ok_lookup _ _ _ Hil i _ Hsnd) as (row & Hrow & Htake).
  unfold numpy.take in Htake.
  destruct (mapM_Ok_lookup _ _ _ Htake q p Hq) as (loc & Hloc & Hget).
  assert (Hp : 0 ≤ p < numpy.len flat).
  { apply layout_indices_elem. apply list_elem_of_lookup. eauto. }
  apply getitem_nonneg_inv in Hget; [|lia].
  rewrite <- Enp in Hfill, Hn.
  destruct (zip_fill_locals junk s r Hps Hn Hfill _ _ Hget)
    as (e & ind & He & Hg & Hl & Hind).
  rewrite Z2Nat.id in Hind by lia.
  exists row, loc, e, ind. auto 10.
Qed.

Lemma zip_local_positions_witness :
  ∃ z row loc e ind,
    zip 0 [Examples.X3; Examples.Y111] = Ok z ∧
    zip_ilocals z !! 0%nat = Some row ∧ row !! 1%nat = Some loc ∧
    0 ≤ e < nelems Examples.X3 ∧ getindex Examples.X3 e = Ok ind ∧
    0 ≤ loc ∧ ind !! Z.to_nat loc = Some 1.
Proof.
  assert (∃ z, zip 0 [Examples.X3; Examples.Y111] = Ok z ∧
               zip_indices z !! 1%nat = Some 1) as (z & Hz & Hq).
  { eexists. split; [vm_compute; reflexivity | reflexivity]. }
  destruct (zip_local_positions 0 _ z Hz) with (i := 0%nat) (s := Examples.X3)
    (q := 1%nat) (p := 1) as (row & loc & e & ind & H).
  - repeat constructor; [apply partitions_X3 | apply partitions_Y111].
  - reflexivity.
  - exact Hq.
  - exists z, row, loc, e, ind. split; [exact Hz | exact H].
Defined.

(** X13: the zipped sample of samples that partition their points does
    not depend on the contents of the arrays that [numpy.empty]
    returns: every entry is written before it is read. *)
Theorem zip_ignores_fresh_memory (junk junk' : Z) (samples : list Sample) :
  Forall partitions samples → zip junk samples = zip junk' samples.
Proof.
  intros Hpart. unfold zip, _Zip_init. destruct samples as [|s0 rest]; [reflexivity|].
  destruct (forallb _ (s0 :: rest)) eqn:Hall; [|reflexivity]. cbn [negb].
  destruct (has_duplicates _); [reflexivity|].
  destruct (Z.ltb_spec (npoints s0) 0) as [|Hn]; [reflexivity|].
  rewrite (mapM_ext_elem (zip_fill junk (npoints s0)) (zip_fill junk' (npoints s0)));
    [reflexivity|].
  intros s Hs. rewrite forallb_forall in Hall.
  pose proof (Hall s (proj1 (list_elem_of_In _ _) Hs)) as E. apply Z.eqb_eq in E.
  rewrite List.Forall_forall in Hpart.
  rewrite <- E. apply zip_fill_junk; [apply Hpart, list_elem_of_In, Hs | lia].
Qed.

Lemma zip_ignores_fresh_memory_witness :
  zip 0 [Examples.X3; Examples.Y111] = zip 7 [Examples.X3; Examples.Y111].
Proof.
  apply zip_ignores_fresh_memory.
  repeat constructor; [apply partitions_X3 | apply partitions_Y111].
Defined.

(** ** The shape of a basis *)

(** X14: whenever [basis] of a constructed sample succeeds, the array
    has one axis with as many entries as the sample has points. *)
Theorem basis_shape (s : Sample) (interpolation : string) (f : Array) :
  Constructed s → basis s interpolation = Ok f → Array_shape f = [npoints s].
Proof.
  revert f.
  induction s as [a sp tr pts | a sp tr pts parent IH index | a |
    a s1 IH1 s2 IH2 | a s1 IH1 s2 IH2 | | a parent IH indices offs];
    intros f Hc Hb; try discriminate.
  - simpl in Hb. unfold _Basis_init in Hb.
    destruct (negb _); [discriminate|]. injection Hb as <-. reflexivity.
  - simpl in Hb. unfold _Basis_init in Hb.
    destruct (negb _); [discriminate|]. injection Hb as <-. reflexivity.
  - apply Constructed_inv in Hc as [_ Hn]. injection Hb as <-.
    unfold npoints; simpl. rewrite Hn. reflexivity.
  - apply Constructed_inv in Hc as (Hc1 & Hc2 & Hc).
    apply _Mul_init_Ok in Hc as (_ & E). injection E as ->.
    simpl in Hb. apply bind_Ok in Hb as (b1 & Hb1 & Hb).
    apply bind_Ok in Hb as (b2 & Hb2 & Hb). apply bind_Ok in Hb as ([] & _ & Hb).
    injection Hb as <-. simpl.
    rewrite (IH1 b1 Hc1 Hb1), (IH2 b2 Hc2 Hb2). unfold npoints at 3; simpl.
    f_equal. lia.
Qed.

Lemma basis_shape_witness :
  ∃ p f, __mul__ Examples.X2 Examples.Y111 = Ok p ∧
         basis p "none" = Ok f ∧ Array_shape f = [6].
Proof.
  assert (∃ p f, __mul__ Examples.X2 Examples.Y111 = Ok p ∧ basis p "none" = Ok f ∧
                 npoints p = 6) as (p & f & Hp & Hf & Hn).
  { eexists _, _. split; [vm_compute; reflexivity|]. split; reflexivity. }
  exists p, f. split; [exact Hp|]. split; [exact Hf|]. rewrite <- Hn.
  apply (basis_shape p "none" f); [|exact Hf].
  apply (C_Mul Examples.X2 Examples.Y111);
    [apply X2_Constructed | apply Y111_Constructed|].
  unfold __mul__ in Hp. exact Hp.
Defined.

(** ** Triangulations of elements *)

(** X15: for a constructed sample made of leaves, the empty sample,
    sums and element subsets, [get_element_tri] and [get_element_hull]
    raise an [IndexError] for every element index outside
    [[0, nelems)]. *)
Theorem element_tri_out_of_range (product_tri : ProductTri) (product_hull : ProductHull)
    (s : Sample) :
  Constructed s → leaf_elements s = true →
  ∀ ielem, ¬ (0 ≤ ielem < nelems s) →
    get_element_tri product_tri s ielem = Raise IndexError ∧
    get_element_hull product_tri product_hull s ielem = Raise IndexError.
Proof.
  induction s as [a sp tr pts | a sp tr pts parent IH index | a |
    a s1 IH1 s2 IH2 | a s1 IH1 s2 IH2 | | a parent IH indices offs];
    intros Hc Hl ielem Hr; try discriminate.
  - simpl. unfold nelems in Hr; simpl in Hr. rewrite in_range_false by assumption.
    split; reflexivity.
  - simpl. unfold nelems in Hr; simpl in Hr. rewrite in_range_false by assumption.
    split; reflexivity.
  - split; reflexivity.
  - apply Constructed_inv in Hc as (Hc1 & Hc2 & Hc).
    apply _Add_init_Ok in Hc as (_ & E). injection E as ->.
    simpl in Hl. apply andb_true_iff in Hl as [Hl1 Hl2].
    pose proof (Constructed_nonneg _ Hc1) as [Hn1 _].
    pose proof (Constructed_nonneg _ Hc2) as [Hn2 _].
    unfold nelems at 1 in Hr; simpl in Hr. simpl.
    destruct (Z.ltb_spec ielem (nelems s1)).
    + apply IH1; [assumption | assumption | lia].
    + apply IH2; [assumption | assumption | lia].
  - simpl. unfold nelems in Hr; simpl in Hr. rewrite in_range_false by assumption.
    split; reflexivity.
Qed.

Lemma element_tri_out_of_range_witness :
  get_element_tri (fun _ _ _ _ => Raise NotImplementedError) Examples2.L22_swapped 2
  = Raise IndexError ∧
  get_element_hull (fun _ _ _ _ => Raise NotImplementedError)
    (fun _ _ _ _ _ _ => Raise NotImplementedError) Examples2.L22_swapped 2
  = Raise IndexError.
Proof.
  apply element_tri_out_of_range;
    [apply L22_swapped_Constructed | reflexivity |].
  change (nelems Examples2.L22_swapped) with 2. lia.
Defined.

Lemma local_vertices_take (ind : list Z) (t : list (list Z)) :
  local_vertices t (numpy.len ind) →
  ∃ rows, mapM (numpy.take ind) t = Ok rows ∧
          Forall (Forall (fun v => v ∈ ind)) rows.
Proof.
  induction 1 as [|row t Hrow _ (rows & Hrows & Hall)]; [exists []; split; constructor|].
  rewrite List.Forall_forall in Hrow.
  destruct (take_total ind row) as [r Hr].
  { intros i Hi. apply Hrow, list_elem_of_In, Hi. }
  exists (r :: rows). simpl. rewrite Hr, Hrows. split; [reflexivity|].
  constructor; [|exact Hall]. apply List.Forall_forall. intros v Hv.
  apply list_elem_of_In, list_elem_of_lookup in Hv as [k Hk].
  unfold numpy.take in Hr. pose proof (mapM_Ok_length _ _ _ Hr) as Hlen.
  destruct (row !! k) as [i|] eqn:Ei.
  - destruct (mapM_Ok_lookup _ _ _ Hr k i Ei) as (y & Hy & Hget).
    assert (y = v) as -> by congruence. exact (getitem_Ok_elem _ _ _ Hget).
  - apply lookup_ge_None in Ei. apply lookup_lt_Some in Hk. lia.
Qed.

Lemma leaf_element_tri (product_tri : ProductTri) (product_hull : ProductHull)
    (s : Sample) (e : Z) (ind : list Z) :
  Constructed s → transform_backed s = true → points_valid s →
  getindex s e = Ok ind →
  ∃ t h, get_element_tri product_tri s e = Ok t ∧
         get_element_hull product_tri product_hull s e = Ok h ∧
         local_vertices t (numpy.len ind) ∧ local_vertices h (numpy.len ind).
Proof.
  intros Hc Ht Hv He.
  destruct (leaf_getindex_len s Hc Ht e ind He) as (Hr & p & Hp & Hlen).
  pose proof (leaf_init s Hc Ht) as Hinit.
  apply _TransformChainsSample_init_Ok in Hinit as (t0 & rest & _ & _ & Ea).
  assert (Hval : local_vertices (points_tri p) (Points_npoints p) ∧
                 local_vertices (points_hull p) (Points_npoints p)).
  { assert (Hall : Forall (fun p => local_vertices (points_tri p) (Points_npoints p) ∧
                                    local_vertices (points_hull p) (Points_npoints p))
                     (sample_points s))
      by (destruct s; try discriminate; exact Hv).
    rewrite List.Forall_forall in Hall. apply Hall, list_elem_of_In, list_elem_of_lookup.
    eauto. }
  exists (points_tri p), (points_hull p). rewrite Hlen.
  assert (Hget : PointsSequence_get (sample_points s) e = Ok p)
    by (apply getitem_nonneg; [lia | exact Hp]).
  assert (Hin : in_range e (attr_nelems (attrs s)) = true)
    by (rewrite Ea; apply in_range_true; exact Hr).
  destruct s; try discriminate; simpl in *; rewrite Hin, Hget; simpl; tauto.
Qed.

(** X16: for a constructed sample made of leaves, sums and element
    subsets whose points supply triangulations with vertices among the
    points of their element, and for every element on which [getindex]
    succeeds: [get_element_tri] and [get_element_hull] succeed, their
    vertices are positions of the array that [getindex] returns, and so
    [numpy.take(self.getindex(i), self.get_element_tri(i))] of
    [Sample.tri] and [Sample.hull] succeeds and yields points of this
    element only. *)
Theorem element_tri_vertices (product_tri : ProductTri) (product_hull : ProductHull)
    (s : Sample) :
  Constructed s → leaf_elements s = true → points_valid s →
  ∀ e ind, getindex s e = Ok ind →
    ∃ t h, get_element_tri product_tri s e = Ok t ∧
           get_element_hull product_tri product_hull s e = Ok h ∧
           local_vertices t (numpy.len ind) ∧ local_vertices h (numpy.len ind) ∧
           (∃ rows, mapM (numpy.take ind) t = Ok rows ∧
                    Forall (Forall (fun v => v ∈ ind)) rows) ∧
           (∃ rows, mapM (numpy.take ind) h = Ok rows ∧
                    Forall (Forall (fun v => v ∈ ind)) rows).
Proof.
  intros Hc Hl Hv e ind He.
  enough (∃ t h, get_element_tri product_tri s e = Ok t ∧
                 get_element_hull product_tri product_hull s e = Ok h ∧
                 local_vertices t (numpy.len ind) ∧ local_vertices h (numpy.len ind))
    as (t & h & Ht & Hh & Vt & Vh).
  { exists t, h. repeat (split; [assumption|]).
    split; apply local_vertices_take; assumption. }
  revert Hc Hl Hv e ind He.
  induction s as [a sp tr pts | a sp tr pts parent IH index | a |
    a s1 IH1 s2 IH2 | a s1 IH1 s2 IH2 | | a parent IH indices offs];
    intros Hc Hl Hv e ind He; try discriminate.
  - apply leaf_element_tri; [assumption | reflexivity | assumption | assumption].
  - apply leaf_element_tri; [assumption | reflexivity | assumption | assumption].
  - apply Constructed_inv in Hc as (Hc1 & Hc2 & _).
    simpl in Hl. apply andb_true_iff in Hl as [Hl1 Hl2]. destruct Hv as [Hv1 Hv2].
    simpl in He |- *. destruct (e <? nelems s1).
    + apply IH1; assumption.
    + apply bind_Ok in He as (i & Hi & He). injection He as <-.
      unfold numpy.len. rewrite length_map. apply IH2; assumption.
  - pose proof Hc as Hc'. apply Constructed_inv in Hc' as (Hcp & Hinit).
    pose proof (_TakeElements_init_elements _ _ _ Hinit) as (Hne & _ & _ & Hel).
    unfold nelems in Hne. simpl in Hne, Hl, Hv.
    simpl in He |- *.
    destruct (in_range e (attr_nelems a)) eqn:Er; [|discriminate]. simpl in He |- *.
    rewrite Hne in Er. unfold in_range in Er. apply andb_true_iff in Er as [E1 E2].
    apply Z.leb_le in E1. apply Z.ltb_lt in E2. unfold numpy.len in E2.
    destruct (lookup_lt_is_Some_2 indices (Z.to_nat e) ltac:(lia)) as [i Hi].
    rewrite (getitem_nonneg _ e i E1 Hi). simpl.
    destruct (Hel _ _ Hi) as (ind' & lo & Hp & Hg).
    rewrite Z2Nat.id in Hg by lia. simpl in Hg.
    rewrite Hne in Hg. rewrite (in_range_true e (numpy.len indices)) in Hg
      by (unfold numpy.len; lia).
    simpl in Hg. rewrite He in Hg. injection Hg as ->.
    rewrite len_arange by apply len_nonneg.
    apply IH; assumption.
Qed.

Lemma element_tri_vertices_witness :
  ∃ t h,
    get_element_tri (fun _ _ _ _ => Raise NotImplementedError) Examples2.L22_swapped 1
    = Ok t ∧
    get_element_hull (fun _ _ _ _ => Raise NotImplementedError)
      (fun _ _ _ _ _ _ => Raise NotImplementedError) Examples2.L22_swapped 1
    = Ok h ∧
    local_vertices t 2 ∧ local_vertices h 2 ∧
    (∃ rows, mapM (numpy.take [2; 3]) t = Ok rows ∧
             Forall (Forall (fun v => v ∈ [2; 3])) rows) ∧
    (∃ rows, mapM (numpy.take [2; 3]) h = Ok rows ∧
             Forall (Forall (fun v => v ∈ [2; 3])) rows).
Proof.
  assert (Hv : points_valid Examples2.L22_swapped).
  { simpl. unfold local_vertices, Points_npoints. simpl. repeat constructor; lia. }
  exact (element_tri_vertices _ _ Examples2.L22_swapped L22_swapped_Constructed
           eq_refl Hv 1 [2; 3] eq_refl).
Defined.

(** ** Default numbering and the checks of [Sample.new] *)

(** X18: without an index, [Sample.new] numbers the points in increasing
    order: the concatenation of [getindex] over all elements is
    [0, 1, ..., npoints - 1], and every element gets as many numbers as
    it has points. *)
Theorem new_default_index (space : string) (transforms : list Transforms)
    (points : PointsSequence) (s : Sample) :
  new space transforms points IndexNone = Ok s →
  nelems s = numpy.len points ∧
  npoints s = PointsSequence_npoints points ∧
  ∃ idx, index s = Ok idx ∧
         concat idx = numpy.range (npoints s) ∧
         Forall2 (fun i p => numpy.len i = Points_npoints p) idx points.
Proof.
  intros H. unfold new, _DefaultIndex_init in H.
  apply bind_Ok in H as (sample & Hsample & H). injection H as ->.
  apply bind_Ok in Hsample as (a & Ha & Hsample). injection Hsample as <-.
  apply _TransformChainsSample_init_Ok in Ha as (t0 & rest & _ & _ & ->).
  split; [reflexivity|]. split; [reflexivity|].
  set (sizes := map Points_npoints points).
  exists (map (fun k : nat => numpy.arange (numpy.sum (take k sizes))
                                (numpy.sum (take (S k) sizes)))
            (seq 0 (length points))).
  split; [|split].
  - unfold index, nelems. cbn [attrs attr_nelems].
    unfold numpy.range, numpy.len. rewrite seqZ_of_seq, mapM_map.
    apply mapM_Ok_elem. intros k Hk. apply elem_of_seq in Hk.
    apply offsets_getindex; [reflexivity | lia].
  - replace (length points) with (length sizes) by (unfold sizes; apply length_map).
    rewrite concat_aranges by apply Points_npoints_nonneg. reflexivity.
  - apply Forall2_same_length_lookup. split.
    + rewrite length_map, length_seq. reflexivity.
    + intros k i p Hi Hp.
      change (map ?f ?l) with (f <$> l) in Hi. rewrite list_lookup_fmap in Hi.
      pose proof (lookup_lt_Some _ _ _ Hp) as Hlt.
      rewrite lookup_seq_lt in Hi by lia.
      simpl in Hi. injection Hi as <-.
      assert (Hm : sizes !! k = Some (Points_npoints p)).
      { unfold sizes. change (map ?f ?l) with (f <$> l).
        rewrite list_lookup_fmap, Hp. reflexivity. }
      rewrite (take_S_r _ _ _ Hm), sum_app.
      replace (numpy.sum [Points_npoints p]) with (Points_npoints p)
        by (unfold numpy.sum; simpl; lia).
      apply len_arange. unfold Points_npoints. lia.
Qed.

Lemma new_default_index_witness :
  ∃ s idx, new "X" [mkTransforms 1 [0; 1]] [mkPoints 1 [] []; mkPoints 2 [] []]
             IndexNone = Ok s ∧
           index s = Ok idx ∧ concat idx = [0; 1; 2].
Proof.
  assert (∃ s, new "X" [mkTransforms 1 [0; 1]] [mkPoints 1 [] []; mkPoints 2 [] []]
                 IndexNone = Ok s ∧ npoints s = 3) as (s & Hs & Hn).
  { eexists. split; [vm_compute; reflexivity | reflexivity]. }
  destruct (new_default_index _ _ _ _ Hs) as (_ & _ & idx & Hidx & Hc & _).
  exists s, idx. split; [exact Hs|]. split; [exact Hidx|]. rewrite Hc, Hn. reflexivity.
Defined.

(** X19: with no index, a flat index, or a tuple of at least one index
    array, [Sample.new] succeeds when there is at least one transforms
    object, every transforms object is as long as the points sequence,
    and the index, if given, has the asserted shape (a flat array with
    one entry per point, or a tuple whose arrays are as long as the
    elements have points and have one entry per point together); in
    every other case it raises an [AssertionError], and no other
    exception. *)
Theorem new_checks (space : string) (transforms : list Transforms)
    (points : PointsSequence) (index : IndexArg) :
  index ≠ IndexTuple [] →
  (transforms ≠ [] →
   (∀ t, t ∈ transforms → numpy.len (chains t) = numpy.len points) →
   index_fits points index = true →
   ∃ s, new space transforms points index = Ok s) ∧
  (transforms = [] ∨
   (∃ t, t ∈ transforms ∧ numpy.len (chains t) ≠ numpy.len points) ∨
   index_fits points index = false →
   new space transforms points index = Raise AssertionError).
Proof.
  intros _.
  assert (Hinit : (transforms ≠ [] ∧
                   ∀ t, t ∈ transforms → numpy.len (chains t) = numpy.len points) →
                  ∃ a, _TransformChainsSample_init space transforms points = Ok a ∧
                       attr_npoints a = PointsSequence_npoints points).
  { intros [Hne Hall]. destruct transforms as [|t0 rest]; [contradiction|].
    unfold _TransformChainsSample_init.
    replace (1 <=? numpy.len (t0 :: rest)) with true
      by (symmetry; apply Z.leb_le; unfold numpy.len; simpl; lia).
    cbn [assert bind].
    replace (forallb _ (t0 :: rest)) with true.
    2: { symmetry. apply forallb_forall. intros t Ht. apply Z.eqb_eq.
         apply Hall, list_elem_of_In, Ht. }
    cbn [assert bind]. rewrite (getitem_nonneg _ 0 t0); [|lia | reflexivity].
    cbn [bind]. eauto. }
  assert (Hfail : transforms = [] ∨
                  (∃ t, t ∈ transforms ∧ numpy.len (chains t) ≠ numpy.len points) →
                  _TransformChainsSample_init space transforms points
                  = Raise AssertionError).
  { intros [-> | (t & Ht & Hlen)]; [reflexivity|].
    unfold _TransformChainsSample_init.
    destruct (1 <=? numpy.len transforms); [|reflexivity]. cbn [assert bind].
    replace (forallb _ transforms) with false; [reflexivity|].
    symmetry. apply not_true_is_false. intros Hall. rewrite forallb_forall in Hall.
    apply Hlen, Z.eqb_eq, Hall, list_elem_of_In, Ht. }
  split.
  - intros Hne Hall Hfit. destruct (Hinit (conj Hne Hall)) as (a & Ha & Hnp).
    unfold new, _DefaultIndex_init. rewrite Ha. cbn [bind].
    destruct index as [|ind|inds]; [eauto | |]; simpl in Hfit.
    + unfold _CustomIndex_init, npoints. cbn [attrs]. rewrite Hnp, Hfit.
      cbn [assert bind]. rewrite Ha. cbn [bind]. eauto.
    + apply andb_true_iff in Hfit as [Hm Hlen]. rewrite Hm. cbn [assert bind].
      unfold _CustomIndex_init, npoints. cbn [attrs]. rewrite Hnp, Hlen.
      cbn [assert bind]. rewrite Ha. cbn [bind]. eauto.
  - intros H.
    assert (Hraise : ∀ e, _TransformChainsSample_init space transforms points = Raise e →
                          e = AssertionError).
    { intros e. unfold _TransformChainsSample_init.
      destruct (Z.leb_spec 1 (numpy.len transforms)) as [Hlen|]; [|intros [= <-]; reflexivity].
      cbn [assert bind]. destruct (forallb _ transforms); [|intros [= <-]; reflexivity].
      cbn [assert bind]. destruct transforms as [|t0 rest]; [unfold numpy.len in Hlen; simpl in Hlen; lia|].
      rewrite (getitem_nonneg _ 0 t0); [|lia | reflexivity]. discriminate. }
    unfold new, _DefaultIndex_init.
    destruct (_TransformChainsSample_init space transforms points) as [a|e] eqn:Ha.
    2: { rewrite (Hraise e eq_refl). reflexivity. }
    destruct H as [H | [H | H]];
      [ discriminate (Hfail (or_introl H))
      | discriminate (Hfail (or_intror H)) |].
    pose proof Ha as Ha'.
    apply _TransformChainsSample_init_Ok in Ha' as (t0 & rest & _ & _ & Ea).
    cbn [bind]. destruct index as [|ind|inds]; simpl in H; [discriminate | |].
    + unfold _CustomIndex_init, npoints. cbn [attrs]. rewrite Ea. cbn [attr_npoints].
      rewrite H. reflexivity.
    + destruct (shapes_match inds points); [|reflexivity]. cbn [assert bind].
      simpl in H. unfold _CustomIndex_init, npoints. cbn [attrs]. rewrite Ea.
      cbn [attr_npoints]. rewrite H. reflexivity.
Qed.

Lemma new_checks_witness :
  (∃ s, new "X" [mkTransforms 1 [0; 1]] [mkPoints 1 [] []; mkPoints 2 [] []]
          (IndexArray [2; 0; 1]) = Ok s) ∧
  new "X" [mkTransforms 1 [0; 1]] [mkPoints 1 [] []; mkPoints 2 [] []]
    (IndexArray [1; 0]) = Raise AssertionError.
Proof.
  split.
  - apply new_checks; [discriminate | discriminate | | reflexivity].
    intros t Ht. apply list_elem_of_singleton in Ht as ->. reflexivity.
  - apply new_checks; [discriminate|]. right. right. reflexivity.
Defined.

(** ** The numbering of a sum *)

(** X17: the sum of two constructed samples on equal spaces that both
    have points numbers the elements and points of the first operand
    first: its [index] is the [index] of the first operand followed by
    the [index] of the second, shifted by the number of points of the
    first. *)
Theorem add_index (a b : Sample) (ia ib : list (list Z)) :
  Constructed a → Constructed b → spaces a = spaces b →
  npoints a ≠ 0 → npoints b ≠ 0 →
  index a = Ok ia → index b = Ok ib →
  ∃ r, __add__ a b = Ok r ∧
       index r = Ok (ia ++ map (map (fun p => p + npoints a)) ib).
Proof.
  intros Hca Hcb Esp Ha Hb Hia Hib.
  destruct (Constructed_nonneg _ Hca) as [Hn1 _].
  destruct (Constructed_nonneg _ Hcb) as [Hn2 _].
  eexists. split; [apply add_nonzero; assumption|].
  unfold index in *.
  match goal with
  | |- context [nelems (Add ?A a b)] =>
      change (nelems (Add A a b)) with (nelems a + nelems b)
  end.
  unfold numpy.range in *. rewrite seqZ_app, mapM_app by assumption.
  rewrite (mapM_ext_elem _ (getindex a)).
  2: { intros e He. apply elem_of_seqZ in He. simpl.
       replace (e <? nelems a) with true by (symmetry; apply Z.ltb_lt; lia).
       reflexivity. }
  rewrite Hia. simpl.
  rewrite (Z.add_comm 0 (nelems a)), <- (fmap_add_seqZ (nelems a) 0).
  change (Z.add (nelems a) <$> ?l) with (map (Z.add (nelems a)) l).
  rewrite mapM_map.
  rewrite (mapM_ext_elem _
    (fun e => bind (getindex b e) (fun i => Ok (map (fun p => p + npoints a) i)))).
  2: { intros e He. apply elem_of_seqZ in He. simpl.
       replace (nelems a + e <? nelems a) with false
         by (symmetry; apply Z.ltb_ge; lia).
       replace (nelems a + e - nelems a) with e by lia. reflexivity. }
  rewrite (mapM_bind _ _ (map (fun p => p + npoints a)) _ _ Hib) by reflexivity.
  reflexivity.
Qed.

Lemma add_index_witness :
  ∃ r, __add__ Examples.X1 Examples.X2 = Ok r ∧
       index r = Ok ([[0]] ++ map (map (fun p => p + npoints Examples.X1)) [[0; 1]]).
Proof.
  apply add_index;
    [apply X1_Constructed | apply X2_Constructed | reflexivity
    | discriminate | discriminate | reflexivity | reflexivity].
Defined.

(** ** Zipping is symmetric *)

(** X20: zipping is symmetric up to the numbering of the elements: when
    the zipped sample of samples that partition their points exists, the
    zipped sample of the same samples in another order exists, has the
    same number of points, and joins the same points into elements. *)
Theorem zip_symmetric (junk junk' : Z) (samples samples' : list Sample) (z : Sample) :
  zip junk samples = Ok z → Forall partitions samples → samples ≡ₚ samples' →
  ∃ z', zip junk' samples' = Ok z' ∧ npoints z' = npoints z ∧
        ∀ p q, same_element z p q ↔ same_element z' p q.
Proof.
  intros Hz Hpart Hperm. unfold zip in *.
  assert (Hpart' : Forall partitions samples') by (rewrite <- Hperm; exact Hpart).
  pose proof Hz as Hz0.
  apply _Zip_init_Ok in Hz0
    as (s0 & rest & rows & flat & ie & il & E & Hnp & Hnd & Hn & Hrows & Hflat & _ & _ & Ez).
  destruct samples' as [|s0' rest'] eqn:E'.
  { apply Permutation_nil_r in Hperm. congruence. }
  assert (Hs0' : npoints s0' = npoints s0).
  { rewrite List.Forall_forall in Hnp. apply Hnp, list_elem_of_In.
    rewrite Hperm. left. }
  assert (Hnp' : Forall (fun s => npoints s = npoints s0') (s0' :: rest')).
  { rewrite <- Hperm, Hs0'. exact Hnp. }
  destruct (_Zip_init_total junk' s0' rest') as [z' Hz'].
  - lia.
  - exact Hnp'.
  - rewrite <- !flat_map_concat_map in *.
    rewrite <- (Permutation_flat_map spaces Hperm). exact Hnd.
  - exact Hpart'.
  - exists z'. split; [exact Hz'|].
    pose proof Hz' as Hz0'.
    apply _Zip_init_Ok in Hz0'
      as (s1 & rest1 & rows' & flat' & ie' & il' & E1 & _ & _ & Hn' & Hrows' & Hflat' & _ & _ & Ez').
    injection E1 as <- <-.
    split; [rewrite Ez, Ez'; unfold npoints; simpl; exact Hs0'|].
    assert (Hsame : ∀ p q e e' f f',
              contains z e p → contains z e' q → contains z' f p → contains z' f' q →
              (e = e' ↔ f = f')).
    { intros p q e e' f f' H1 H2 H3 H4. rewrite Ez in H1, H2. rewrite Ez' in H3, H4.
      rewrite (zs_same_element junk samples _ rows flat ie _ _ il Hn Hnp Hpart Hrows Hflat
                 e e' p q H1 H2).
      rewrite (zs_same_element junk' (s0' :: rest') _ rows' flat' ie' _ _ il'
                 Hn' Hnp' Hpart' Hrows' Hflat' f f' p q H3 H4).
      split; intros H s Hs; apply H; [rewrite Hperm | rewrite <- Hperm]; exact Hs. }
    assert (Hz_part : partitions z)
      by (rewrite Ez; eapply zs_partitions; eassumption).
    assert (Hz'_part : partitions z')
      by (rewrite Ez'; eapply zs_partitions; eassumption).
    assert (Hnpz : npoints z' = npoints z)
      by (rewrite Ez, Ez'; unfold npoints; simpl; exact Hs0').
    assert (Hin : ∀ s e p, contains s e p → partitions s → 0 ≤ p < npoints s).
    { intros s e p (He & ind & Hg & Hp) Hps.
      destruct (partitions_total s e Hps He) as (ind' & Hg' & Hr).
      apply Hr. congruence. }
    intros p q. split.
    + intros (e & Hp & Hq).
      destruct (partitions_cover z' p Hz'_part) as (f & Hf).
      { rewrite Hnpz. eapply Hin; eassumption. }
      destruct (partitions_cover z' q Hz'_part) as (f' & Hf').
      { rewrite Hnpz. eapply Hin; eassumption. }
      assert (f = f') as <- by (apply (Hsame p q e e f f' Hp Hq Hf Hf'); reflexivity).
      exists f. split; assumption.
    + intros (f & Hp & Hq).
      destruct (partitions_cover z p Hz_part) as (e & He).
      { rewrite <- Hnpz. eapply Hin; eassumption. }
      destruct (partitions_cover z q Hz_part) as (e' & He').
      { rewrite <- Hnpz. eapply Hin; eassumption. }
      assert (e = e') as <- by (apply (Hsame p q e e' f f He He' Hp Hq); reflexivity).
      exists e. split; assumption.
Qed.

Lemma zip_symmetric_witness :
  ∃ z z', zip 0 [Examples.X3; Examples.Y111] = Ok z ∧
          zip 0 [Examples.Y111; Examples.X3] = Ok z' ∧
          npoints z' = npoints z ∧
          ∀ p q, same_element z p q ↔ same_element z' p q.
Proof.
  assert (∃ z, zip 0 [Examples.X3; Examples.Y111] = Ok z) as [z Hz].
  { eexists. vm_compute. reflexivity. }
  destruct (zip_symmetric 0 0 _ [Examples.Y111; Examples.X3] z Hz) as (z' & Hz' & H).
  - repeat constructor; [apply partitions_X3 | apply partitions_Y111].
  - apply perm_swap.
  - exists z, z'. split; [exact Hz|]. split; [exact Hz' | exact H].
Defined.
